(** * GRPO transfer: QC approval, label minting and transfer posting

    A shallow embedding of the request handlers of
    [modules/grpo_transfer/routes.py], first of all

    - [qc_approve_items]      (POST /api/session/<id>/qc-approve)
    - [generate_qr_labels]    (POST /api/session/<id>/generate-qr-labels)
    - [post_transfer_to_sap]  (POST /api/session/<id>/post-transfer)

    then the ERP lookups, the label listing and [create_session].

    The persisted store is a record of tables, threaded explicitly through
    each handler.  A handler works on its own copy of the store: a commit
    returns the copy, a rollback (or a return without commit) returns the
    store the request started from.  A flush raises when a value assigned to
    a column cannot be bound, at the commit or before the next query that
    reaches the database.

    Python values that travel through requests, ERP replies and text columns
    are kept dynamically typed ([pyval]); float columns are rationals (every
    finite float is one; [nan] and [inf] are outside the model).

    What the sources do not fix is a parameter of the handlers: three
    functions of the Python runtime, what the persistence layer makes of a
    key that is not an integer and of a number in a column, and the
    relationship [item.batches], which models.py declares. *)

From Stdlib Require Import List String Ascii ZArith QArith Qround Lia Bool.
From Stdlib Require Import DecimalString.
Import ListNotations.

Set Warnings "-register-all".

Local Open Scope string_scope.
Local Open Scope Z_scope.

(** ** Python values *)

Inductive pyval : Type :=
| PNone
| PBool (b : bool)
| PInt (z : Z)
| PFloat (q : Q)
| PStr (s : string)
| PList (l : list pyval)
| PDict (kv : list (string * pyval)).

(** Exceptions the handlers can meet.  [PostError] stands for whatever the
    HTTP client raises (connection refused, timeout, ...), [DatabaseError]
    for what a flush raises on a value it cannot bind. *)
Inductive exn : Type :=
| KeyError (key : string)
| TypeError
| ValueError
| AttributeError
| OverflowError
| JSONDecodeError
| DatabaseError
| PostError (msg : string).

(** A computation that returns or raises. *)
Inductive result (A : Type) : Type :=
| Return (a : A)
| Raise (e : exn).
Arguments Return {A} a.
Arguments Raise {A} e.

Definition bind {A B : Type} (m : result A) (k : A -> result B) : result B :=
  match m with
  | Return a => k a
  | Raise e => Raise e
  end.

Declare Scope py_scope.
Delimit Scope py_scope with py.
Notation "x <- m ;; k" := (bind m (fun x => k))
  (at level 100, m at next level, right associativity) : py_scope.
Local Open Scope py_scope.

(** [for x in xs: acc = body(acc, x)], stopping at the first exception. *)
Fixpoint for_each {A S : Type} (body : S -> A -> result S) (xs : list A) (s : S)
  : result S :=
  match xs with
  | [] => Return s
  | x :: rest => s' <- body s x ;; for_each body rest s'
  end.

(** A dict is kept as its list of bindings; a parsed dict has one binding per
    key and lookup takes the first. *)
Fixpoint lookup (k : string) (kv : list (string * pyval)) : option pyval :=
  match kv with
  | [] => None
  | (k', v) :: rest => if String.eqb k k' then Some v else lookup k rest
  end.

(** [d[k]] *)
Definition subscript (d : pyval) (k : string) : result pyval :=
  match d with
  | PDict kv =>
      match lookup k kv with
      | Some v => Return v
      | None => Raise (KeyError k)
      end
  | _ => Raise TypeError
  end.

(** [d.get(k, default)]; only a dict has [.get]. *)
Definition get (d : pyval) (k : string) (default : pyval) : result pyval :=
  match d with
  | PDict kv =>
      match lookup k kv with
      | Some v => Return v
      | None => Return default
      end
  | _ => Raise AttributeError
  end.

Fixpoint chars (s : string) : list pyval :=
  match s with
  | EmptyString => []
  | String c rest => PStr (String c EmptyString) :: chars rest
  end.

(** What a [for] loop iterates over: the elements of a list, the keys of a
    dict, the characters of a string; anything else is not iterable. *)
Definition iter (v : pyval) : result (list pyval) :=
  match v with
  | PList l => Return l
  | PDict kv => Return (map (fun p => PStr (fst p)) kv)
  | PStr s => Return (chars s)
  | _ => Raise TypeError
  end.

Definition Qgt_bool (a b : Q) : bool := negb (Qle_bool a b).

(** Truth value of a Python object in an [if]. *)
Definition truthy (v : pyval) : bool :=
  match v with
  | PNone => false
  | PBool b => b
  | PInt z => negb (z =? 0)
  | PFloat q => negb (Qeq_bool q 0)
  | PStr s => negb (String.eqb s EmptyString)
  | PList l => match l with [] => false | _ => true end
  | PDict kv => match kv with [] => false | _ => true end
  end.

(** [v == 'text'] for a string literal. *)
Definition eq_str (v : pyval) (text : string) : bool :=
  match v with
  | PStr s => String.eqb s text
  | _ => false
  end.

(** [int(q)] on a finite float: truncation toward zero. *)
Definition py_int (q : Q) : Z := Z.quot (Qnum q) (Z.pos (Qden q)).

(** [float(z)] on an integer: the nearest double, a tie going to the even
    mantissa, and [OverflowError] when that is beyond the largest double.
    Integers below 2^53 in magnitude are doubles already. *)
Definition float_of_int (z : Z) : result Q :=
  let a := Z.abs z in
  if a <? 2 ^ 53 then Return (inject_Z z)
  else
    let shift := Z.log2 a - 52 in
    let mantissa := a / 2 ^ shift in
    let rest := a mod 2 ^ shift in
    let half := 2 ^ (shift - 1) in
    let rounded :=
      if (half <? rest) || ((rest =? half) && Z.odd mantissa)
      then mantissa + 1 else mantissa in
    if 2 ^ 1024 <=? rounded * 2 ^ shift then Raise OverflowError
    else Return (inject_Z (Z.sgn z * (rounded * 2 ^ shift))).

(** [range(1, n + 1)] *)
Definition range1 (n : Z) : list Z := map Z.of_nat (seq 1 (Z.to_nat n)).

(** Decimal rendering of an integer inside an f-string. *)
Definition fmt_int (z : Z) : string := NilZero.string_of_int (Z.to_int z).

(** A date and [date.isoformat()], YYYY-MM-DD. *)
Record date : Type := { year : Z; month : Z; day : Z }.

Definition digit (z : Z) : string :=
  String (ascii_of_N (48 + Z.to_N (z mod 10))) EmptyString.

Definition isoformat (d : date) : string :=
  digit (year d / 1000) ++ digit (year d / 100) ++ digit (year d / 10)
    ++ digit (year d) ++ "-" ++ digit (month d / 10) ++ digit (month d)
    ++ "-" ++ digit (day d / 10) ++ digit (day d).

(** ** The persisted records

    The model classes live in [modules/grpo_transfer/models.py], which is
    not among the sources; the records below carry the columns the handlers
    read or write, under the names the handlers use.  A text column holds
    the Python value assigned to it.  [approved_quantity] is read on
    approved items only, where QC approval has stored a float. *)

Module GRPOTransferSession.
Record t : Type := mk {
  id : Z;
  session_code : string;
  doc_date : date;
  status : string;
  qc_approved_by : option Z;
  transfer_doc_entry : pyval;
  transfer_doc_num : pyval
}.
End GRPOTransferSession.

Module GRPOTransferItem.
Record t : Type := mk {
  id : Z;
  session_id : Z;
  item_code : pyval;
  item_name : pyval;
  is_batch_item : pyval;
  approved_quantity : Q;
  rejected_quantity : Q;
  qc_status : pyval;
  qc_notes : pyval;
  from_warehouse : pyval;
  from_bin_code : pyval;
  to_warehouse : pyval;
  to_bin_code : pyval;
  sap_base_entry : pyval;
  sap_base_line : pyval
}.
End GRPOTransferItem.

(** The rows [item.batches] yields, as the handlers read them: a
    [batch_number] and an [approved_quantity].  [GRPOTransferBatch] is
    imported by the handlers and never built by them; which rows stand
    behind [item.batches] is declared in models.py and left open below
    ([batches_of]). *)
Module GRPOTransferBatch.
Record t : Type := mk {
  item_id : Z;
  batch_number : pyval;
  approved_quantity : Q
}.
End GRPOTransferBatch.

(** The rows QC approval creates, one per entry of an approval's [splits]. *)
Module GRPOTransferSplit.
Record t : Type := mk {
  item_id : Z;
  split_number : pyval;
  quantity : Q;
  status : pyval;
  from_warehouse : pyval;
  from_bin_code : pyval;
  to_warehouse : pyval;
  to_bin_code : pyval;
  batch_number : pyval;
  notes : pyval
}.
End GRPOTransferSplit.

Module GRPOTransferQRLabel.
Record t : Type := mk {
  session_id : Z;
  item_id : Z;
  label_number : Z;
  total_labels : Z;
  qr_data : string;
  batch_number : pyval;
  quantity : Z;
  from_warehouse : pyval;
  to_warehouse : pyval
}.
End GRPOTransferQRLabel.

Module GRPOTransferLog.
Record t : Type := mk {
  session_id : Z;
  user_id : Z;
  action : string;
  description : string;
  sap_response : option string
}.
End GRPOTransferLog.

(** The store: one list of rows per table, in insertion order. *)
Record db : Type := mkdb {
  sessions : list GRPOTransferSession.t;
  items : list GRPOTransferItem.t;
  batches : list GRPOTransferBatch.t;
  splits : list GRPOTransferSplit.t;
  labels : list GRPOTransferQRLabel.t;
  logs : list GRPOTransferLog.t
}.

(** [GRPOTransferSession.query.get(session_id)]; [session_id] is the
    integer of the URL, taken among the keys the database can bind. *)
Definition session_query_get (w : db) (session_id : Z)
  : option GRPOTransferSession.t :=
  find (fun s => GRPOTransferSession.id s =? session_id) (sessions w).

(** The row of the item ledger with a given primary key. *)
Definition item_by_id (w : db) (z : Z) : option GRPOTransferItem.t :=
  find (fun i => GRPOTransferItem.id i =? z) (items w).

(** [session.items] *)
Definition session_items (w : db) (session_id : Z) : list GRPOTransferItem.t :=
  filter (fun i => GRPOTransferItem.session_id i =? session_id) (items w).

(** Writing a mutated row back: the row with the same primary key is
    replaced. *)
Definition save_item (item : GRPOTransferItem.t) (w : db) : db :=
  mkdb (sessions w)
       (map (fun i => if GRPOTransferItem.id i =? GRPOTransferItem.id item
                      then item else i) (items w))
       (batches w) (splits w) (labels w) (logs w).

Definition save_session (s : GRPOTransferSession.t) (w : db) : db :=
  mkdb (map (fun s0 => if GRPOTransferSession.id s0 =? GRPOTransferSession.id s
                       then s else s0) (sessions w))
       (items w) (batches w) (splits w) (labels w) (logs w).

(** [db.session.add(row)] for the tables the handlers insert into. *)
Definition add_split (sp : GRPOTransferSplit.t) (w : db) : db :=
  mkdb (sessions w) (items w) (batches w) (splits w ++ [sp]) (labels w) (logs w).

Definition add_labels (ls : list GRPOTransferQRLabel.t) (w : db) : db :=
  mkdb (sessions w) (items w) (batches w) (splits w) (labels w ++ ls) (logs w).

Definition add_log (l : GRPOTransferLog.t) (w : db) : db :=
  mkdb (sessions w) (items w) (batches w) (splits w) (labels w) (logs w ++ [l]).

(** ** The unit of work

    What [Query.get] makes of a primary key.  An integer is looked up as it
    is.  For any other value the outcome depends on SQLAlchemy and on the
    database and is left open ([read_key] below): the key may stand for an
    integer (Python equates [10.0] and [True] with integers, a one-element
    list is a one-column key), be sent to the database as it is (which may
    read a text as a number and find that row, find nothing, or raise), or
    be refused before anything is sent (a dict, a list of another
    length). *)
Inductive key_reading : Type :=
| Identifies (z : Z)
| Queries (found : result (option Z))
| Rejects (e : exn).

(** The state of the database session during a request on the item ledger:
    the working copy of the store, whether every value assigned since the
    last flush can be bound to its column, and the ids of the item rows the
    session holds (its identity map). *)
Record work : Type := mkwork {
  store : db;
  pending_bindable : bool;
  identity_map : list Z
}.

(** A flush writes what is pending and raises when a value cannot be
    bound. *)
Definition flush (u : work) : result work :=
  if pending_bindable u then Return u else Raise DatabaseError.

(** The row a SELECT by primary key finds, which the session then holds. *)
Definition select_item (u : work) (z : Z)
  : option GRPOTransferItem.t * work :=
  match item_by_id (store u) z with
  | Some item =>
      (Some item,
       mkwork (store u) (pending_bindable u)
              (GRPOTransferItem.id item :: identity_map u))
  | None => (None, u)
  end.

(** ** Requests and responses *)

Record user : Type := { user_id : Z; first_name : string }.

(** What a request sees of its surroundings: the logged-in user and the
    clock, [now_isoformat k] being [datetime.now().isoformat()] as read for
    the label minted after [k] others. *)
Record context : Type := {
  current_user : user;
  now_isoformat : Z -> string
}.

Inductive error_text : Type :=
| Text (s : string)
| StrOf (e : exn).

(** The JSON bodies the handlers return. *)
Inductive payload : Type :=
| Failure (error : error_text)
| Succeeded (message : string)
| LabelsGenerated (labels_generated : Z) (labels : list pyval)
| TransferPosted (sap_doc_entry sap_doc_num : pyval) (message : string).

(** [jsonify(body), status] *)
Definition response : Type := (payload * Z)%type.

(** ** The stock-transfer document

    What [post_transfer_to_sap] sends to the ERP, one record per dict. *)
Module BatchNumbers.
Record t : Type := mk { BatchNumber : pyval; Quantity : Q }.
End BatchNumbers.

Module BinAllocation.
Record t : Type := mk {
  BinActionType : string;
  BinAbsEntry : Z;
  Quantity : Q;
  SerialAndBatchNumbersBaseLine : Z
}.
End BinAllocation.

Module StockTransferLine.
Record t : Type := mk {
  LineNum : nat;
  ItemCode : pyval;
  Quantity : Q;
  WarehouseCode : pyval;
  FromWarehouseCode : pyval;
  BaseEntry : pyval;
  BaseLine : pyval;
  BaseType : string;
  BatchNumbers : list BatchNumbers.t;
  StockTransferLinesBinAllocations : list BinAllocation.t
}.
End StockTransferLine.

Module StockTransfer.
Record t : Type := mk {
  DocDate : string;
  Comments : string;
  FromWarehouse : pyval;
  ToWarehouse : pyval;
  StockTransferLines : list StockTransferLine.t
}.
End StockTransfer.

(** ** The handlers *)

Section Handlers.

(** Three functions of the Python runtime are left open: how [float] reads
    a text (nothing when it raises [ValueError]), [json.dumps], and the
    rendering of a value inside an f-string. *)
Variable float_of_str : string -> option Q.
Variable json_dumps : pyval -> string.
Variable py_str : pyval -> string.

(** Three things depend on the persistence layer and on models.py and are
    left open as well: what [Query.get] makes of a key that is not an
    integer; whether the database takes a number in a given column (a
    64-bit limit, a column of another type); and which rows stand behind
    the relationship [item.batches], given the two tables whose rows carry a
    batch number. *)
Variable read_key : pyval -> key_reading.
Variable stores_number : string -> pyval -> bool.
Variable batches_of :
  list GRPOTransferBatch.t -> list GRPOTransferSplit.t ->
  GRPOTransferItem.t -> list GRPOTransferBatch.t.

(** [float(v)] *)
Definition py_float (v : pyval) : result Q :=
  match v with
  | PNone => Raise TypeError
  | PBool b => Return (if b then 1%Q else 0%Q)
  | PInt z => float_of_int z
  | PFloat q => Return q
  | PStr s =>
      match float_of_str s with
      | Some q => Return q
      | None => Raise ValueError
      end
  | PList _ => Raise TypeError
  | PDict _ => Raise TypeError
  end.

(** Whether a value assigned to a column can be bound when it is flushed:
    None and a text are, a list or a dict is not, and a number is when the
    database takes it there. *)
Definition storable (column : string) (v : pyval) : bool :=
  match v with
  | PNone => true
  | PStr _ => true
  | PBool _ => stores_number column v
  | PInt _ => stores_number column v
  | PFloat _ => stores_number column v
  | PList _ => false
  | PDict _ => false
  end.

(** [item.batches] *)
Definition item_batches (w : db) (item : GRPOTransferItem.t)
  : list GRPOTransferBatch.t :=
  batches_of (batches w) (splits w) item.

(** How a primary key is read: an integer as it is. *)
Definition reading (key : pyval) : key_reading :=
  match key with
  | PInt z => Identifies z
  | _ => read_key key
  end.

(** Whether the database can bind an integer key to the query: the id of
    a row it holds is one it can; for another integer it is as for a number
    in the id column. *)
Definition binds_key (w : db) (z : Z) : bool :=
  match item_by_id w z with
  | Some _ => true
  | None => stores_number "GRPOTransferItem.id" (PInt z)
  end.

(** [GRPOTransferItem.query.get(key)].  A row the session holds is served
    from its identity map; otherwise the query goes to the database, which
    flushes first and raises on a key it cannot bind. *)
Definition item_query_get (u : work) (key : pyval)
  : result (option GRPOTransferItem.t * work) :=
  match reading key with
  | Identifies z =>
      if existsb (Z.eqb z) (identity_map u)
      then Return (item_by_id (store u) z, u)
      else
        u1 <- flush u ;;
        if binds_key (store u1) z then Return (select_item u1 z)
        else Raise DatabaseError
  | Queries found =>
      u1 <- flush u ;;
      row <- found ;;
      match row with
      | Some z => Return (select_item u1 z)
      | None => Return (None, u1)
      end
  | Rejects e => Raise e
  end.

(** *** QC approval *)

(** One turn of [for split_data in splits]. *)
Definition add_split_data (item : GRPOTransferItem.t) (u : work)
           (split_data : pyval) : result work :=
  split_number <- get split_data "split_number" PNone ;;
  quantity_raw <- get split_data "quantity" (PInt 0) ;;
  quantity <- py_float quantity_raw ;;
  status <- get split_data "status" PNone ;;
  from_warehouse <- get split_data "from_warehouse" PNone ;;
  from_bin_code <- get split_data "from_bin_code" PNone ;;
  to_warehouse <- get split_data "to_warehouse" PNone ;;
  to_bin_code <- get split_data "to_bin_code" PNone ;;
  batch_number <- get split_data "batch_number" PNone ;;
  notes <- get split_data "notes" PNone ;;
  Return (mkwork
            (add_split
               (GRPOTransferSplit.mk (GRPOTransferItem.id item) split_number
                  quantity status from_warehouse from_bin_code to_warehouse
                  to_bin_code batch_number notes) (store u))
            (pending_bindable u
             && storable "GRPOTransferSplit.split_number" split_number
             && storable "GRPOTransferSplit.status" status
             && storable "GRPOTransferSplit.from_warehouse" from_warehouse
             && storable "GRPOTransferSplit.from_bin_code" from_bin_code
             && storable "GRPOTransferSplit.to_warehouse" to_warehouse
             && storable "GRPOTransferSplit.to_bin_code" to_bin_code
             && storable "GRPOTransferSplit.batch_number" batch_number
             && storable "GRPOTransferSplit.notes" notes)
            (identity_map u)).

(** One turn of [for item_approval in data.get('items', [])]. *)
Definition approve_item (u : work) (item_approval : pyval) : result work :=
  key <- subscript item_approval "item_id" ;;
  found <- item_query_get u key ;;
  match fst found with
  | None => Return (snd found)                              (* continue *)
  | Some item =>
      approved_raw <- get item_approval "approved_quantity" (PInt 0) ;;
      approved_quantity <- py_float approved_raw ;;
      rejected_raw <- get item_approval "rejected_quantity" (PInt 0) ;;
      rejected_quantity <- py_float rejected_raw ;;
      qc_status <- get item_approval "qc_status" (PStr "pending") ;;
      qc_notes <- get item_approval "qc_notes" PNone ;;
      to_warehouse <- get item_approval "to_warehouse" PNone ;;
      to_bin_code <- get item_approval "to_bin_code" PNone ;;
      let item' :=
        GRPOTransferItem.mk
          (GRPOTransferItem.id item) (GRPOTransferItem.session_id item)
          (GRPOTransferItem.item_code item) (GRPOTransferItem.item_name item)
          (GRPOTransferItem.is_batch_item item)
          approved_quantity rejected_quantity qc_status qc_notes
          (GRPOTransferItem.from_warehouse item)
          (GRPOTransferItem.from_bin_code item)
          to_warehouse to_bin_code
          (GRPOTransferItem.sap_base_entry item)
          (GRPOTransferItem.sap_base_line item) in
      let u1 :=
        mkwork
          (save_item item' (store (snd found)))
          (pending_bindable (snd found)
           && storable "GRPOTransferItem.qc_status" qc_status
           && storable "GRPOTransferItem.qc_notes" qc_notes
           && storable "GRPOTransferItem.to_warehouse" to_warehouse
           && storable "GRPOTransferItem.to_bin_code" to_bin_code)
          (identity_map (snd found)) in
      splits_raw <- get item_approval "splits" (PList []) ;;
      split_list <- iter splits_raw ;;
      for_each (add_split_data item') split_list u1
  end.

(** The body of the [try] up to the first commit; the request starts with
    nothing pending and no item row held. *)
Definition approve_batch (data : pyval) (w : db) : result work :=
  batch_raw <- get data "items" (PList []) ;;
  batch <- iter batch_raw ;;
  for_each approve_item batch (mkwork w true []).

Definition qc_approve_items (c : context) (data : pyval) (session_id : Z)
           (w : db) : response * db :=
  match session_query_get w session_id with
  | None => ((Failure (Text "Session not found"), 404), w)
  | Some session =>
      (* the loop, then db.session.commit(), which flushes *)
      match (u <- approve_batch data w ;; flush u) with
      | Raise e =>
          (* except: db.session.rollback() *)
          ((Failure (StrOf e), 500), w)
      | Return u =>
          let session' :=
            GRPOTransferSession.mk
              (GRPOTransferSession.id session)
              (GRPOTransferSession.session_code session)
              (GRPOTransferSession.doc_date session)
              "in_progress"
              (Some (user_id (current_user c)))
              (GRPOTransferSession.transfer_doc_entry session)
              (GRPOTransferSession.transfer_doc_num session) in
          let w2 := save_session session' (store u) in
          let log :=
            GRPOTransferLog.mk session_id (user_id (current_user c))
              "qc_approved" "QC team approved items" None in
          ((Succeeded "Items approved successfully", 200), add_log log w2)
      end
  end.

(** *** Label minting *)

(** The accumulators of the minting loops: rows added to the database
    session, the [labels] list of the response, and [label_count]. *)
Record minting : Type := {
  added : list GRPOTransferQRLabel.t;
  minted : list pyval;
  label_count : Z
}.

(** [item.batches[0].batch_number if item.batches else None] *)
Definition first_batch_number (bs : list GRPOTransferBatch.t) : pyval :=
  match bs with
  | b :: _ => GRPOTransferBatch.batch_number b
  | [] => PNone
  end.

(** The [qr_data] dict of one label. *)
Definition qr_payload (c : context) (session : GRPOTransferSession.t) (w : db)
           (item : GRPOTransferItem.t) (approved_qty label_num count : Z)
  : pyval :=
  PDict [ ("session_code", PStr (GRPOTransferSession.session_code session));
          ("item_code", GRPOTransferItem.item_code item);
          ("item_name", GRPOTransferItem.item_name item);
          ("quantity", PInt 1);
          ("label", PStr (fmt_int label_num ++ " of " ++ fmt_int approved_qty));
          ("from_warehouse", GRPOTransferItem.from_warehouse item);
          ("to_warehouse", GRPOTransferItem.to_warehouse item);
          ("batch_number", first_batch_number (item_batches w item));
          ("timestamp", PStr (now_isoformat c count)) ].

(** The [GRPOTransferQRLabel(...)] row of one label. *)
Definition qr_label (c : context) (session : GRPOTransferSession.t) (w : db)
           (item : GRPOTransferItem.t) (approved_qty label_num count : Z)
  : GRPOTransferQRLabel.t :=
  GRPOTransferQRLabel.mk
    (GRPOTransferSession.id session) (GRPOTransferItem.id item)
    label_num approved_qty
    (json_dumps (qr_payload c session w item approved_qty label_num count))
    (first_batch_number (item_batches w item))
    1
    (GRPOTransferItem.from_warehouse item)
    (GRPOTransferItem.to_warehouse item).

(** One turn of [for label_num in range(1, approved_qty + 1)]. *)
Definition mint_label (c : context) (session : GRPOTransferSession.t) (w : db)
           (item : GRPOTransferItem.t) (approved_qty : Z)
           (st : minting) (label_num : Z) : minting :=
  {| added :=
       added st
       ++ [qr_label c session w item approved_qty label_num (label_count st)];
     minted :=
       minted st
       ++ [qr_payload c session w item approved_qty label_num (label_count st)];
     label_count := label_count st + 1 |}.

(** One turn of [for item in approved_items]. *)
Definition mint_item (c : context) (session : GRPOTransferSession.t) (w : db)
           (st : minting) (item : GRPOTransferItem.t) : minting :=
  let approved_qty := py_int (GRPOTransferItem.approved_quantity item) in
  if approved_qty <=? 0 then st                              (* continue *)
  else fold_left (mint_label c session w item approved_qty)
                 (range1 approved_qty) st.

(** The filter of the list comprehension that selects [approved_items]. *)
Definition eligible (item : GRPOTransferItem.t) : bool :=
  eq_str (GRPOTransferItem.qc_status item) "approved"
  && Qgt_bool (GRPOTransferItem.approved_quantity item) 0.

Definition generate_qr_labels (c : context) (session_id : Z) (w : db)
  : response * db :=
  match session_query_get w session_id with
  | None => ((Failure (Text "Session not found"), 404), w)
  | Some session =>
      let approved_items :=
        filter eligible (session_items w (GRPOTransferSession.id session)) in
      match approved_items with
      | [] =>
          ((Failure
              (Text "No approved items found. Please submit QC approval first."),
            400), w)
      | _ :: _ =>
          let st :=
            fold_left (mint_item c session w) approved_items
                      {| added := []; minted := []; label_count := 0 |} in
          if label_count st =? 0 then
            ((Failure
                (Text "No labels could be generated. Check approved quantities."),
              400), w)
          else
            (* db.session.commit() *)
            ((LabelsGenerated (label_count st) (minted st), 200),
             add_labels (added st) w)
      end
  end.

(** *** Transfer posting *)

(** The reply of the ERP to a POST: [response.status_code],
    [response.text] and [response.json()], which raises on a body that is
    not JSON. *)
Record reply : Type := {
  status_code : Z;
  text : string;
  json : result pyval
}.

(** [SAPIntegration()]: the service URL and the HTTP session, whose [post]
    answers or raises. *)
Record SAPIntegration : Type := {
  base_url : string;
  post : string -> StockTransfer.t -> result reply
}.

(** The two entries of [StockTransferLinesBinAllocations]. *)
Definition bin_allocations (item : GRPOTransferItem.t)
  : list BinAllocation.t :=
  (if truthy (GRPOTransferItem.from_bin_code item)
   then [BinAllocation.mk "batFromWarehouse" 1
           (GRPOTransferItem.approved_quantity item) 0]
   else [])
  ++
  (if truthy (GRPOTransferItem.to_bin_code item)
   then [BinAllocation.mk "batToWarehouse" 1
           (GRPOTransferItem.approved_quantity item) 0]
   else []).

Definition batch_numbers (w : db) (item : GRPOTransferItem.t)
  : list BatchNumbers.t :=
  if truthy (GRPOTransferItem.is_batch_item item)
     && match item_batches w item with [] => false | _ => true end
  then map (fun batch =>
              BatchNumbers.mk (GRPOTransferBatch.batch_number batch)
                              (GRPOTransferBatch.approved_quantity batch))
           (item_batches w item)
  else [].

(** The [line] dict of one approved item, once its batch numbers and bin
    allocations are appended. *)
Definition transfer_line (w : db) (idx : nat) (item : GRPOTransferItem.t)
  : StockTransferLine.t :=
  StockTransferLine.mk idx
    (GRPOTransferItem.item_code item)
    (GRPOTransferItem.approved_quantity item)
    (GRPOTransferItem.to_warehouse item)
    (GRPOTransferItem.from_warehouse item)
    (GRPOTransferItem.sap_base_entry item)
    (GRPOTransferItem.sap_base_line item)
    "1250000001"
    (batch_numbers w item)
    (bin_allocations item).

(** One turn of [for idx, item in enumerate(session.items)]. *)
Definition add_line (w : db) (lines : list StockTransferLine.t)
           (entry : nat * GRPOTransferItem.t) : list StockTransferLine.t :=
  let (idx, item) := entry in
  if negb (eq_str (GRPOTransferItem.qc_status item) "approved")
  then lines                                                 (* continue *)
  else lines ++ [transfer_line w idx item].

(** [enumerate(xs)] *)
Definition enumerate {A : Type} (xs : list A) : list (nat * A) :=
  combine (seq 0 (List.length xs)) xs.

(** The document as it stands when it is posted. *)
Definition stock_transfer (c : context) (session : GRPOTransferSession.t)
           (w : db) : StockTransfer.t :=
  let session_items := session_items w (GRPOTransferSession.id session) in
  StockTransfer.mk
    (isoformat (GRPOTransferSession.doc_date session))
    ("QC Approved WMS Transfer " ++ GRPOTransferSession.session_code session
       ++ " by " ++ first_name (current_user c))
    (match session_items with
     | item :: _ => GRPOTransferItem.from_warehouse item
     | [] => PStr EmptyString
     end)
    (match session_items with
     | item :: _ => GRPOTransferItem.to_warehouse item
     | [] => PStr EmptyString
     end)
    (fold_left (add_line w) (enumerate session_items) []).

(** What follows a reply with status 200 or 201.  The commit that stores
    the two identifiers raises when one of them cannot be bound. *)
Definition record_transfer (c : context) (session : GRPOTransferSession.t)
           (session_id : Z) (r : reply) (w : db) : result (response * db) :=
  data <- json r ;;
  doc_entry <- get data "DocEntry" PNone ;;
  doc_num <- get data "DocNum" PNone ;;
  committed <-
    (if storable "GRPOTransferSession.transfer_doc_entry" doc_entry
        && storable "GRPOTransferSession.transfer_doc_num" doc_num
     then Return true else Raise DatabaseError) ;;
  let session' :=
    GRPOTransferSession.mk
      (GRPOTransferSession.id session)
      (GRPOTransferSession.session_code session)
      (GRPOTransferSession.doc_date session)
      "transferred"
      (GRPOTransferSession.qc_approved_by session)
      doc_entry doc_num in
  let w1 := save_session session' w in
  let log :=
    GRPOTransferLog.mk session_id (user_id (current_user c)) "transferred"
      ("Posted to SAP B1 - DocEntry: " ++ py_str doc_entry)
      (Some (json_dumps data)) in
  Return ((TransferPosted doc_entry doc_num
             "Stock transfer posted to SAP B1 successfully", 200),
          add_log log w1).

(** The handler returns its response, the store it leaves, and the POSTs
    it made to the ERP (URL and document), in order. *)
Definition post_transfer_to_sap (c : context) (sap : SAPIntegration)
           (session_id : Z) (w : db)
  : response * db * list (string * StockTransfer.t) :=
  match session_query_get w session_id with
  | None => ((Failure (Text "Session not found"), 404), w, [])
  | Some session =>
      let document := stock_transfer c session w in
      let url := base_url sap ++ "/b1s/v1/StockTransfers" in
      match post sap url document with
      | Raise e => ((Failure (StrOf e), 500), w, [(url, document)])
      | Return r =>
          if (status_code r =? 200) || (status_code r =? 201) then
            match record_transfer c session session_id r w with
            | Raise e => ((Failure (StrOf e), 500), w, [(url, document)])
            | Return (resp, w') => (resp, w', [(url, document)])
            end
          else
            ((Failure (Text ("SAP B1 API error: " ++ fmt_int (status_code r))),
              500), w, [(url, document)])
      end
  end.

End Handlers.

(** ** The lookup handlers

    [get_series_list], [get_doc_numbers], [get_grpo_details],
    [validate_item], [get_batch_numbers], [get_warehouses], [get_bin_codes]
    and [get_session_labels] read and answer; they write nothing. *)

(** What the lookup handlers use of [SAPIntegration()]: the service URL,
    [ensure_logged_in()], and the HTTP session's [get] and [post] (here with
    the JSON payload), each of which answers or raises.  The headers and the
    timeout the handlers pass are constants. *)
Record SAPLookup : Type := {
  service_url : string;
  ensure_logged_in : result bool;
  session_get : string -> result reply;
  session_post : string -> pyval -> result reply
}.

(** The JSON body of a lookup: [{'success': False, 'error': ...}] or
    [{'success': True, ...}] with the further entries. *)
Inductive answer : Type :=
| Refused (error : error_text)
| Granted (fields : list (string * pyval)).

Definition lookup_response : Type := (answer * Z)%type.

(** [try: ... except Exception as e: return jsonify(error=str(e)), 500] *)
Definition guarded (body : result lookup_response) : lookup_response :=
  match body with
  | Return r => r
  | Raise e => (Refused (StrOf e), 500)
  end.

(** [len(v)] *)
Definition py_len (v : pyval) : result Z :=
  match v with
  | PList l => Return (Z.of_nat (List.length l))
  | PDict kv => Return (Z.of_nat (List.length kv))
  | PStr s => Return (Z.of_nat (String.length s))
  | _ => Raise TypeError
  end.

Fixpoint is_substring (p s : string) : bool :=
  String.prefix p s
  || match s with
     | EmptyString => false
     | String _ rest => is_substring p rest
     end.

(** [k in v] for a string literal [k]: a key of a dict, an element of a
    list, a substring of a string. *)
Definition contains (v : pyval) (k : string) : result bool :=
  match v with
  | PDict kv => Return (match lookup k kv with Some _ => true | None => false end)
  | PList l => Return (existsb (fun x => eq_str x k) l)
  | PStr s => Return (is_substring k s)
  | _ => Raise TypeError
  end.

(** [v[0]] in the branch of [if v:], nothing in the other branch.  The keys
    of a parsed dict are strings, so [v[0]] on a dict is a [KeyError]. *)
Definition first_if_any (v : pyval) : result (option pyval) :=
  if truthy v then
    match v with
    | PList (x :: _) => Return (Some x)
    | PStr (String ch _) => Return (Some (PStr (String ch EmptyString)))
    | PDict _ => Raise (KeyError "0")
    | _ => Raise TypeError
    end
  else Return None.

(** [data = response.json(); data.get('value', [])] *)
Definition value_of (r : reply) : result pyval :=
  data <- json r ;;
  get data "value" (PList []).

(** The answer to an ERP status other than 200 in most handlers. *)
Definition api_error (r : reply) : lookup_response :=
  (Refused (Text ("SAP B1 API error: " ++ fmt_int (status_code r))), 500).

Definition not_logged_in : lookup_response :=
  (Refused (Text "SAP B1 authentication failed"), 500).

(** One turn of [for series in series_data]. *)
Definition series_entry (acc : list pyval) (series : pyval)
  : result (list pyval) :=
  series_id <- get series "SeriesID" PNone ;;
  series_name <- get series "SeriesName" PNone ;;
  next_number <- get series "NextNumber" PNone ;;
  Return (acc ++ [PDict [("SeriesID", series_id);
                         ("SeriesName", series_name);
                         ("NextNumber", next_number)]])%list.

Definition get_series_list (sap : SAPLookup) : lookup_response :=
  guarded (
    logged <- ensure_logged_in sap ;;
    if negb logged then Return not_logged_in else
    r <- session_get sap
           (service_url sap ++ "/b1s/v1/SQLQueries('GET_GRPO_Series')/List") ;;
    if status_code r =? 200 then
      series_data <- value_of r ;;
      if truthy series_data then
        rows <- iter series_data ;;
        series_list <- for_each series_entry rows [] ;;
        Return (Granted [("series", PList series_list)], 200)
      else
        Return (Granted [("series", PList []);
                         ("message",
                          PStr "No GRPO series configured in SAP B1")], 200)
    else Return (api_error r)).

(** One turn of [for doc in doc_data]. *)
Definition document_entry (acc : list pyval) (doc : pyval)
  : result (list pyval) :=
  doc_entry <- get doc "DocEntry" PNone ;;
  doc_num <- get doc "DocNum" PNone ;;
  card_name <- get doc "CardName" PNone ;;
  doc_status <- get doc "DocStatus" PNone ;;
  Return (acc ++ [PDict [("DocEntry", doc_entry); ("DocNum", doc_num);
                         ("CardName", card_name);
                         ("DocStatus", doc_status)]])%list.

Definition get_doc_numbers (sap : SAPLookup) (series_id : Z)
  : lookup_response :=
  guarded (
    logged <- ensure_logged_in sap ;;
    if negb logged then Return not_logged_in else
    r <- session_post sap
           (service_url sap
            ++ "/b1s/v1/SQLQueries('GET_GRPO_DocEntry_By_Series')/List")
           (PDict [("ParamList",
                    PStr ("seriesID='" ++ fmt_int series_id ++ "'"))]) ;;
    if status_code r =? 200 then
      doc_data <- value_of r ;;
      rows <- iter doc_data ;;
      doc_list <- for_each document_entry rows [] ;;
      Return (Granted [("documents", PList doc_list)], 200)
    else Return (Refused (Text (text r)), 500)).

(** The accumulators of the loop of [get_grpo_details]. *)
Record details : Type := {
  doc_details : pyval;
  line_items : list pyval
}.

(** One turn of [for item in value_list]. *)
Definition read_row (st : details) (item : pyval) : result details :=
  has_header <- contains item "PurchaseDeliveryNotes" ;;
  doc_details' <-
    (if has_header && negb (truthy (doc_details st))
     then subscript item "PurchaseDeliveryNotes"
     else Return (doc_details st)) ;;
  has_lines <- contains item "PurchaseDeliveryNotes/DocumentLines" ;;
  if has_lines then
    lines <- subscript item "PurchaseDeliveryNotes/DocumentLines" ;;
    Return {| doc_details := doc_details';
              line_items := line_items st ++ [lines] |}
  else Return {| doc_details := doc_details'; line_items := line_items st |}.

Definition grpo_details_url (sap : SAPLookup) (doc_entry : Z) : string :=
  service_url sap
  ++ "/b1s/v1/$crossjoin(PurchaseDeliveryNotes,PurchaseDeliveryNotes/DocumentLines)?$expand=PurchaseDeliveryNotes($select=CardCode,CardName,DocumentStatus,DocNum,Series,DocDate,DocDueDate,DocTotal,DocEntry),PurchaseDeliveryNotes/DocumentLines($select=LineNum,ItemCode,ItemDescription,WarehouseCode,UnitsOfMeasurment,DocEntry,LineTotal,LineStatus,Quantity,Price,PriceAfterVAT)&$filter=PurchaseDeliveryNotes/DocumentStatus eq PurchaseDeliveryNotes/DocumentLines/LineStatus and PurchaseDeliveryNotes/DocEntry eq PurchaseDeliveryNotes/DocumentLines/DocEntry and PurchaseDeliveryNotes/DocumentLines/DocEntry eq "
  ++ fmt_int doc_entry.

Definition get_grpo_details (sap : SAPLookup) (doc_entry : Z)
  : lookup_response :=
  guarded (
    logged <- ensure_logged_in sap ;;
    if negb logged then Return not_logged_in else
    r <- session_get sap (grpo_details_url sap doc_entry) ;;
    if status_code r =? 200 then
      value_list <- value_of r ;;
      if negb (truthy value_list) then
        Return (Granted [("document", PNone); ("line_items", PList []);
                         ("message", PStr "No data found for this document")],
                200)
      else
        rows <- iter value_list ;;
        st <- for_each read_row rows
                {| doc_details := PNone; line_items := [] |} ;;
        Return (Granted [("document", doc_details st);
                         ("line_items", PList (line_items st))], 200)
    else Return (api_error r)).

Definition validate_item (sap : SAPLookup) (item_code : string)
  : lookup_response :=
  guarded (
    logged <- ensure_logged_in sap ;;
    if negb logged then Return not_logged_in else
    r <- session_post sap
           (service_url sap
            ++ "/b1s/v1/SQLQueries('ItemCode_Batch_Serial_Val')/List")
           (PDict [("ParamList", PStr ("itemCode='" ++ item_code ++ "'"))]) ;;
    if status_code r =? 200 then
      items <- value_of r ;;
      first <- first_if_any items ;;
      match first with
      | Some item_info =>
          batch_num <- get item_info "BatchNum" PNone ;;
          let is_batch := eq_str batch_num "Y" in
          serial_num <- get item_info "SerialNum" PNone ;;
          let is_serial := eq_str serial_num "Y" in
          let is_non_managed := negb is_batch && negb is_serial in
          item_name <- get item_info "ItemName" PNone ;;
          Return (Granted [("item_code", PStr item_code);
                           ("item_name", item_name);
                           ("is_batch_item", PBool is_batch);
                           ("is_serial_item", PBool is_serial);
                           ("is_non_managed", PBool is_non_managed);
                           ("batch_num", batch_num);
                           ("serial_num", serial_num)], 200)
      | None => Return (Refused (Text "Item not found in SAP B1"), 404)
      end
    else Return (api_error r)).

Definition get_batch_numbers (sap : SAPLookup) (doc_entry : Z)
  : lookup_response :=
  guarded (
    logged <- ensure_logged_in sap ;;
    if negb logged then Return not_logged_in else
    r <- session_post sap
           (service_url sap
            ++ "/b1s/v1/SQLQueries('Get_Batches_By_DocEntry')/List")
           (PDict [("ParamList",
                    PStr ("docEntry='" ++ fmt_int doc_entry ++ "'"))]) ;;
    if status_code r =? 200 then
      batches <- value_of r ;;
      if truthy batches then
        size <- py_len batches ;;                  (* logged in the message *)
        Return (Granted [("batches", batches)], 200)
      else
        Return (Granted [("batches", PList []);
                         ("message", PStr "No batch numbers found")], 200)
    else Return (api_error r)).

Definition get_warehouses (sap : SAPLookup) : lookup_response :=
  guarded (
    logged <- ensure_logged_in sap ;;
    if negb logged then Return not_logged_in else
    r <- session_get sap
           (service_url sap
            ++ "/b1s/v1/Warehouses?$select=WarehouseName,WarehouseCode") ;;
    if status_code r =? 200 then
      warehouses <- value_of r ;;
      size <- py_len warehouses ;;                 (* logged in the message *)
      Return (Granted [("warehouses", warehouses)], 200)
    else Return (api_error r)).

Definition get_bin_codes (sap : SAPLookup) (warehouse_code : string)
  : lookup_response :=
  guarded (
    logged <- ensure_logged_in sap ;;
    if negb logged then Return not_logged_in else
    r <- session_get sap
           (service_url sap
            ++ "/b1s/v1/BinLocations?$select=AbsEntry,BinCode,Warehouse&$filter=Warehouse eq '"
            ++ warehouse_code ++ "'") ;;
    if status_code r =? 200 then
      bins <- value_of r ;;
      size <- py_len bins ;;                       (* logged in the message *)
      Return (Granted [("bins", bins)], 200)
    else
      Return (Granted [("bins", PList []);
                       ("message", PStr "No bin codes found for warehouse")],
              200)).

(** [get_session_labels]: the rows of the label table that belong to the
    session, in table order. *)

Section Listing.

(** The primary key the database gave the label row at a position of the
    table. *)
Variable label_pk : nat -> Z.

(** One turn of [for label in labels]: the dict appended to [labels_data].
    Its 'item_code' is the row's [item_id]. *)
Definition label_entry (entry : nat * GRPOTransferQRLabel.t) : pyval :=
  let (position, label) := entry in
  PDict [("id", PInt (label_pk position));
         ("item_code", PInt (GRPOTransferQRLabel.item_id label));
         ("label_number", PInt (GRPOTransferQRLabel.label_number label));
         ("total_labels", PInt (GRPOTransferQRLabel.total_labels label));
         ("qr_data", PStr (GRPOTransferQRLabel.qr_data label));
         ("batch_number", GRPOTransferQRLabel.batch_number label);
         ("quantity", PInt (GRPOTransferQRLabel.quantity label))].

(** [GRPOTransferQRLabel.query.filter_by(session_id=session_id).all()], each
    row with its position in the table. *)
Definition session_labels (w : db) (session_id : Z)
  : list (nat * GRPOTransferQRLabel.t) :=
  filter (fun entry => GRPOTransferQRLabel.session_id (snd entry) =? session_id)
         (enumerate (labels w)).

Definition get_session_labels (session_id : Z) (w : db) : lookup_response :=
  match session_query_get w session_id with
  | None => (Refused (Text "Session not found"), 404)
  | Some _ =>
      (Granted [("labels",
                 PList (map label_entry (session_labels w session_id)))],
       200)
  end.

End Listing.

(** ** Session creation *)

Section Creation.

Variable float_of_str : string -> option Q.
Variable py_str : pyval -> string.
Variable stores_number : string -> pyval -> bool.

(** [datetime.strptime(text, '%Y-%m-%d').date()] on a text, nothing when it
    raises [ValueError]. *)
Variable strptime_ymd : string -> option date.

(** What the database gives a new session row: its primary key, and the
    status the model declares as default. *)
Variable next_session_id : db -> Z.
Variable initial_status : string.

(** [datetime.strptime(v, '%Y-%m-%d').date()] *)
Definition strptime (v : pyval) : result date :=
  match v with
  | PStr s =>
      match strptime_ymd s with
      | Some d => Return d
      | None => Raise ValueError
      end
  | _ => Raise TypeError
  end.

(** [all(field in data for field in fields)] *)
Fixpoint all_in (data : pyval) (fields : list string) : result bool :=
  match fields with
  | [] => Return true
  | f :: rest =>
      present <- contains data f ;;
      if present then all_in data rest else Return false
  end.

Definition required_fields : list string :=
  ["grpo_doc_entry"; "grpo_doc_num"; "series_id"; "vendor_code"; "vendor_name"].

(** [db.session.add(session)] *)
Definition add_session (s : GRPOTransferSession.t) (w : db) : db :=
  mkdb (sessions w ++ [s]) (items w) (batches w) (splits w) (labels w) (logs w).

(** The body of the [try] of [create_session]; [stamp] is
    [datetime.now().strftime('%Y%m%d%H%M%S')] and [now] is
    [datetime.now().isoformat()] as read for the default of [doc_date].  The
    columns of the new row that no handler here reads are evaluated, as
    they can raise, checked at the commit, and not kept. *)
Definition create_session_body (c : context) (stamp now : string)
           (data : pyval) (w : db) : result (lookup_response * db) :=
  complete <- all_in data required_fields ;;
  if negb complete then
    Return ((Refused (Text "Missing required fields"), 400), w)
  else
    code_entry <- subscript data "grpo_doc_entry" ;;
    let session_code := "GRPO-" ++ py_str code_entry ++ "-" ++ stamp in
    grpo_doc_entry <- subscript data "grpo_doc_entry" ;;
    grpo_doc_num <- subscript data "grpo_doc_num" ;;
    series_id <- subscript data "series_id" ;;
    vendor_code <- subscript data "vendor_code" ;;
    vendor_name <- subscript data "vendor_name" ;;
    date_text <- get data "doc_date" (PStr now) ;;
    doc_date <- strptime date_text ;;
    due <- get data "doc_due_date" PNone ;;
    doc_due_date <-
      (if truthy due
       then due_text <- get data "doc_due_date" (PStr now) ;;
            due_date <- strptime due_text ;;
            Return (Some due_date)
       else Return None) ;;
    total <- get data "doc_total" (PFloat 0) ;;
    doc_total <- py_float float_of_str total ;;
    committed <-
      (if storable stores_number "GRPOTransferSession.grpo_doc_entry"
            grpo_doc_entry
          && storable stores_number "GRPOTransferSession.grpo_doc_num"
               grpo_doc_num
          && storable stores_number "GRPOTransferSession.series_id" series_id
          && storable stores_number "GRPOTransferSession.vendor_code"
               vendor_code
          && storable stores_number "GRPOTransferSession.vendor_name"
               vendor_name
       then Return true else Raise DatabaseError) ;;
    let session :=
      GRPOTransferSession.mk (next_session_id w) session_code doc_date
        initial_status None PNone PNone in
    let w1 := add_session session w in
    logged_num <- subscript data "grpo_doc_num" ;;
    let log :=
      GRPOTransferLog.mk (next_session_id w) (user_id (current_user c))
        "session_created"
        ("Created transfer session for GRPO " ++ py_str logged_num) None in
    Return ((Granted [("session_id", PInt (next_session_id w));
                      ("session_code", PStr session_code)], 200),
            add_log log w1).

Definition create_session (c : context) (stamp now : string) (data : pyval)
           (w : db) : lookup_response * db :=
  match create_session_body c stamp now data w with
  | Return r => r
  | Raise e =>
      (* except: db.session.rollback() *)
      ((Refused (StrOf e), 500), w)
  end.

End Creation.

(** ** A sample runtime and a sample store

    Used to run the handlers on concrete requests. *)

(** The reading of [item.batches] as the item's [GRPOTransferBatch] rows,
    used by the samples. *)
Definition batch_rows (bs : list GRPOTransferBatch.t)
           (sps : list GRPOTransferSplit.t) (item : GRPOTransferItem.t)
  : list GRPOTransferBatch.t :=
  filter (fun b => GRPOTransferBatch.item_id b =? GRPOTransferItem.id item) bs.

(** A database that stores integers of 64 bits and every boolean and
    float, in any column. *)
Definition sample_stores_number (column : string) (v : pyval) : bool :=
  match v with
  | PInt z => (- 2 ^ 63 <=? z) && (z <? 2 ^ 63)
  | _ => true
  end.

(** A reading of keys that are not integers: a text goes to the database,
    which finds the row whose number the text spells; a float with an
    integer value, a boolean and a one-element list stand for an integer;
    for None the database finds nothing; anything else is refused. *)
Definition sample_read_key (key : pyval) : key_reading :=
  match key with
  | PStr s =>
      Queries (Return (option_map Z.of_uint (NilZero.uint_of_string s)))
  | PFloat q =>
      if Z.pos (Qden q) =? 1 then Identifies (Qnum q) else Queries (Return None)
  | PBool b => Identifies (if b then 1 else 0)
  | PList [PInt z] => Identifies z
  | PNone => Queries (Return None)
  | _ => Rejects TypeError
  end.

(** Modelled from the spec: the relationship [batches] of
    [GRPOTransferItem], declared in models.py, which is not among the
    sources.  The spec knows no batch rows of their own: what an item owns
    besides its labels is its splits, each with a batch number and a
    quantity; a label's batch number is "the first associated split's
    batch" and a posted line carries "batch-number/quantity pairs if the
    item is batch-managed and has associated splits".  Under this reading
    [item.batches] yields the item's splits in the order they were
    recorded, each seen with its batch number and its quantity. *)
Definition split_rows (bs : list GRPOTransferBatch.t)
           (sps : list GRPOTransferSplit.t) (item : GRPOTransferItem.t)
  : list GRPOTransferBatch.t :=
  map (fun sp =>
         GRPOTransferBatch.mk (GRPOTransferSplit.item_id sp)
           (GRPOTransferSplit.batch_number sp) (GRPOTransferSplit.quantity sp))
      (filter (fun sp => GRPOTransferSplit.item_id sp
                         =? GRPOTransferItem.id item) sps).

(** [float] on a text: this instance reads unsigned decimal integers. *)
Definition sample_float_of_str (s : string) : option Q :=
  option_map (fun u => inject_Z (Z.of_uint u)) (NilZero.uint_of_string s).

(** A serializer for the values the samples use. *)
Definition quoted (s : string) : string :=
  String (ascii_of_N 34) s ++ String (ascii_of_N 34) EmptyString.

Fixpoint sample_dumps (v : pyval) : string :=
  match v with
  | PNone => "null"
  | PBool b => if b then "true" else "false"
  | PInt z => fmt_int z
  | PFloat q => fmt_int (Qnum q) ++ "/" ++ fmt_int (Z.pos (Qden q))
  | PStr s => quoted s
  | PList l =>
      "[" ++ (fix elems (l : list pyval) : string :=
                match l with
                | [] => EmptyString
                | x :: rest =>
                    sample_dumps x
                    ++ match rest with
                       | [] => EmptyString
                       | _ :: _ => ", " ++ elems rest
                       end
                end) l ++ "]"
  | PDict kv =>
      "{" ++ (fix entries (kv : list (string * pyval)) : string :=
                match kv with
                | [] => EmptyString
                | (k, x) :: rest =>
                    quoted k ++ ": " ++ sample_dumps x
                    ++ match rest with
                       | [] => EmptyString
                       | _ :: _ => ", " ++ entries rest
                       end
                end) kv ++ "}"
  end.

Definition sample_str (v : pyval) : string :=
  match v with
  | PNone => "None"
  | PStr s => s
  | _ => sample_dumps v
  end.

Definition alice : context :=
  {| current_user := {| user_id := 7; first_name := "Alice" |};
     now_isoformat := fun k => "2026-01-13T10:00:0" ++ fmt_int k |}.

Definition sample_session : GRPOTransferSession.t :=
  GRPOTransferSession.mk 1 "GRPO-33-20260113100000"
    {| year := 2026; month := 1; day := 13 |} "draft" None PNone PNone.

Definition sample_item (id : Z) (code : string) (qc_status : string)
           (approved : Q) (from_wh to_wh : string) : GRPOTransferItem.t :=
  GRPOTransferItem.mk id 1 (PStr code) (PStr code) (PBool false)
    approved 0 (PStr qc_status) PNone
    (PStr from_wh) PNone (PStr to_wh) PNone (PInt 33) (PInt (id - 10)).

(** One session with a pending item followed by two approved ones, the
    second approved for two and a half units. *)
Definition sample_db : db :=
  mkdb [sample_session]
       [sample_item 10 "A" "pending" 0 "WH-IN" "WH-QC";
        sample_item 11 "B" "approved" 3 "WH-RCV" "WH-01";
        sample_item 12 "C" "approved" (5 # 2) "WH-RCV" "WH-02"]
       [] [] [] [].

(** A session whose only item is approved for half a unit. *)
Definition half_unit_db : db :=
  mkdb [sample_session] [sample_item 10 "A" "approved" (1 # 2) "WH-IN" "WH-QC"]
       [] [] [] [].

(** A session whose only item is still pending. *)
Definition pending_db : db :=
  mkdb [sample_session] [sample_item 10 "A" "pending" 0 "WH-IN" "WH-QC"]
       [] [] [] [].

(** A session whose only item is approved for one unit and a half and has
    two batch rows. *)
Definition batched_db : db :=
  mkdb [sample_session]
       [sample_item 10 "A" "approved" (3 # 2) "WH-IN" "WH-QC"]
       [GRPOTransferBatch.mk 10 (PStr "B-77") 1;
        GRPOTransferBatch.mk 10 (PStr "B-78") (1 # 2)]
       [] [] [].

(** A session without items. *)
Definition empty_db : db := mkdb [sample_session] [] [] [] [] [].

(** An ERP that answers every POST with the given status and body. *)
Definition erp_answering (status : Z) (body : result pyval) : SAPIntegration :=
  {| base_url := "https://sap.example:50000";
     post := fun _ _ =>
       Return {| status_code := status; text := EmptyString; json := body |} |}.

(** An ERP that cannot be reached. *)
Definition erp_down : SAPIntegration :=
  {| base_url := "https://sap.example:50000";
     post := fun _ _ => Raise (PostError "connection refused") |}.

Definition created_body : pyval :=
  PDict [("DocEntry", PInt 501); ("DocNum", PInt 9001)].

(** A reply body whose DocEntry is an object. *)
Definition unstorable_body : pyval :=
  PDict [("DocEntry", PDict [("a", PInt 1)]); ("DocNum", PInt 9001)].

(** A QC approval that approves item 10 for two units and records one split
    with batch number S1. *)
Definition approve_with_split : pyval :=
  PDict [("items",
          PList [PDict [("item_id", PInt 10);
                        ("approved_quantity", PInt 2);
                        ("qc_status", PStr "approved");
                        ("to_warehouse", PStr "WH-01");
                        ("splits",
                         PList [PDict [("split_number", PInt 1);
                                       ("quantity", PInt 2);
                                       ("status", PStr "OK");
                                       ("batch_number", PStr "S1")]])]])].




(** ** Samples for the lookups and for session creation *)

(** An ERP session that is logged in or not and answers every request with
    the given status and body. *)
Definition lookup_answering (logged : bool) (status : Z) (body : result pyval)
  : SAPLookup :=
  {| service_url := "https://sap.example:50000";
     ensure_logged_in := Return logged;
     session_get := fun _ =>
       Return {| status_code := status; text := "upstream said no";
                 json := body |};
     session_post := fun _ _ =>
       Return {| status_code := status; text := "upstream said no";
                 json := body |} |}.

(** Rows of the item classification query: one item flagged both batch and
    serial managed, then a second row. *)
Definition both_flags_body : pyval :=
  PDict [("value",
          PList [PDict [("ItemName", PStr "Bolt M8");
                        ("BatchNum", PStr "Y"); ("SerialNum", PStr "Y")];
                 PDict [("ItemName", PStr "Nut M8");
                        ("BatchNum", PStr "N"); ("SerialNum", PStr "N")]])].

(** Rows of the document and series queries, with a column the handlers
    drop and one they miss. *)
Definition rows_body : pyval :=
  PDict [("value",
          PList [PDict [("DocEntry", PInt 33); ("DocNum", PInt 1033);
                        ("SeriesID", PInt 4); ("Comments", PStr "urgent")];
                 PDict [("DocEntry", PInt 34); ("CardName", PStr "ACME");
                        ("SeriesName", PStr "GR-2026")]])].

(** A row that is not an object among the rows. *)
Definition broken_rows_body : pyval :=
  PDict [("value", PList [PDict [("DocEntry", PInt 33)]; PStr "oops"])].

(** Rows of the cross join: a first row with a null header, then the header
    and a line, then another header and a line. *)
Definition crossjoin_body : pyval :=
  PDict [("value",
          PList [PDict [("PurchaseDeliveryNotes", PNone)];
                 PDict [("PurchaseDeliveryNotes",
                         PDict [("DocNum", PInt 1033)]);
                        ("PurchaseDeliveryNotes/DocumentLines",
                         PDict [("LineNum", PInt 0)])];
                 PDict [("PurchaseDeliveryNotes",
                         PDict [("DocNum", PInt 9999)]);
                        ("PurchaseDeliveryNotes/DocumentLines",
                         PDict [("LineNum", PInt 1)])]])].

Definition digit_value (a : ascii) : option Z :=
  let n := Z.of_N (N_of_ascii a) in
  if (48 <=? n) && (n <=? 57) then Some (n - 48) else None.

Definition number_of (digits : list ascii) : option Z :=
  fold_left (fun acc a =>
               match acc, digit_value a with
               | Some n, Some d => Some (10 * n + d)
               | _, _ => None
               end) digits (Some 0).

(** A reader of dates written YYYY-MM-DD, ten characters, nothing after. *)
Definition sample_strptime (s : string) : option date :=
  match list_ascii_of_string s with
  | [y1; y2; y3; y4; dash1; m1; m2; dash2; d1; d2] =>
      if Ascii.eqb dash1 "-" && Ascii.eqb dash2 "-" then
        match number_of [y1; y2; y3; y4], number_of [m1; m2],
              number_of [d1; d2] with
        | Some y, Some m, Some d => Some {| year := y; month := m; day := d |}
        | _, _, _ => None
        end
      else None
  | _ => None
  end.

(** Keys handed out in sequence. *)
Definition sample_next_id (w : db) : Z := 1 + Z.of_nat (List.length (sessions w)).

Definition creation_fields : list (string * pyval) :=
  [("grpo_doc_entry", PInt 33); ("grpo_doc_num", PInt 1033);
   ("series_id", PInt 4); ("vendor_code", PStr "V001");
   ("vendor_name", PStr "ACME")].

(** A store in which item ids are distinct and an item lives in another
    session than the one approved. *)
Definition two_session_db : db :=
  mkdb [sample_session;
        GRPOTransferSession.mk 2 "GRPO-34-20260113110000"
          {| year := 2026; month := 1; day := 13 |} "draft" None PNone PNone]
       [sample_item 10 "A" "pending" 0 "WH-IN" "WH-QC";
        GRPOTransferItem.mk 20 2 (PStr "Z") (PStr "Z") (PBool true)
          4 1 (PStr "approved") (PStr "checked")
          (PStr "WH-RCV") (PStr "BIN-1") (PStr "WH-09") (PStr "BIN-9")
          (PInt 34) (PInt 0)]
       [GRPOTransferBatch.mk 20 (PStr "B-1") 3;
        GRPOTransferBatch.mk 20 (PStr "B-2") 1]
       [] [] [].

(** ** Vocabulary of the statements *)

(** What the claims look at in a label row: item, number, total, quantity. *)
Definition stamp (l : GRPOTransferQRLabel.t) : Z * Z * Z * Z :=
  (GRPOTransferQRLabel.item_id l, GRPOTransferQRLabel.label_number l,
   GRPOTransferQRLabel.total_labels l, GRPOTransferQRLabel.quantity l).

(** The stamps expected for one item: numbers 1..n, total n, quantity 1. *)
Definition item_stamps (item : GRPOTransferItem.t) : list (Z * Z * Z * Z) :=
  let n := py_int (GRPOTransferItem.approved_quantity item) in
  map (fun k => (GRPOTransferItem.id item, k, n, 1)) (range1 n).

(** Every added row is the [qr_label] of one of the items. *)
Definition minted_from (json_dumps : pyval -> string)
           (batches_of : list GRPOTransferBatch.t -> list GRPOTransferSplit.t ->
                         GRPOTransferItem.t -> list GRPOTransferBatch.t)
           (c : context)
           (session : GRPOTransferSession.t) (w : db)
           (its : list GRPOTransferItem.t) (l : GRPOTransferQRLabel.t) : Prop :=
  exists item k count,
    In item its
    /\ l = qr_label json_dumps batches_of c session w item
             (py_int (GRPOTransferItem.approved_quantity item)) k count.

(** The batch loop touches neither the session table nor the ids of the
    item ledger. *)
Definition same_frame (w w' : db) : Prop :=
  sessions w' = sessions w
  /\ map GRPOTransferItem.id (items w') = map GRPOTransferItem.id (items w).

(** An entry whose reference is looked up and finds no row: an integer the
    database can bind that is no id of the ledger, or a key of another kind
    that stands for such an integer or for which the database finds no row.
    A key whose lookup raises is not one of these. *)
Definition unresolved (read_key : pyval -> key_reading)
           (stores_number : string -> pyval -> bool) (w : db)
           (item_approval : pyval) : Prop :=
  exists key,
    subscript item_approval "item_id" = Return key
    /\ match reading read_key key with
       | Identifies z =>
           item_by_id w z = None
           /\ stores_number "GRPOTransferItem.id" (PInt z) = true
       | Queries found =>
           found = Return None
           \/ exists z, found = Return (Some z) /\ item_by_id w z = None
       | Rejects _ => False
       end.

(** The session as QC approval leaves it, and the log entry it adds. *)
Definition marked_session (c : context) (session : GRPOTransferSession.t)
  : GRPOTransferSession.t :=
  GRPOTransferSession.mk
    (GRPOTransferSession.id session)
    (GRPOTransferSession.session_code session)
    (GRPOTransferSession.doc_date session)
    "in_progress"
    (Some (user_id (current_user c)))
    (GRPOTransferSession.transfer_doc_entry session)
    (GRPOTransferSession.transfer_doc_num session).

Definition approval_log (c : context) (session_id : Z) : GRPOTransferLog.t :=
  GRPOTransferLog.mk session_id (user_id (current_user c))
    "qc_approved" "QC team approved items" None.

(** The approved entries of an enumeration. *)
Definition approved_entry (entry : nat * GRPOTransferItem.t) : bool :=
  eq_str (GRPOTransferItem.qc_status (snd entry)) "approved".

(** A label row in full: which item it was minted for, its number within
    the item, and the clock reading it was stamped with. *)
Definition numbered_from (json_dumps : pyval -> string)
           (batches_of : list GRPOTransferBatch.t -> list GRPOTransferSplit.t ->
                         GRPOTransferItem.t -> list GRPOTransferBatch.t)
           (c : context)
           (session : GRPOTransferSession.t) (w : db)
           (its : list GRPOTransferItem.t) (l : GRPOTransferQRLabel.t) : Prop :=
  exists item k count,
    In item its
    /\ In k (range1 (py_int (GRPOTransferItem.approved_quantity item)))
    /\ l = qr_label json_dumps batches_of c session w item
             (py_int (GRPOTransferItem.approved_quantity item)) k count.

(** The columns of an item that say what it is and where it came from. *)
Definition origin (item : GRPOTransferItem.t)
  : Z * Z * pyval * pyval * pyval * pyval * pyval * pyval * pyval :=
  (GRPOTransferItem.id item, GRPOTransferItem.session_id item,
   GRPOTransferItem.item_code item, GRPOTransferItem.item_name item,
   GRPOTransferItem.is_batch_item item,
   GRPOTransferItem.from_warehouse item, GRPOTransferItem.from_bin_code item,
   GRPOTransferItem.sap_base_entry item, GRPOTransferItem.sap_base_line item).


(** What the batch loop of QC approval leaves alone: sessions, batch rows,
    labels and log as they were, the origin of every item, and the splits
    already recorded. *)
Definition approval_frame (w w' : db) : Prop :=
  sessions w' = sessions w
  /\ batches w' = batches w
  /\ labels w' = labels w
  /\ logs w' = logs w
  /\ map origin (items w') = map origin (items w)
  /\ exists new, splits w' = (splits w ++ new)%list.

(** The value [d.get(k, default)] finds in a dict. *)
Definition field (kv : list (string * pyval)) (k : string) (default : pyval)
  : pyval :=
  match lookup k kv with
  | Some v => v
  | None => default
  end.

(** An item after a review that stored the quantities [a] and [r] and took
    the other review fields from the entry [kv]. *)
Definition reviewed (item : GRPOTransferItem.t) (kv : list (string * pyval))
           (a r : Q) : GRPOTransferItem.t :=
  GRPOTransferItem.mk
    (GRPOTransferItem.id item) (GRPOTransferItem.session_id item)
    (GRPOTransferItem.item_code item) (GRPOTransferItem.item_name item)
    (GRPOTransferItem.is_batch_item item)
    a r (field kv "qc_status" (PStr "pending")) (field kv "qc_notes" PNone)
    (GRPOTransferItem.from_warehouse item)
    (GRPOTransferItem.from_bin_code item)
    (field kv "to_warehouse" PNone) (field kv "to_bin_code" PNone)
    (GRPOTransferItem.sap_base_entry item)
    (GRPOTransferItem.sap_base_line item).

(** An entry without splits that the loop reads without raising and whose
    values can be stored: [float] reads its quantities as [a] and [r]. *)
Definition review_reads (float_of_str : string -> option Q)
           (stores_number : string -> pyval -> bool)
           (kv : list (string * pyval)) (a r : Q) : Prop :=
  py_float float_of_str (field kv "approved_quantity" (PInt 0)) = Return a
  /\ py_float float_of_str (field kv "rejected_quantity" (PInt 0)) = Return r
  /\ lookup "splits" kv = None
  /\ storable stores_number "GRPOTransferItem.qc_status"
        (field kv "qc_status" (PStr "pending")) = true
  /\ storable stores_number "GRPOTransferItem.qc_notes"
        (field kv "qc_notes" PNone) = true
  /\ storable stores_number "GRPOTransferItem.to_warehouse"
        (field kv "to_warehouse" PNone) = true
  /\ storable stores_number "GRPOTransferItem.to_bin_code"
        (field kv "to_bin_code" PNone) = true.

(** An entry that names item [k] and nothing else the loop reads. *)
Definition names_only (kv : list (string * pyval)) (k : Z) : Prop :=
  lookup "item_id" kv = Some (PInt k)
  /\ Forall (fun key => lookup key kv = None)
            ["approved_quantity"; "rejected_quantity"; "qc_status";
             "qc_notes"; "to_warehouse"; "to_bin_code"; "splits"].

(** The seven ERP lookups, asked together. *)
Definition erp_lookups (sap : SAPLookup) (series_id doc_entry : Z)
           (item_code warehouse_code : string) : list lookup_response :=
  [get_series_list sap; get_doc_numbers sap series_id;
   get_grpo_details sap doc_entry; validate_item sap item_code;
   get_batch_numbers sap doc_entry; get_warehouses sap;
   get_bin_codes sap warehouse_code].

(** [out] is the row [row] cut down to the columns [keys], None standing for
    a column the row lacks. *)
Definition projected (keys : list string) (row out : pyval) : Prop :=
  exists kv,
    row = PDict kv /\ out = PDict (map (fun k => (k, field kv k PNone)) keys).

Definition is_dict (v : pyval) : Prop := exists kv, v = PDict kv.

(** The header and the document line a row of the cross join carries. *)
Definition header_of (row : pyval) : option pyval :=
  match row with
  | PDict kv => lookup "PurchaseDeliveryNotes" kv
  | _ => None
  end.

Definition lines_of (row : pyval) : list pyval :=
  match row with
  | PDict kv =>
      match lookup "PurchaseDeliveryNotes/DocumentLines" kv with
      | Some v => [v]
      | None => []
      end
  | _ => []
  end.

(** A row whose header, if it has one, is empty or null. *)
Definition no_header_yet (row : pyval) : Prop :=
  match header_of row with
  | Some h => truthy h = false
  | None => True
  end.

(** ** Proof steps used more than once *)

Ltac distinct_ids := repeat constructor; simpl; intuition discriminate.

Ltac split_result H :=
  repeat match type of H with
         | context [bind ?m _] =>
             let E := fresh "E" in
             destruct m eqn:E; cbn [bind] in H
         | context [if ?b then _ else _] =>
             let E := fresh "E" in
             destruct b eqn:E
         | context [match ?o with Some _ => _ | None => _ end] =>
             let E := fresh "E" in
             destruct o eqn:E
         end.

(** ** Basic facts *)

Lemma eq_str_true (v : pyval) (s : string) :
  eq_str v s = true <-> v = PStr s.
Proof.
  destruct v; simpl; split; intro H; try discriminate.
  - apply String.eqb_eq in H. now subst.
  - injection H as ->. apply String.eqb_refl.
Qed.

Lemma Qgt_bool_true (a b : Q) : Qgt_bool a b = true <-> (b < a)%Q.
Proof.
  unfold Qgt_bool. rewrite negb_true_iff. split; intro H.
  - apply Qnot_le_lt. intro Hle. apply Qle_bool_iff in Hle. congruence.
  - destruct (Qle_bool a b) eqn:E; [|reflexivity].
    apply Qle_bool_iff in E. exfalso. exact (Qlt_not_le _ _ H E).
Qed.

Lemma eligible_iff (item : GRPOTransferItem.t) :
  eligible item = true <->
  GRPOTransferItem.qc_status item = PStr "approved"
  /\ (0 < GRPOTransferItem.approved_quantity item)%Q.
Proof.
  unfold eligible. rewrite andb_true_iff, eq_str_true, Qgt_bool_true. tauto.
Qed.

(** On a non-negative quantity [int] is the floor. *)
Lemma py_int_floor (q : Q) : (0 <= q)%Q -> py_int q = Qfloor q.
Proof.
  destruct q as [n d]. unfold Qle, py_int, Qfloor. simpl. intro H.
  apply Z.quot_div_nonneg; lia.
Qed.

Lemma range1_nonpos (n : Z) : n <= 0 -> range1 n = [].
Proof.
  intro H. unfold range1. replace (Z.to_nat n) with 0%nat by lia. reflexivity.
Qed.

Lemma session_query_get_id (w : db) (sid : Z) (s : GRPOTransferSession.t) :
  session_query_get w sid = Some s -> GRPOTransferSession.id s = sid.
Proof.
  unfold session_query_get. intro H. apply find_some in H.
  destruct H as [_ H]. now apply Z.eqb_eq in H.
Qed.

Lemma filter_map_swap {A B : Type} (f : A -> B) (p : B -> bool) (l : list A) :
  filter p (map f l) = map f (filter (fun x => p (f x)) l).
Proof.
  induction l as [|x l IH]; simpl; [reflexivity|].
  destruct (p (f x)); simpl; now rewrite IH.
Qed.

(** Filtering a ledger keeps its ids distinct. *)
Lemma filter_keeps_ids_distinct (keep : GRPOTransferItem.t -> bool)
      (its : list GRPOTransferItem.t) :
  NoDup (map GRPOTransferItem.id its) ->
  NoDup (map GRPOTransferItem.id (filter keep its)).
Proof.
  induction its as [|it its IH]; simpl; intro Hnd; [constructor|].
  apply NoDup_cons_iff in Hnd. destruct Hnd as [Hfresh Hnd].
  destruct (keep it); simpl; [|now apply IH].
  apply NoDup_cons; [|now apply IH].
  intro Hin. apply Hfresh. apply in_map_iff in Hin.
  destruct Hin as [other [Hid Hin]]. apply filter_In in Hin.
  apply in_map_iff. exists other. tauto.
Qed.

Lemma filter_none {A : Type} (p : A -> bool) (l : list A) :
  (forall x, In x l -> p x = false) -> filter p l = [].
Proof.
  induction l as [|x l IH]; simpl; intro H; [reflexivity|].
  rewrite (H x) by now left. apply IH. intros y Hy. apply H. now right.
Qed.

Lemma flat_map_nil {A B : Type} (f : A -> list B) (l : list A) :
  (forall x, In x l -> f x = []) -> flat_map f l = [].
Proof.
  induction l as [|x l IH]; simpl; intro H; [reflexivity|].
  rewrite (H x) by now left. apply IH. intros y Hy. apply H. now right.
Qed.

(** ** Label minting: what the loops add *)

Section MintingFacts.

Variable json_dumps : pyval -> string.
Variable batches_of :
  list GRPOTransferBatch.t -> list GRPOTransferSplit.t ->
  GRPOTransferItem.t -> list GRPOTransferBatch.t.
Variable c : context.
Variable session : GRPOTransferSession.t.
Variable w : db.

Lemma mint_label_stamps item n ks st :
  map stamp (added (fold_left (mint_label json_dumps batches_of c session w
      item n) ks st))
  = (map stamp (added st)
     ++ map (fun k => (GRPOTransferItem.id item, k, n, 1)) ks)%list.
Proof.
  revert st. induction ks as [|k ks IH]; intro st; simpl.
  - now rewrite app_nil_r.
  - rewrite IH. simpl. rewrite map_app, <- app_assoc. reflexivity.
Qed.

Lemma mint_label_count item n ks st :
  label_count (fold_left (mint_label json_dumps batches_of c session w
      item n) ks st)
  = label_count st + Z.of_nat (List.length ks).
Proof.
  revert st. induction ks as [|k ks IH]; intro st; simpl List.length.
  - simpl. lia.
  - simpl fold_left. rewrite IH. simpl. lia.
Qed.

Lemma mint_item_stamps its st :
  map stamp (added (fold_left (mint_item json_dumps batches_of c
      session w) its st))
  = (map stamp (added st) ++ flat_map item_stamps its)%list.
Proof.
  revert st. induction its as [|it its IH]; intro st; simpl.
  - now rewrite app_nil_r.
  - rewrite IH. rewrite app_assoc. f_equal.
    unfold mint_item, item_stamps.
    destruct (py_int (GRPOTransferItem.approved_quantity it) <=? 0) eqn:E.
    + apply Z.leb_le in E. rewrite (range1_nonpos _ E). simpl.
      now rewrite app_nil_r.
    + apply mint_label_stamps.
Qed.

Lemma mint_item_count its st :
  label_count (fold_left (mint_item json_dumps batches_of c session w) its st)
  = label_count st + Z.of_nat (List.length (flat_map item_stamps its)).
Proof.
  revert st. induction its as [|it its IH]; intro st; simpl.
  - lia.
  - rewrite IH. rewrite length_app. unfold mint_item, item_stamps.
    destruct (py_int (GRPOTransferItem.approved_quantity it) <=? 0) eqn:E.
    + apply Z.leb_le in E. rewrite (range1_nonpos _ E). simpl. lia.
    + rewrite mint_label_count, length_map. lia.
Qed.

Lemma mint_label_from its item ks st :
  In item its ->
  Forall (minted_from json_dumps batches_of c session w its) (added st) ->
  Forall (minted_from json_dumps batches_of c session w its)
    (added (fold_left
              (mint_label json_dumps batches_of c session w item
                 (py_int (GRPOTransferItem.approved_quantity item))) ks st)).
Proof.
  intro Hin. revert st. induction ks as [|k ks IH]; intros st H; simpl.
  - exact H.
  - apply IH. simpl. apply Forall_app. split; [exact H|].
    constructor; [|constructor].
    exists item, k, (label_count st). split; [exact Hin|reflexivity].
Qed.

Lemma mint_item_from its done st :
  incl its done ->
  Forall (minted_from json_dumps batches_of c session w done) (added st) ->
  Forall (minted_from json_dumps batches_of c session w done)
    (added (fold_left (mint_item json_dumps batches_of c session w) its st)).
Proof.
  revert st. induction its as [|it its IH]; intros st Hincl H; simpl.
  - exact H.
  - apply IH.
    + intros x Hx. apply Hincl. now right.
    + unfold mint_item.
      destruct (py_int (GRPOTransferItem.approved_quantity it) <=? 0).
      * exact H.
      * apply mint_label_from; [apply Hincl; now left|exact H].
Qed.

(** With distinct ids, the stamps that carry an item's id are that item's. *)
Lemma stamps_of_item its item :
  NoDup (map GRPOTransferItem.id its) ->
  In item its ->
  filter (fun s => fst (fst (fst s)) =? GRPOTransferItem.id item)
         (flat_map item_stamps its)
  = item_stamps item.
Proof.
  assert (Hall : forall it,
             filter (fun s => fst (fst (fst s)) =? GRPOTransferItem.id it)
                    (item_stamps it) = item_stamps it).
  { intro it. unfold item_stamps. rewrite filter_map_swap. simpl.
    f_equal. apply forallb_filter_id. apply forallb_forall.
    intros x _. apply Z.eqb_refl. }
  assert (Hnone : forall it its0,
             ~ In (GRPOTransferItem.id it) (map GRPOTransferItem.id its0) ->
             filter (fun s => fst (fst (fst s)) =? GRPOTransferItem.id it)
                    (flat_map item_stamps its0) = []).
  { intros it its0. induction its0 as [|x its0 IH]; simpl; intro Hn.
    - reflexivity.
    - rewrite filter_app, IH by tauto. rewrite app_nil_r.
      unfold item_stamps. rewrite filter_map_swap. simpl.
      rewrite filter_none; [reflexivity|].
      intros k _. apply Z.eqb_neq. intuition. }
  induction its as [|x its IH]; simpl; intros Hnd Hin; [contradiction|].
  inversion Hnd as [|? ? Hnotin Hnd']; subst.
  rewrite filter_app. destruct Hin as [->|Hin].
  - rewrite Hall, Hnone by assumption. apply app_nil_r.
  - rewrite IH by assumption.
    replace (filter _ (item_stamps x)) with (@nil (Z * Z * Z * Z)).
    + reflexivity.
    + symmetry. unfold item_stamps. rewrite filter_map_swap. simpl.
      rewrite filter_none; [reflexivity|].
      intros k _. apply Z.eqb_neq. intro Heq. apply Hnotin. rewrite Heq.
      now apply in_map.
Qed.

End MintingFacts.

(** The three outcomes of [generate_qr_labels] on an existing session. *)
Lemma generate_qr_labels_cases json_dumps batches_of c sid w session :
  session_query_get w sid = Some session ->
  let its := filter eligible (session_items w sid) in
  let st := fold_left (mint_item json_dumps batches_of c session w) its
                      {| added := []; minted := []; label_count := 0 |} in
  generate_qr_labels json_dumps batches_of c sid w =
  match its with
  | [] =>
      ((Failure (Text "No approved items found. Please submit QC approval first."),
        400), w)
  | _ :: _ =>
      if label_count st =? 0 then
        ((Failure (Text "No labels could be generated. Check approved quantities."),
          400), w)
      else ((LabelsGenerated (label_count st) (minted st), 200),
            add_labels (added st) w)
  end.
Proof.
  intro H. unfold generate_qr_labels. rewrite H.
  rewrite (session_query_get_id _ _ _ H). simpl.
  destruct (filter eligible (session_items w sid)); reflexivity.
Qed.

(** Whatever the outcome, the label table grows by rows whose stamps are
    those of the eligible items, in order. *)
Lemma generate_qr_labels_stamps json_dumps batches_of c sid w session :
  session_query_get w sid = Some session ->
  exists new,
    labels (snd (generate_qr_labels json_dumps batches_of c sid w)) = (labels w
        ++ new)%list
    /\ map stamp new
       = flat_map item_stamps (filter eligible (session_items w sid))
    /\ Forall (minted_from json_dumps batches_of c session w
                 (filter eligible (session_items w sid))) new.
Proof.
  intro H. rewrite (generate_qr_labels_cases json_dumps batches_of c sid w
      session H).
  pose proof (mint_item_stamps json_dumps batches_of c session w
                (filter eligible (session_items w sid))
                {| added := []; minted := []; label_count := 0 |}) as Hs.
  pose proof (mint_item_count json_dumps batches_of c session w
                (filter eligible (session_items w sid))
                {| added := []; minted := []; label_count := 0 |}) as Hc.
  pose proof (mint_item_from json_dumps batches_of c session w
                (filter eligible (session_items w sid))
                (filter eligible (session_items w sid))
                {| added := []; minted := []; label_count := 0 |}
                (incl_refl _) (Forall_nil _)) as Hf.
  simpl in Hs, Hc.
  destruct (filter eligible (session_items w sid)) as [|it its] eqn:E.
  - exists []. simpl. rewrite app_nil_r. repeat split. constructor.
  - match goal with |- context [label_count ?s =? 0] => set (st := s) in * end.
    destruct (label_count st =? 0) eqn:E0.
    + exists []. rewrite app_nil_r. repeat split; [|constructor].
      apply Z.eqb_eq in E0. rewrite E0 in Hc.
      destruct (flat_map item_stamps (it :: its)); [reflexivity|].
      simpl in Hc. lia.
    + exists (added st). simpl. repeat split; assumption.
Qed.

Lemma stamps_read (i n : Z) (ks : list Z) (mine : list GRPOTransferQRLabel.t) :
  map stamp mine = map (fun k => (i, k, n, 1)) ks ->
  List.length mine = List.length ks
  /\ map GRPOTransferQRLabel.label_number mine = ks
  /\ Forall (fun l => GRPOTransferQRLabel.quantity l = 1
                      /\ GRPOTransferQRLabel.total_labels l = n) mine.
Proof.
  revert ks. induction mine as [|l mine IH]; intros [|k ks] H;
    simpl in H; try discriminate.
  - repeat split. constructor.
  - unfold stamp at 1 in H. injection H as _ Hk Hn Hq Hrest.
    destruct (IH _ Hrest) as [Hlen [Hnum Hall]].
    simpl. repeat split; try congruence. constructor; [split|]; assumption.
Qed.

(** ** Claims on label minting *)

(** C1. For every item of a session whose QC status is 'approved' and whose
    approved quantity q is strictly positive, label minting adds to the label
    table exactly floor(q) rows for that item, numbered 1..floor(q), each with
    quantity 1 and total_labels floor(q); the fractional part of q adds
    nothing.  Item ids are a primary key, hence distinct. *)
Theorem labels_per_approved_item :
  forall json_dumps batches_of c sid w session item,
    session_query_get w sid = Some session ->
    NoDup (map GRPOTransferItem.id (items w)) ->
    In item (session_items w sid) ->
    GRPOTransferItem.qc_status item = PStr "approved" ->
    (0 < GRPOTransferItem.approved_quantity item)%Q ->
    exists new,
      labels (snd (generate_qr_labels json_dumps batches_of c sid w))
      = (labels w ++ new)%list
      /\ let n := Qfloor (GRPOTransferItem.approved_quantity item) in
         let mine :=
           filter (fun l => GRPOTransferQRLabel.item_id l
                            =? GRPOTransferItem.id item) new in
         List.length mine = Z.to_nat n
         /\ map GRPOTransferQRLabel.label_number mine = range1 n
         /\ Forall (fun l => GRPOTransferQRLabel.quantity l = 1
                             /\ GRPOTransferQRLabel.total_labels l = n) mine.
Proof.
  intros json_dumps batches_of c sid w session item Hs Hnd Hin Hst Hq.
  destruct (generate_qr_labels_stamps json_dumps batches_of c sid w session Hs)
    as [new [Hnew [Hstamps _]]].
  exists new. split; [exact Hnew|]. cbv zeta.
  assert (Hel : In item (filter eligible (session_items w sid))).
  { apply filter_In. split; [exact Hin|]. apply eligible_iff. tauto. }
  assert (Hnd' : NoDup (map GRPOTransferItem.id
                          (filter eligible (session_items w sid)))).
  { apply filter_keeps_ids_distinct. unfold session_items.
    now apply filter_keeps_ids_distinct. }
  pose proof (stamps_of_item _ _ Hnd' Hel) as Hmine.
  rewrite <- Hstamps in Hmine. rewrite filter_map_swap in Hmine.
  unfold stamp at 1 in Hmine. simpl in Hmine.
  unfold item_stamps in Hmine.
  rewrite (py_int_floor _ (Qlt_le_weak _ _ Hq)) in Hmine.
  destruct (stamps_read _ _ _ _ Hmine) as [Hlen [Hnum Hall]].
  repeat split; try assumption.
  rewrite Hlen. unfold range1. now rewrite length_map, length_seq.
Qed.

(** C7. On an existing session in which no item is approved with a strictly
    positive approved quantity, label minting answers 400 with the
    'No approved items found' error and leaves the store as it was, so no
    label row is written. *)
Theorem no_approved_items_no_labels :
  forall json_dumps batches_of c sid w session,
    session_query_get w sid = Some session ->
    (forall item, In item (session_items w sid) ->
                  ~ (GRPOTransferItem.qc_status item = PStr "approved"
                     /\ (0 < GRPOTransferItem.approved_quantity item)%Q)) ->
    generate_qr_labels json_dumps batches_of c sid w
    = ((Failure (Text "No approved items found. Please submit QC approval first."),
        400), w).
Proof.
  intros json_dumps batches_of c sid w session Hs Hnone.
  rewrite (generate_qr_labels_cases json_dumps batches_of c sid w session Hs).
  rewrite filter_none; [reflexivity|].
  intros item Hin. destruct (eligible item) eqn:E; [|reflexivity].
  apply eligible_iff in E. exfalso. exact (Hnone item Hin E).
Qed.

(** C8. On an existing session, label minting either leaves the store as it
    was or commits every row it built, in one step.  When eligible items
    exist (approved, approved quantity > 0) but the truncated quantity of
    each is not positive, it answers 400 with the 'No labels could be
    generated' error and leaves the store as it was. *)
Theorem no_whole_unit_no_labels :
  forall json_dumps batches_of c sid w session,
    session_query_get w sid = Some session ->
    let r := generate_qr_labels json_dumps batches_of c sid w in
    let st := fold_left (mint_item json_dumps batches_of c session w)
                        (filter eligible (session_items w sid))
                        {| added := []; minted := []; label_count := 0 |} in
    (snd r = w
     \/ (fst r = (LabelsGenerated (label_count st) (minted st), 200)
         /\ snd r = add_labels (added st) w))
    /\ ((exists item, In item (session_items w sid)
                      /\ GRPOTransferItem.qc_status item = PStr "approved"
                      /\ (0 < GRPOTransferItem.approved_quantity item)%Q) ->
        (forall item, In item (session_items w sid) ->
                      GRPOTransferItem.qc_status item = PStr "approved" ->
                      (0 < GRPOTransferItem.approved_quantity item)%Q ->
                      py_int (GRPOTransferItem.approved_quantity item) <= 0) ->
        r = ((Failure
                (Text "No labels could be generated. Check approved quantities."),
              400), w)).
Proof.
  intros json_dumps batches_of c sid w session Hs. cbv zeta.
  rewrite (generate_qr_labels_cases json_dumps batches_of c sid w session Hs).
  pose proof (mint_item_count json_dumps batches_of c session w
                (filter eligible (session_items w sid))
                {| added := []; minted := []; label_count := 0 |}) as Hc.
  simpl in Hc.
  split.
  - destruct (filter eligible (session_items w sid)); [now left|].
    match goal with |- context [if ?b then _ else _] => destruct b end;
      [now left|right; split; reflexivity].
  - intros [item [Hin [Hst Hq]]] Hall.
    assert (Hel : In item (filter eligible (session_items w sid))).
    { apply filter_In. split; [exact Hin|]. apply eligible_iff. tauto. }
    assert (Hnil : flat_map item_stamps (filter eligible (session_items w sid))
                   = []).
    { apply flat_map_nil. intros it Hit. apply filter_In in Hit.
      destruct Hit as [Hit Helig]. apply eligible_iff in Helig.
      unfold item_stamps. rewrite range1_nonpos; [reflexivity|].
      apply Hall; tauto. }
    rewrite Hnil in Hc. simpl in Hc.
    destruct (filter eligible (session_items w sid)); [contradiction|].
    rewrite Hc. reflexivity.
Qed.

(** Whatever rows stand behind [item.batches], every label row minted for
    an item carries the batch number of the first of them, or None when
    there is none, and its payload says the same. *)
Lemma label_batch_number_of_relationship json_dumps batches_of c sid w :
  exists new,
    labels (snd (generate_qr_labels json_dumps batches_of c sid w))
    = (labels w ++ new)%list
    /\ Forall
         (fun l =>
            exists item payload,
              In item (session_items w sid)
              /\ GRPOTransferQRLabel.item_id l = GRPOTransferItem.id item
              /\ GRPOTransferQRLabel.batch_number l
                 = first_batch_number (item_batches batches_of w item)
              /\ GRPOTransferQRLabel.qr_data l = json_dumps (PDict payload)
              /\ lookup "batch_number" payload
                 = Some (GRPOTransferQRLabel.batch_number l))
         new.
Proof.
  destruct (session_query_get w sid) as [session|] eqn:Hs.
  - destruct (generate_qr_labels_stamps json_dumps batches_of c sid w
      session Hs)
      as [new [Hnew [_ Hfrom]]].
    exists new. split; [exact Hnew|].
    eapply Forall_impl; [|exact Hfrom].
    intros l [item [k [count [Hin ->]]]].
    apply filter_In in Hin. destruct Hin as [Hin _].
    exists item. eexists. split; [exact Hin|].
    repeat split; reflexivity.
  - exists []. unfold generate_qr_labels. rewrite Hs. simpl.
    rewrite app_nil_r. split; [reflexivity|constructor].
Qed.

(** C6. With [item.batches] read as the spec describes it, the item's
    splits, every label row minted for an item carries as batch number the
    batch number of the item's first split when the item has splits, and
    None otherwise; the label's serialized payload is the dump of a dict
    whose 'batch_number' entry is that same value. *)
Theorem label_batch_number_from_first_split :
  forall json_dumps c sid w,
  exists new,
    labels (snd (generate_qr_labels json_dumps split_rows c sid w))
    = (labels w ++ new)%list
    /\ Forall
         (fun l =>
            exists item payload,
              In item (session_items w sid)
              /\ GRPOTransferQRLabel.item_id l = GRPOTransferItem.id item
              /\ GRPOTransferQRLabel.batch_number l
                 = match filter (fun sp => GRPOTransferSplit.item_id sp
                                           =? GRPOTransferItem.id item)
                                (splits w) with
                   | sp :: _ => GRPOTransferSplit.batch_number sp
                   | [] => PNone
                   end
              /\ GRPOTransferQRLabel.qr_data l = json_dumps (PDict payload)
              /\ lookup "batch_number" payload
                 = Some (GRPOTransferQRLabel.batch_number l))
         new.
Proof.
  intros json_dumps c sid w.
  destruct (label_batch_number_of_relationship json_dumps split_rows c sid w)
    as [new [Hnew Hall]].
  exists new. split; [exact Hnew|].
  eapply Forall_impl; [|exact Hall].
  intros l [item [payload [Hin [Hid [Hb [Hq Hp]]]]]].
  exists item, payload. repeat (split; [assumption|]).
  split; [|split; assumption].
  rewrite Hb. unfold item_batches, split_rows.
  destruct (filter _ (splits w)); reflexivity.
Qed.

(** After a QC approval that records a split with batch number S1 for
    item 10, the two labels minted for item 10 carry S1 under that reading,
    on the row and in the payload. *)
Example label_takes_first_split_batch :
  let w1 := snd (qc_approve_items sample_float_of_str sample_read_key
                   sample_stores_number alice approve_with_split 1
                   pending_db) in
  map (fun l => (GRPOTransferQRLabel.label_number l,
                 GRPOTransferQRLabel.batch_number l))
      (labels (snd (generate_qr_labels sample_dumps split_rows alice 1 w1)))
  = [(1, PStr "S1"); (2, PStr "S1")].
Proof. reflexivity. Qed.

(** Read as the item's [GRPOTransferBatch] rows: with batch rows B-77 and
    B-78 on its item, the one label minted carries B-77, on the row and in
    its payload. *)
Example label_takes_first_batch_number :
  map (fun l => (GRPOTransferQRLabel.batch_number l,
                 GRPOTransferQRLabel.qr_data l))
      (labels (snd (generate_qr_labels sample_dumps batch_rows alice 1
                      batched_db)))
  = [(PStr "B-77",
      sample_dumps
        (qr_payload batch_rows alice sample_session batched_db
           (sample_item 10 "A" "approved" (3 # 2) "WH-IN" "WH-QC") 1 1 0))]
  /\ get (qr_payload batch_rows alice sample_session batched_db
            (sample_item 10 "A" "approved" (3 # 2) "WH-IN" "WH-QC") 1 1 0)
         "batch_number" PNone
     = Return (PStr "B-77").
Proof. split; reflexivity. Qed.

Lemma labels_per_approved_item_witness :
  let item := sample_item 12 "C" "approved" (5 # 2) "WH-RCV" "WH-02" in
  session_query_get sample_db 1 = Some sample_session
  /\ NoDup (map GRPOTransferItem.id (items sample_db))
  /\ In item (session_items sample_db 1)
  /\ GRPOTransferItem.qc_status item = PStr "approved"
  /\ (0 < GRPOTransferItem.approved_quantity item)%Q
  /\ exists new,
      labels (snd (generate_qr_labels sample_dumps batch_rows alice 1
          sample_db))
      = (labels sample_db ++ new)%list
      /\ let n := Qfloor (GRPOTransferItem.approved_quantity item) in
         let mine :=
           filter (fun l => GRPOTransferQRLabel.item_id l
                            =? GRPOTransferItem.id item) new in
         List.length mine = Z.to_nat n
         /\ map GRPOTransferQRLabel.label_number mine = range1 n
         /\ Forall (fun l => GRPOTransferQRLabel.quantity l = 1
                             /\ GRPOTransferQRLabel.total_labels l = n) mine.
Proof.
  intro item.
  assert (H1 : session_query_get sample_db 1 = Some sample_session)
    by reflexivity.
  assert (H2 : NoDup (map GRPOTransferItem.id (items sample_db)))
    by distinct_ids.
  assert (H3 : In item (session_items sample_db 1)) by (simpl; tauto).
  assert (H4 : GRPOTransferItem.qc_status item = PStr "approved")
    by reflexivity.
  assert (H5 : (0 < GRPOTransferItem.approved_quantity item)%Q)
    by reflexivity.
  repeat (split; [assumption|]).
  exact (labels_per_approved_item sample_dumps batch_rows alice 1 sample_db
           sample_session item H1 H2 H3 H4 H5).
Defined.

Lemma no_approved_items_no_labels_witness :
  session_query_get pending_db 1 = Some sample_session
  /\ (forall item, In item (session_items pending_db 1) ->
                   ~ (GRPOTransferItem.qc_status item = PStr "approved"
                      /\ (0 < GRPOTransferItem.approved_quantity item)%Q))
  /\ generate_qr_labels sample_dumps batch_rows alice 1 pending_db
     = ((Failure (Text "No approved items found. Please submit QC approval first."),
         400), pending_db).
Proof.
  assert (H1 : session_query_get pending_db 1 = Some sample_session)
    by reflexivity.
  assert (H2 : forall item, In item (session_items pending_db 1) ->
                 ~ (GRPOTransferItem.qc_status item = PStr "approved"
                    /\ (0 < GRPOTransferItem.approved_quantity item)%Q)).
  { simpl. intros item [<-|[]] [Hst _]. discriminate Hst. }
  repeat (split; [assumption|]).
  exact (no_approved_items_no_labels sample_dumps batch_rows alice 1 pending_db
           sample_session H1 H2).
Defined.

Lemma no_whole_unit_no_labels_witness :
  session_query_get half_unit_db 1 = Some sample_session
  /\ (exists item, In item (session_items half_unit_db 1)
                   /\ GRPOTransferItem.qc_status item = PStr "approved"
                   /\ (0 < GRPOTransferItem.approved_quantity item)%Q)
  /\ (forall item, In item (session_items half_unit_db 1) ->
                   GRPOTransferItem.qc_status item = PStr "approved" ->
                   (0 < GRPOTransferItem.approved_quantity item)%Q ->
                   py_int (GRPOTransferItem.approved_quantity item) <= 0)
  /\ generate_qr_labels sample_dumps batch_rows alice 1 half_unit_db
     = ((Failure
           (Text "No labels could be generated. Check approved quantities."),
         400), half_unit_db).
Proof.
  assert (H1 : session_query_get half_unit_db 1 = Some sample_session)
    by reflexivity.
  assert (H2 : exists item, In item (session_items half_unit_db 1)
                 /\ GRPOTransferItem.qc_status item = PStr "approved"
                 /\ (0 < GRPOTransferItem.approved_quantity item)%Q).
  { eexists. split; [left; reflexivity|]. split; reflexivity. }
  assert (H3 : forall item, In item (session_items half_unit_db 1) ->
                 GRPOTransferItem.qc_status item = PStr "approved" ->
                 (0 < GRPOTransferItem.approved_quantity item)%Q ->
                 py_int (GRPOTransferItem.approved_quantity item) <= 0).
  { simpl. intros item [<-|[]] _ _. vm_compute. discriminate. }
  repeat (split; [assumption|]).
  exact (proj2 (no_whole_unit_no_labels sample_dumps batch_rows alice 1
      half_unit_db
                  sample_session H1) H2 H3).
Defined.

(** ** QC approval: what the loop leaves alone *)

Lemma bind_Return {A B : Type} (m : result A) (k : A -> result B) (b : B) :
  bind m k = Return b -> exists a, m = Return a /\ k a = Return b.
Proof.
  destruct m as [a|e]; simpl; intro H; [|discriminate]. now exists a.
Qed.

Ltac split_binds H :=
  repeat (apply bind_Return in H;
          let a := fresh "v" in
          let Ha := fresh "Hv" in
          destruct H as [a [Ha H]]).

Lemma for_each_app {A S : Type} (body : S -> A -> result S)
      (xs ys : list A) (s : S) :
  for_each body (xs ++ ys) s
  = bind (for_each body xs s) (for_each body ys).
Proof.
  revert s. induction xs as [|x xs IH]; intro s; simpl; [reflexivity|].
  destruct (body s x) as [s'|e]; simpl; [apply IH|reflexivity].
Qed.

(** An invariant kept by every turn of a loop is kept by the loop. *)
Lemma for_each_invariant {A S : Type} (body : S -> A -> result S)
      (R : S -> S -> Prop) :
  (forall s, R s s) ->
  (forall s1 s2 s3, R s1 s2 -> R s2 s3 -> R s1 s3) ->
  (forall s x s', body s x = Return s' -> R s s') ->
  forall xs s s', for_each body xs s = Return s' -> R s s'.
Proof.
  intros Hrefl Htrans Hstep. induction xs as [|x xs IH]; simpl; intros s s' H.
  - injection H as <-. apply Hrefl.
  - apply bind_Return in H. destruct H as [s1 [H1 H2]].
    eapply Htrans; [eapply Hstep; exact H1|apply IH; exact H2].
Qed.



Lemma save_item_frame item w : same_frame w (save_item item w).
Proof.
  split; [reflexivity|]. simpl. rewrite map_map. apply map_ext.
  intro i. destruct (GRPOTransferItem.id i =? GRPOTransferItem.id item) eqn:E;
    [|reflexivity].
  apply Z.eqb_eq in E. now rewrite E.
Qed.



(** A flush that returns changes nothing, and nothing unbindable was
    pending. *)
Lemma flush_Return u u' :
  flush u = Return u' -> u' = u /\ pending_bindable u = true.
Proof.
  unfold flush. destruct (pending_bindable u); intro H; [|discriminate].
  injection H as <-. split; reflexivity.
Qed.

Lemma select_item_found u z :
  store (snd (select_item u z)) = store u
  /\ pending_bindable (snd (select_item u z)) = pending_bindable u
  /\ fst (select_item u z) = item_by_id (store u) z.
Proof.
  unfold select_item. destruct (item_by_id (store u) z); simpl; repeat split.
Qed.

Lemma item_by_id_found w k item :
  item_by_id w k = Some item ->
  In item (items w) /\ GRPOTransferItem.id item = k.
Proof.
  unfold item_by_id. intro H. apply find_some in H. destruct H as [Hin Hid].
  now apply Z.eqb_eq in Hid.
Qed.

(** A lookup that returns leaves the working copy and what is pending as
    they were, and the row it returns is one of the ledger. *)
Lemma item_query_get_Return read_key stores_number u key found :
  item_query_get read_key stores_number u key = Return found ->
  store (snd found) = store u
  /\ pending_bindable (snd found) = pending_bindable u
  /\ forall item, fst found = Some item -> In item (items (store u)).
Proof.
  unfold item_query_get.
  destruct (reading read_key key) as [z|found0|e].
  - destruct (existsb (Z.eqb z) (identity_map u)).
    + intro H. injection H as <-. simpl. repeat split.
      intros item Hi. exact (proj1 (item_by_id_found _ _ _ Hi)).
    + intro H. apply bind_Return in H. destruct H as [u1 [Hf H]].
      apply flush_Return in Hf. destruct Hf as [-> _].
      destruct (binds_key stores_number (store u) z); [|discriminate H].
      injection H as <-.
      destruct (select_item_found u z) as [A [B C]].
      repeat split; try assumption.
      intros item Hi. rewrite C in Hi. exact (proj1 (item_by_id_found _
          _ _ Hi)).
  - intro H. apply bind_Return in H. destruct H as [u1 [Hf H]].
    apply flush_Return in Hf. destruct Hf as [-> _].
    apply bind_Return in H. destruct H as [row [_ H]].
    destruct row as [z|]; injection H as <-.
    + destruct (select_item_found u z) as [A [B C]].
      repeat split; try assumption.
      intros item Hi. rewrite C in Hi. exact (proj1 (item_by_id_found _
          _ _ Hi)).
    + simpl. repeat split. discriminate.
  - discriminate.
Qed.





(** Whether an id finds a row depends on the ids of the ledger only. *)
Lemma item_by_id_none_ids w w' z :
  map GRPOTransferItem.id (items w') = map GRPOTransferItem.id (items w) ->
  item_by_id w z = None -> item_by_id w' z = None.
Proof.
  unfold item_by_id. intros Hids H.
  destruct (find _ (items w')) as [i|] eqn:E; [|reflexivity].
  apply find_some in E. destruct E as [Hin Hid]. apply Z.eqb_eq in Hid.
  assert (Hz : In z (map GRPOTransferItem.id (items w))).
  { rewrite <- Hids, <- Hid. now apply in_map. }
  apply in_map_iff in Hz. destruct Hz as [j [Hj Hjin]].
  pose proof (find_none _ _ H j Hjin) as Hn. simpl in Hn.
  apply Z.eqb_neq in Hn. contradiction.
Qed.


(** Saving a session that is in the table makes it the one found. *)
Lemma session_query_get_save w sid s s' :
  session_query_get w sid = Some s ->
  GRPOTransferSession.id s' = sid ->
  session_query_get (save_session s' w) sid = Some s'.
Proof.
  unfold session_query_get, save_session. simpl. intros H Hid. subst sid.
  induction (sessions w) as [|x l IH]; simpl in *; [discriminate|].
  destruct (GRPOTransferSession.id x =? GRPOTransferSession.id s') eqn:E;
    simpl.
  - now rewrite Z.eqb_refl.
  - rewrite E. apply IH. exact H.
Qed.

Lemma session_query_get_add_log w sid l :
  session_query_get (add_log l w) sid = session_query_get w sid.
Proof. reflexivity. Qed.

(** An entry whose reference finds no row leaves the unit of work as it
    was.  The one thing its lookup can do is make the flush before the
    query raise on a value an earlier entry left pending. *)
Lemma approve_item_unresolved float_of_str read_key stores_number w u
      item_approval :
  unresolved read_key stores_number w item_approval ->
  map GRPOTransferItem.id (items (store u))
  = map GRPOTransferItem.id (items w) ->
  approve_item float_of_str read_key stores_number u item_approval = Return u
  \/ (pending_bindable u = false
      /\ approve_item float_of_str read_key stores_number u item_approval
         = Raise DatabaseError).
Proof.
  intros [key [Hk Hread]] Hids. unfold approve_item. rewrite Hk. cbn [bind].
  unfold item_query_get.
  assert (Hsel : forall z, item_by_id w z = None -> select_item u z =
      (None, u)).
  { intros z Hz. unfold select_item.
    now rewrite (item_by_id_none_ids w (store u) z Hids Hz). }
  destruct (reading read_key key) as [z|found|e].
  - destruct Hread as [Hread Hbinds].
    destruct (existsb (Z.eqb z) (identity_map u)).
    + left. cbn [bind fst snd].
      now rewrite (item_by_id_none_ids w (store u) z Hids Hread).
    + unfold flush. destruct (pending_bindable u); cbn [bind].
      * left. unfold binds_key.
        rewrite (item_by_id_none_ids w (store u) z Hids Hread), Hbinds.
        now rewrite (Hsel z Hread).
      * right. split; reflexivity.
  - unfold flush. destruct (pending_bindable u); cbn [bind].
    + left. destruct Hread as [->|[z [-> Hz]]]; cbn [bind].
      * reflexivity.
      * now rewrite (Hsel z Hz).
    + right. split; reflexivity.
  - contradiction.
Qed.

Lemma approve_loop_unresolved float_of_str read_key stores_number w batch :
  Forall (unresolved read_key stores_number w) batch ->
  for_each (approve_item float_of_str read_key stores_number) batch
           (mkwork w true [])
  = Return (mkwork w true []).
Proof.
  induction 1 as [|x l Hx _ IH]; simpl; [reflexivity|].
  destruct (approve_item_unresolved float_of_str read_key stores_number w
              (mkwork w true []) x Hx eq_refl) as [->|[Hp _]];
    [exact IH|discriminate Hp].
Qed.


(** The two ways QC approval ends on an existing session. *)
Lemma qc_approve_items_outcomes float_of_str read_key stores_number c data sid
      w session :
  session_query_get w sid = Some session ->
  let r := qc_approve_items float_of_str read_key stores_number c data sid w in
  (exists u,
      approve_batch float_of_str read_key stores_number data w = Return u
      /\ pending_bindable u = true
      /\ r = ((Succeeded "Items approved successfully", 200),
              add_log (approval_log c sid)
                (save_session (marked_session c session) (store u))))
  \/ (exists e, r = ((Failure (StrOf e), 500), w)
                /\ (approve_batch float_of_str read_key stores_number data w
                    = Raise e
                    \/ (e = DatabaseError
                        /\ exists u,
                            approve_batch float_of_str read_key stores_number
                              data w = Return u
                            /\ pending_bindable u = false))).
Proof.
  intro Hs. cbv zeta. unfold qc_approve_items. rewrite Hs.
  destruct (approve_batch _ _ _ data w) as [u|e]; cbn [bind].
  - unfold flush. destruct (pending_bindable u) eqn:Hp.
    + left. exists u. repeat split. exact Hp.
    + right. exists DatabaseError. split; [reflexivity|].
      right. split; [reflexivity|]. now exists u.
  - right. exists e. split; [reflexivity|now left].
Qed.

Lemma get_field kv k default :
  get (PDict kv) k default = Return (field kv k default).
Proof. unfold get, field. now destruct (lookup k kv). Qed.

(** One turn of the batch loop, at the start of a request, on an entry
    without splits that reads well. *)
Lemma approve_item_reviewed float_of_str read_key stores_number w kv k
    item a r :
  lookup "item_id" kv = Some (PInt k) ->
  item_by_id w k = Some item ->
  review_reads float_of_str stores_number kv a r ->
  approve_item float_of_str read_key stores_number (mkwork w true []) (PDict kv)
  = Return (mkwork (save_item (reviewed item kv a r) w) true
                   [GRPOTransferItem.id item]).
Proof.
  intros Hk Hq [Ha [Hr [Hsp [S1 [S2 [S3 S4]]]]]].
  unfold approve_item, subscript. rewrite Hk. cbn [bind].
  unfold item_query_get, reading, binds_key, select_item.
  cbn [existsb identity_map flush pending_bindable bind store]. rewrite Hq.
  cbn [bind fst snd store pending_bindable identity_map].
  assert (Hf : field kv "splits" (PList []) = PList [])
    by (unfold field; now rewrite Hsp).
  rewrite !get_field. cbn [bind]. rewrite Ha. cbn [bind].
  rewrite Hr. cbn [bind]. rewrite Hf. cbn [iter bind for_each].
  rewrite S1, S2, S3, S4. reflexivity.
Qed.

(** After a save, the saved row is the one its id finds. *)
Lemma item_by_id_save w k item item' :
  item_by_id w k = Some item ->
  GRPOTransferItem.id item' = k ->
  item_by_id (save_item item' w) k = Some item'.
Proof.
  unfold item_by_id. simpl. intros H Hid. subst k.
  induction (items w) as [|x l IH]; simpl in *; [discriminate|].
  destruct (GRPOTransferItem.id x =? GRPOTransferItem.id item') eqn:E; simpl.
  - now rewrite Z.eqb_refl.
  - rewrite E. apply IH. exact H.
Qed.

(** What QC approval leaves after a batch of references that find no row
    followed by one entry without splits that reads well. *)
Lemma qc_approve_after_strays float_of_str read_key stores_number c sid w
      session other strays kv k item a r :
  session_query_get w sid = Some session ->
  Forall (unresolved read_key stores_number w) strays ->
  lookup "item_id" kv = Some (PInt k) ->
  item_by_id w k = Some item ->
  review_reads float_of_str stores_number kv a r ->
  qc_approve_items float_of_str read_key stores_number c
    (PDict (("items", PList (strays ++ [PDict kv])) :: other)) sid w
  = ((Succeeded "Items approved successfully", 200),
     add_log (approval_log c sid)
       (save_session (marked_session c session)
          (save_item (reviewed item kv a r) w))).
Proof.
  intros Hs Hstrays Hk Hq Hreads. unfold qc_approve_items. rewrite Hs.
  unfold approve_batch. simpl get. cbn [bind iter].
  rewrite for_each_app, (approve_loop_unresolved _ _ _ _ _ Hstrays).
  cbn [bind for_each].
  rewrite (approve_item_reviewed _ _ _ _ _ _ _ _ _ Hk Hq Hreads).
  reflexivity.
Qed.


(** ** Claims on QC approval *)






(** Where a skipped entry shows: the first entry leaves notes that cannot
    be bound, so the request fails either way; with the unknown reference
    in between, the flush before its query raises before the last entry's
    missing item_id does. *)
Example skipped_entry_can_change_the_error :
  let notes := PDict [("item_id", PInt 10); ("qc_notes", PDict [])] in
  let stray := PDict [("item_id", PInt 999)] in
  let keyless := PDict [("approved_quantity", PInt 1)] in
  let answer batch :=
    qc_approve_items sample_float_of_str sample_read_key sample_stores_number
      alice (PDict [("items", PList batch)]) 1 sample_db in
  answer [notes; stray; keyless]
  = ((Failure (StrOf DatabaseError), 500), sample_db)
  /\ answer [notes; keyless]
     = ((Failure (StrOf (KeyError "item_id")), 500), sample_db).
Proof. split; reflexivity. Qed.

(** [float] on integers: exact below 2^53, rounded to the nearest double
    above, and refused beyond the largest double. *)
Lemma float_of_int_exact (z : Z) :
  Z.abs z < 2 ^ 53 -> float_of_int z = Return (inject_Z z).
Proof.
  intro H. unfold float_of_int.
  destruct (Z.abs z <? 2 ^ 53) eqn:E; [reflexivity|].
  apply Z.ltb_ge in E. lia.
Qed.

Example float_rounds_large_integers :
  float_of_int (2 ^ 53 + 1) = Return (inject_Z (2 ^ 53))
  /\ float_of_int (2 ^ 53 + 3) = Return (inject_Z (2 ^ 53 + 4))
  /\ float_of_int (- (2 ^ 53 + 1)) = Return (inject_Z (- 2 ^ 53))
  /\ float_of_int (2 ^ 1024 - 2 ^ 970 - 1)
     = Return (inject_Z (2 ^ 1024 - 2 ^ 971))
  /\ float_of_int (2 ^ 1024 - 2 ^ 970) = Raise OverflowError
  /\ float_of_int (10 ^ 400) = Raise OverflowError.
Proof. repeat split; vm_compute; reflexivity. Qed.

(** An approved quantity of 10^400 makes [float] raise: the request is
    answered 500 and nothing is approved. *)
Example huge_quantity_refused :
  qc_approve_items sample_float_of_str sample_read_key sample_stores_number
    alice
    (PDict [("items",
             PList [PDict [("item_id", PInt 10);
                           ("approved_quantity", PInt (10 ^ 400));
                           ("qc_status", PStr "approved")]])])
    1 pending_db
  = ((Failure (StrOf OverflowError), 500), pending_db).
Proof. vm_compute. reflexivity. Qed.

(** Under the sample reading of keys, the text "10" and the list [10]
    name item 10: the entry is not skipped, the item is approved. *)
Example text_key_names_the_item :
  let request key :=
    PDict [("items",
            PList [PDict [("item_id", key); ("approved_quantity", PInt 2);
                          ("qc_status", PStr "approved")]])] in
  let approved key :=
    option_map (fun i => (GRPOTransferItem.approved_quantity i,
                          GRPOTransferItem.qc_status i))
      (item_by_id
         (snd (qc_approve_items sample_float_of_str sample_read_key
                 sample_stores_number alice (request key) 1 pending_db))
         10) in
  approved (PStr "10") = Some (2%Q, PStr "approved")
  /\ approved (PList [PInt 10]) = Some (2%Q, PStr "approved")
  /\ approved (PInt 10) = Some (2%Q, PStr "approved")
  /\ approved (PStr "11") = Some (0%Q, PStr "pending").
Proof. repeat split; reflexivity. Qed.

(** ** Transfer posting: the document and the call *)

(** [enumerate] pairs each element with its 0-based position. *)
Lemma enumerate_from {A : Type} (xs : list A) (start i : nat) (x : A) :
  In (i, x) (combine (seq start (List.length xs)) xs) <->
  (start <= i)%nat /\ nth_error xs (i - start) = Some x.
Proof.
  revert start. induction xs as [|y xs IH]; intro start; simpl.
  - split; [contradiction|]. intros [_ H]. destruct (i - start)%nat; discriminate.
  - rewrite IH. split.
    + intros [H|[Hle H]].
      * injection H as <- <-. split; [lia|]. now rewrite Nat.sub_diag.
      * split; [lia|]. replace (i - start)%nat with (S (i - S start)) by lia.
        exact H.
    + intros [Hle H]. destruct (i - start)%nat as [|k] eqn:E.
      * left. injection H as <-. f_equal. lia.
      * right. split; [lia|]. replace (i - S start)%nat with k by lia. exact H.
Qed.

Lemma enumerate_nth {A : Type} (xs : list A) (i : nat) (x : A) :
  In (i, x) (enumerate xs) <-> nth_error xs i = Some x.
Proof.
  unfold enumerate. rewrite enumerate_from, Nat.sub_0_r.
  split; [tauto|]. intro H. split; [lia|exact H].
Qed.

Lemma add_line_fold batches_of w entries lines :
  fold_left (add_line batches_of w) entries lines
  = (lines ++ map (fun entry => transfer_line batches_of w (fst entry)
      (snd entry))
                  (filter approved_entry entries))%list.
Proof.
  revert lines. induction entries as [|[idx item] entries IH]; intro lines;
    simpl.
  - now rewrite app_nil_r.
  - rewrite IH. unfold approved_entry at 2. simpl.
    destruct (eq_str (GRPOTransferItem.qc_status item) "approved"); simpl.
    + now rewrite <- app_assoc.
    + reflexivity.
Qed.

(** On an existing session exactly one POST is made, to the stock-transfer
    endpoint, carrying [stock_transfer]. *)
Lemma post_transfer_calls json_dumps py_str stores_number batches_of c sap sid
    w session :
  session_query_get w sid = Some session ->
  snd (post_transfer_to_sap json_dumps py_str stores_number batches_of c sap
      sid w)
  = [((base_url sap ++ "/b1s/v1/StockTransfers")%string,
      stock_transfer batches_of c session w)].
Proof.
  intro Hs. unfold post_transfer_to_sap. rewrite Hs.
  destruct (post sap _ _) as [r|e]; [|reflexivity].
  destruct ((status_code r =? 200) || (status_code r =? 201)); [|reflexivity].
  destruct (record_transfer _ _ _ _ _ _ _) as [[resp w']|e]; reflexivity.
Qed.

(** ** Claims on transfer posting *)

(** C2 (amended). Transfer posting sends one document whose lines are, in the
    items' original order, one per item with QC status 'approved', each with
    the item's code and approved quantity; a line's LineNum is the 0-based
    position of its item in the session's full item list. *)
Theorem transfer_lines_follow_items :
  forall json_dumps py_str stores_number batches_of c sap sid w session,
    session_query_get w sid = Some session ->
    exists url document,
      snd (post_transfer_to_sap json_dumps py_str stores_number batches_of c
          sap sid w)
      = [(url, document)]
      /\ map (fun line => (StockTransferLine.LineNum line,
                           StockTransferLine.ItemCode line,
                           StockTransferLine.Quantity line))
             (StockTransfer.StockTransferLines document)
         = map (fun entry => (fst entry,
                              GRPOTransferItem.item_code (snd entry),
                              GRPOTransferItem.approved_quantity (snd entry)))
               (filter approved_entry (enumerate (session_items w sid)))
      /\ map snd (filter approved_entry (enumerate (session_items w sid)))
         = filter (fun item => eq_str (GRPOTransferItem.qc_status item)
                                      "approved")
                  (session_items w sid)
      /\ (forall idx item,
             In (idx, item) (enumerate (session_items w sid)) <->
             nth_error (session_items w sid) idx = Some item).
Proof.
  intros json_dumps py_str stores_number batches_of c sap sid w session Hs.
  do 2 eexists. split; [apply post_transfer_calls; exact Hs|].
  split; [|split].
  - unfold stock_transfer. simpl. rewrite (session_query_get_id _ _ _ Hs).
    rewrite add_line_fold. simpl. rewrite map_map. reflexivity.
  - unfold enumerate. generalize 0%nat.
    induction (session_items w sid) as [|x l IH]; intro start; simpl;
      [reflexivity|].
    unfold approved_entry at 1. simpl.
    destruct (eq_str (GRPOTransferItem.qc_status x) "approved"); simpl;
      now rewrite IH.
  - intros idx item. apply enumerate_nth.
Qed.

(** C2, as stated, fails: the sample session has a pending item before its
    two approved ones, and the lines posted are numbered 1 and 2, not 0
    and 1. *)
Lemma line_numbers_skip_unapproved :
  ~ (forall call,
        In call (snd (post_transfer_to_sap sample_dumps sample_str
            sample_stores_number batch_rows alice
                        (erp_answering 201 (Return created_body)) 1 sample_db)) ->
        map StockTransferLine.LineNum
            (StockTransfer.StockTransferLines (snd call))
        = seq 0 (List.length (StockTransfer.StockTransferLines (snd call)))).
Proof.
  intro H.
  specialize (H _ (or_introl eq_refl)). vm_compute in H. discriminate H.
Qed.

Lemma transfer_lines_follow_items_witness :
  session_query_get sample_db 1 = Some sample_session
  /\ exists url document,
      snd (post_transfer_to_sap sample_dumps sample_str sample_stores_number
          batch_rows alice
             (erp_answering 201 (Return created_body)) 1 sample_db)
      = [(url, document)]
      /\ map (fun line => (StockTransferLine.LineNum line,
                           StockTransferLine.ItemCode line,
                           StockTransferLine.Quantity line))
             (StockTransfer.StockTransferLines document)
         = [(1%nat, PStr "B", 3%Q); (2%nat, PStr "C", (5 # 2)%Q)].
Proof.
  assert (H : session_query_get sample_db 1 = Some sample_session)
    by reflexivity.
  split; [exact H|].
  destruct (transfer_lines_follow_items sample_dumps sample_str
      sample_stores_number batch_rows alice
              (erp_answering 201 (Return created_body)) 1 sample_db
              sample_session H)
    as [url [document [Hcall [Hlines _]]]].
  exists url, document. split; [exact Hcall|exact Hlines].
Defined.

(** C5. The header's FromWarehouse and ToWarehouse of the posted document are
    those of the first item of the session's full item list, whatever the
    other items hold and whichever items are approved. *)
Theorem header_warehouses_from_first_item :
  forall json_dumps py_str stores_number batches_of c sap sid w session
      item others,
    session_query_get w sid = Some session ->
    session_items w sid = item :: others ->
    exists url document,
      snd (post_transfer_to_sap json_dumps py_str stores_number batches_of c
          sap sid w)
      = [(url, document)]
      /\ StockTransfer.FromWarehouse document
         = GRPOTransferItem.from_warehouse item
      /\ StockTransfer.ToWarehouse document
         = GRPOTransferItem.to_warehouse item.
Proof.
  intros json_dumps py_str stores_number batches_of c sap sid w session item
      others Hs Hitems.
  do 2 eexists. split; [apply post_transfer_calls; exact Hs|].
  unfold stock_transfer. simpl.
  rewrite (session_query_get_id _ _ _ Hs), Hitems. split; reflexivity.
Qed.

Lemma header_warehouses_from_first_item_witness :
  session_query_get sample_db 1 = Some sample_session
  /\ session_items sample_db 1
     = sample_item 10 "A" "pending" 0 "WH-IN" "WH-QC"
       :: [sample_item 11 "B" "approved" 3 "WH-RCV" "WH-01";
           sample_item 12 "C" "approved" (5 # 2) "WH-RCV" "WH-02"]
  /\ exists url document,
      snd (post_transfer_to_sap sample_dumps sample_str sample_stores_number
          batch_rows alice
             (erp_answering 201 (Return created_body)) 1 sample_db)
      = [(url, document)]
      /\ StockTransfer.FromWarehouse document = PStr "WH-IN"
      /\ StockTransfer.ToWarehouse document = PStr "WH-QC".
Proof.
  assert (H1 : session_query_get sample_db 1 = Some sample_session)
    by reflexivity.
  assert (H2 : session_items sample_db 1
               = sample_item 10 "A" "pending" 0 "WH-IN" "WH-QC"
                 :: [sample_item 11 "B" "approved" 3 "WH-RCV" "WH-01";
                     sample_item 12 "C" "approved" (5 # 2) "WH-RCV" "WH-02"])
    by reflexivity.
  repeat (split; [assumption|]).
  exact (header_warehouses_from_first_item sample_dumps sample_str
      sample_stores_number batch_rows alice
           (erp_answering 201 (Return created_body)) 1 sample_db
           sample_session _ _ H1 H2).
Defined.

(** C10. Transfer posting does not check that anything is approved: on an
    existing session none of whose items is approved it still posts a
    document to the ERP's stock-transfer endpoint, with an empty line list,
    and with empty-string header warehouses when the session has no item. *)
Theorem nothing_approved_still_posted :
  forall json_dumps py_str stores_number batches_of c sap sid w session,
    session_query_get w sid = Some session ->
    (forall item, In item (session_items w sid) ->
                  GRPOTransferItem.qc_status item <> PStr "approved") ->
    exists document,
      snd (post_transfer_to_sap json_dumps py_str stores_number batches_of c
          sap sid w)
      = [((base_url sap ++ "/b1s/v1/StockTransfers")%string, document)]
      /\ StockTransfer.StockTransferLines document = []
      /\ (session_items w sid = [] ->
          StockTransfer.FromWarehouse document = PStr EmptyString
          /\ StockTransfer.ToWarehouse document = PStr EmptyString).
Proof.
  intros json_dumps py_str stores_number batches_of c sap sid w session
      Hs Hnone.
  eexists. split; [apply post_transfer_calls; exact Hs|].
  unfold stock_transfer. simpl. rewrite (session_query_get_id _ _ _ Hs).
  split.
  - rewrite add_line_fold. simpl. rewrite filter_none; [reflexivity|].
    intros [idx item] Hin. unfold approved_entry. simpl.
    destruct (eq_str (GRPOTransferItem.qc_status item) "approved") eqn:E;
      [|reflexivity].
    apply eq_str_true in E. exfalso. apply (Hnone item); [|exact E].
    apply enumerate_nth in Hin. eapply nth_error_In. exact Hin.
  - intros ->. split; reflexivity.
Qed.

Lemma nothing_approved_still_posted_witness :
  session_query_get empty_db 1 = Some sample_session
  /\ (forall item, In item (session_items empty_db 1) ->
                   GRPOTransferItem.qc_status item <> PStr "approved")
  /\ session_items empty_db 1 = []
  /\ exists document,
      snd (post_transfer_to_sap sample_dumps sample_str sample_stores_number
          batch_rows alice erp_down 1
             empty_db)
      = [("https://sap.example:50000/b1s/v1/StockTransfers", document)]
      /\ StockTransfer.StockTransferLines document = []
      /\ StockTransfer.FromWarehouse document = PStr EmptyString
      /\ StockTransfer.ToWarehouse document = PStr EmptyString.
Proof.
  assert (H1 : session_query_get empty_db 1 = Some sample_session)
    by reflexivity.
  assert (H2 : forall item, In item (session_items empty_db 1) ->
                 GRPOTransferItem.qc_status item <> PStr "approved")
    by (simpl; contradiction).
  assert (H3 : session_items empty_db 1 = []) by reflexivity.
  repeat (split; [assumption|]).
  destruct (nothing_approved_still_posted sample_dumps sample_str
      sample_stores_number batch_rows alice
              erp_down 1 empty_db sample_session H1 H2)
    as [document [Hcall [Hlines Hheader]]].
  exists document. split; [exact Hcall|]. split; [exact Hlines|].
  exact (Hheader H3).
Defined.

(** C3 (amended). When the ERP answers the POST with status 200 or 201 and a
    JSON object whose DocEntry and DocNum (None when absent) can be stored,
    the session's transfer_doc_entry and transfer_doc_num become these two
    values, its status becomes 'transferred' and the request is answered
    with them.  In every other case -- the POST raises, the status is
    anything else (other 2xx codes included), the body is not a JSON object,
    or an identifier cannot be bound at the commit -- the request is
    answered 500 and the store, hence the session's status and transfer
    identifiers, stays as it was. *)
Theorem transfer_recorded_on_200_or_201 :
  forall json_dumps py_str stores_number batches_of c sap sid w session,
    session_query_get w sid = Some session ->
    let url := (base_url sap ++ "/b1s/v1/StockTransfers")%string in
    let document := stock_transfer batches_of c session w in
    let r := fst (post_transfer_to_sap json_dumps py_str stores_number
                    batches_of c sap sid w) in
    let stored (kv : list (string * pyval)) :=
      storable stores_number "GRPOTransferSession.transfer_doc_entry"
        (field kv "DocEntry" PNone) = true
      /\ storable stores_number "GRPOTransferSession.transfer_doc_num"
           (field kv "DocNum" PNone) = true in
    (forall rep kv,
        post sap url document = Return rep ->
        status_code rep = 200 \/ status_code rep = 201 ->
        json rep = Return (PDict kv) ->
        stored kv ->
        fst r = (TransferPosted (field kv "DocEntry" PNone)
                   (field kv "DocNum" PNone)
                   "Stock transfer posted to SAP B1 successfully", 200)
        /\ exists s',
            session_query_get (snd r) sid = Some s'
            /\ GRPOTransferSession.status s' = "transferred"
            /\ GRPOTransferSession.transfer_doc_entry s'
               = field kv "DocEntry" PNone
            /\ GRPOTransferSession.transfer_doc_num s'
               = field kv "DocNum" PNone)
    /\ ((forall rep,
            post sap url document = Return rep ->
            ~ ((status_code rep = 200 \/ status_code rep = 201)
               /\ exists kv, json rep = Return (PDict kv) /\ stored kv)) ->
        snd r = w /\ snd (fst r) = 500).
Proof.
  intros json_dumps py_str stores_number batches_of c sap sid w session Hs.
  cbv zeta. unfold post_transfer_to_sap. rewrite Hs. split.
  - intros rep kv Hpost Hstatus Hjson [He Hn]. rewrite Hpost.
    replace ((status_code rep =? 200) || (status_code rep =? 201)) with true
      by (symmetry; apply orb_true_iff; rewrite !Z.eqb_eq; exact Hstatus).
    unfold record_transfer. rewrite Hjson. cbn [bind].
    rewrite !get_field. cbn [bind]. rewrite He, Hn. cbn [andb bind fst snd].
    split; [reflexivity|]. eexists. split.
    + rewrite session_query_get_add_log.
      apply session_query_get_save with (s := session);
        [exact Hs|exact (session_query_get_id _ _ _ Hs)].
    + repeat split.
  - intro Hfail.
    destruct (post sap _ _) as [rep|e] eqn:Hpost; [|split; reflexivity].
    specialize (Hfail rep eq_refl).
    destruct ((status_code rep =? 200) || (status_code rep =? 201)) eqn:E;
      [|split; reflexivity].
    apply orb_true_iff in E. rewrite !Z.eqb_eq in E.
    unfold record_transfer.
    destruct (json rep) as [data|e] eqn:Hjson; [|split; reflexivity].
    destruct data as [| | | | | |kv]; try (split; reflexivity).
    cbn [bind]. rewrite !get_field. cbn [bind].
    destruct (storable stores_number "GRPOTransferSession.transfer_doc_entry"
                (field kv "DocEntry" PNone)) eqn:He;
      [|split; reflexivity].
    destruct (storable stores_number "GRPOTransferSession.transfer_doc_num"
                (field kv "DocNum" PNone)) eqn:Hn;
      [|split; reflexivity].
    exfalso. apply Hfail. split; [exact E|]. exists kv. now repeat split.
Qed.

(** C3, as stated, fails: an ERP reply with status 204, a 2xx, and the usual
    body is handled as a failure; the session is not marked 'transferred'
    and receives no transfer identifiers. *)
Lemma accepted_204_not_recorded :
  let sap := erp_answering 204 (Return created_body) in
  let r := post_transfer_to_sap sample_dumps sample_str sample_stores_number
             batch_rows alice sap 1 sample_db in
  (exists rep,
      post sap (base_url sap ++ "/b1s/v1/StockTransfers")%string
           (stock_transfer batch_rows alice sample_session sample_db)
      = Return rep
      /\ 200 <= status_code rep < 300)
  /\ ~ (exists s',
           session_query_get (snd (fst r)) 1 = Some s'
           /\ GRPOTransferSession.status s' = "transferred"
           /\ GRPOTransferSession.transfer_doc_entry s' = PInt 501
           /\ GRPOTransferSession.transfer_doc_num s' = PInt 9001).
Proof.
  split.
  - eexists. split; [reflexivity|]. simpl. lia.
  - intros [s' [Hs [Hst _]]]. vm_compute in Hs. injection Hs as <-.
    discriminate Hst.
Qed.

(** A reply with status 201 whose DocEntry is an object: the commit cannot
    bind it, the request is answered 500 and the session stays a draft. *)
Example unstorable_identifier_not_recorded :
  post_transfer_to_sap sample_dumps sample_str sample_stores_number batch_rows
    alice (erp_answering 201 (Return unstorable_body)) 1 sample_db
  = ((Failure (StrOf DatabaseError), 500), sample_db,
     [("https://sap.example:50000/b1s/v1/StockTransfers",
       stock_transfer batch_rows alice sample_session sample_db)]).
Proof. reflexivity. Qed.

Lemma transfer_recorded_on_200_or_201_witness :
  let created := erp_answering 201 (Return created_body) in
  let no_content := erp_answering 204 (Return created_body) in
  let document := stock_transfer batch_rows alice sample_session sample_db in
  let stored (kv : list (string * pyval)) :=
    storable sample_stores_number "GRPOTransferSession.transfer_doc_entry"
      (field kv "DocEntry" PNone) = true
    /\ storable sample_stores_number "GRPOTransferSession.transfer_doc_num"
         (field kv "DocNum" PNone) = true in
  session_query_get sample_db 1 = Some sample_session
  /\ (exists rep,
         post created (base_url created ++ "/b1s/v1/StockTransfers")%string
              document = Return rep
         /\ (status_code rep = 200 \/ status_code rep = 201)
         /\ json rep = Return created_body)
  /\ stored [("DocEntry", PInt 501); ("DocNum", PInt 9001)]
  /\ (forall rep,
         post no_content
              (base_url no_content ++ "/b1s/v1/StockTransfers")%string
              document = Return rep ->
         ~ ((status_code rep = 200 \/ status_code rep = 201)
            /\ exists kv, json rep = Return (PDict kv) /\ stored kv))
  /\ fst (fst (post_transfer_to_sap sample_dumps sample_str
                 sample_stores_number batch_rows alice created 1 sample_db))
     = (TransferPosted (PInt 501) (PInt 9001)
          "Stock transfer posted to SAP B1 successfully", 200)
  /\ (exists s',
         session_query_get
           (snd (fst (post_transfer_to_sap sample_dumps sample_str
                        sample_stores_number batch_rows alice created 1
                        sample_db))) 1 = Some s'
         /\ GRPOTransferSession.status s' = "transferred"
         /\ GRPOTransferSession.transfer_doc_entry s' = PInt 501
         /\ GRPOTransferSession.transfer_doc_num s' = PInt 9001)
  /\ snd (fst (post_transfer_to_sap sample_dumps sample_str
                 sample_stores_number batch_rows alice no_content 1
                 sample_db)) = sample_db
  /\ snd (fst (fst (post_transfer_to_sap sample_dumps sample_str
                      sample_stores_number batch_rows alice no_content 1
                      sample_db))) = 500.
Proof.
  intros created no_content document stored.
  assert (H0 : session_query_get sample_db 1 = Some sample_session)
    by reflexivity.
  assert (H1 : exists rep,
             post created (base_url created ++ "/b1s/v1/StockTransfers")%string
                  document = Return rep
             /\ (status_code rep = 200 \/ status_code rep = 201)
             /\ json rep = Return created_body).
  { eexists. split; [reflexivity|]. split; [right|]; reflexivity. }
  assert (H2 : stored [("DocEntry", PInt 501); ("DocNum", PInt 9001)])
    by (split; reflexivity).
  assert (H3 : forall rep,
             post no_content
                  (base_url no_content ++ "/b1s/v1/StockTransfers")%string
                  document = Return rep ->
             ~ ((status_code rep = 200 \/ status_code rep = 201)
                /\ exists kv, json rep = Return (PDict kv) /\ stored kv)).
  { intros rep Hrep. injection Hrep as <-. simpl.
    intros [[H|H] _]; discriminate H. }
  repeat (split; [assumption|]).
  destruct H1 as [rep [Hpost [Hstatus Hjson]]].
  destruct (proj1 (transfer_recorded_on_200_or_201 sample_dumps sample_str
                     sample_stores_number batch_rows alice created 1 sample_db
                     sample_session H0)
                  rep _ Hpost Hstatus Hjson H2) as [Hresp Hsess].
  split; [exact Hresp|]. split; [exact Hsess|].
  exact (proj2 (transfer_recorded_on_200_or_201 sample_dumps sample_str
                  sample_stores_number batch_rows alice no_content 1 sample_db
                  sample_session H0) H3).
Defined.

(** ** Further facts on label minting *)

Lemma range1_bounds (n k : Z) : In k (range1 n) -> 1 <= k <= n.
Proof.
  unfold range1. intro H. apply in_map_iff in H. destruct H as [i [<- Hi]].
  apply in_seq in Hi. lia.
Qed.

Lemma mint_label_payloads json_dumps batches_of c session w item n ks st :
  map json_dumps (minted st) = map GRPOTransferQRLabel.qr_data (added st) ->
  map json_dumps (minted (fold_left (mint_label json_dumps batches_of c session
      w item n) ks st))
  = map GRPOTransferQRLabel.qr_data
        (added (fold_left (mint_label json_dumps batches_of c session w item n)
            ks st)).
Proof.
  revert st. induction ks as [|k ks IH]; intros st H; simpl; [exact H|].
  apply IH. simpl. rewrite !map_app, H. reflexivity.
Qed.

Lemma mint_item_payloads json_dumps batches_of c session w its st :
  map json_dumps (minted st) = map GRPOTransferQRLabel.qr_data (added st) ->
  map json_dumps (minted (fold_left (mint_item json_dumps batches_of c session
      w) its st))
  = map GRPOTransferQRLabel.qr_data
        (added (fold_left (mint_item json_dumps batches_of c session w) its
            st)).
Proof.
  revert st. induction its as [|it its IH]; intros st H; simpl; [exact H|].
  apply IH. unfold mint_item.
  destruct (py_int (GRPOTransferItem.approved_quantity it) <=? 0);
    [exact H|now apply mint_label_payloads].
Qed.

Lemma mint_label_numbered json_dumps batches_of c session w its item ks st :
  In item its ->
  incl ks (range1 (py_int (GRPOTransferItem.approved_quantity item))) ->
  Forall (numbered_from json_dumps batches_of c session w its) (added st) ->
  Forall (numbered_from json_dumps batches_of c session w its)
    (added (fold_left
              (mint_label json_dumps batches_of c session w item
                 (py_int (GRPOTransferItem.approved_quantity item))) ks st)).
Proof.
  intro Hin. revert st. induction ks as [|k ks IH]; intros st Hks H; simpl.
  - exact H.
  - apply IH; [intros x Hx; apply Hks; now right|].
    simpl. apply Forall_app. split; [exact H|].
    constructor; [|constructor].
    exists item, k, (label_count st). repeat split; [exact Hin|].
    apply Hks. now left.
Qed.

Lemma mint_item_numbered json_dumps batches_of c session w its all st :
  incl its all ->
  Forall (numbered_from json_dumps batches_of c session w all) (added st) ->
  Forall (numbered_from json_dumps batches_of c session w all)
    (added (fold_left (mint_item json_dumps batches_of c session w) its st)).
Proof.
  revert st. induction its as [|it its IH]; intros st Hincl H; simpl.
  - exact H.
  - apply IH; [intros x Hx; apply Hincl; now right|].
    unfold mint_item.
    destruct (py_int (GRPOTransferItem.approved_quantity it) <=? 0);
      [exact H|].
    apply mint_label_numbered;
      [apply Hincl; now left|apply incl_refl|exact H].
Qed.

(** What a successful minting leaves: the rows it committed, with what the
    response says of them. *)
Lemma generate_qr_labels_success json_dumps batches_of c sid w n ls w' :
  generate_qr_labels json_dumps batches_of c sid w = ((LabelsGenerated
      n ls, 200), w') ->
  exists session new,
    session_query_get w sid = Some session
    /\ w' = add_labels new w
    /\ n = Z.of_nat (List.length new)
    /\ 0 < n
    /\ map json_dumps ls = map GRPOTransferQRLabel.qr_data new
    /\ Forall (numbered_from json_dumps batches_of c session w
                 (filter eligible (session_items w sid))) new.
Proof.
  intro H.
  destruct (session_query_get w sid) as [session|] eqn:Hs.
  - rewrite (generate_qr_labels_cases json_dumps batches_of c sid w
      session Hs) in H.
    pose proof (mint_item_stamps json_dumps batches_of c session w
                  (filter eligible (session_items w sid))
                  {| added := []; minted := []; label_count := 0 |}) as Hst.
    pose proof (mint_item_count json_dumps batches_of c session w
                  (filter eligible (session_items w sid))
                  {| added := []; minted := []; label_count := 0 |}) as Hc.
    pose proof (mint_item_payloads json_dumps batches_of c session w
                  (filter eligible (session_items w sid))
                  {| added := []; minted := []; label_count := 0 |}
                  eq_refl) as Hp.
    pose proof (mint_item_numbered json_dumps batches_of c session w
                  (filter eligible (session_items w sid))
                  (filter eligible (session_items w sid))
                  {| added := []; minted := []; label_count := 0 |}
                  (incl_refl _) (Forall_nil _)) as Hn.
    simpl in Hst, Hc.
    destruct (filter eligible (session_items w sid)) as [|it its];
      [discriminate H|].
    match type of H with context [label_count ?s =? 0] => set (st := s) in * end.
    destruct (label_count st =? 0) eqn:E0; [discriminate H|].
    injection H as <- <- <-. apply Z.eqb_neq in E0.
    assert (Hlen : List.length (added st)
                   = List.length (flat_map item_stamps (it :: its))).
    { rewrite <- Hst. now rewrite length_map. }
    exists session, (added st). split; [reflexivity|].
    split; [reflexivity|]. split; [lia|]. split; [lia|].
    split; [exact Hp|exact Hn].
  - unfold generate_qr_labels in H. rewrite Hs in H. discriminate H.
Qed.

(** X1. When label minting reports success, [labels_generated] is the number
    of rows it committed and of payloads it returns; it is positive, and the
    payloads returned are, in order, those whose dumps the rows store. *)
Theorem labels_generated_counts_rows :
  forall json_dumps batches_of c sid w n ls w',
    generate_qr_labels json_dumps batches_of c sid w =
        ((LabelsGenerated n ls, 200), w') ->
    exists new,
      labels w' = (labels w ++ new)%list
      /\ n = Z.of_nat (List.length new)
      /\ List.length ls = List.length new
      /\ 0 < n
      /\ map json_dumps ls = map GRPOTransferQRLabel.qr_data new.
Proof.
  intros json_dumps batches_of c sid w n ls w' H.
  destruct (generate_qr_labels_success _ _ _ _ _ _ _ _ H)
    as [session [new [_ [-> [Hn [Hpos [Hp _]]]]]]].
  exists new. split; [reflexivity|]. split; [exact Hn|].
  split; [|split; assumption].
  rewrite <- (length_map json_dumps ls), Hp. apply length_map.
Qed.

(** X2. Every row label minting adds belongs to the session and to one of
    its approved items with a positive quantity: it carries that item's id
    and warehouses, quantity 1, the item's truncated quantity as total, and a
    number between 1 and that total. *)
Theorem minted_labels_well_formed :
  forall json_dumps batches_of c sid w,
  exists new,
    labels (snd (generate_qr_labels json_dumps batches_of c sid w)) = (labels w
        ++ new)%list
    /\ Forall
         (fun l =>
            GRPOTransferQRLabel.session_id l = sid
            /\ GRPOTransferQRLabel.quantity l = 1
            /\ 1 <= GRPOTransferQRLabel.label_number l
               <= GRPOTransferQRLabel.total_labels l
            /\ exists item,
                In item (session_items w sid)
                /\ GRPOTransferItem.qc_status item = PStr "approved"
                /\ (0 < GRPOTransferItem.approved_quantity item)%Q
                /\ GRPOTransferQRLabel.item_id l = GRPOTransferItem.id item
                /\ GRPOTransferQRLabel.total_labels l
                   = Qfloor (GRPOTransferItem.approved_quantity item)
                /\ GRPOTransferQRLabel.from_warehouse l
                   = GRPOTransferItem.from_warehouse item
                /\ GRPOTransferQRLabel.to_warehouse l
                   = GRPOTransferItem.to_warehouse item)
         new.
Proof.
  intros json_dumps batches_of c sid w.
  destruct (session_query_get w sid) as [session|] eqn:Hs.
  - rewrite (generate_qr_labels_cases json_dumps batches_of c sid w session Hs).
    pose proof (mint_item_numbered json_dumps batches_of c session w
                  (filter eligible (session_items w sid))
                  (filter eligible (session_items w sid))
                  {| added := []; minted := []; label_count := 0 |}
                  (incl_refl _) (Forall_nil _)) as Hn.
    assert (Hwf : forall new,
               Forall (numbered_from json_dumps batches_of c session w
                         (filter eligible (session_items w sid))) new ->
               Forall
                 (fun l =>
                    GRPOTransferQRLabel.session_id l = sid
                    /\ GRPOTransferQRLabel.quantity l = 1
                    /\ 1 <= GRPOTransferQRLabel.label_number l
                       <= GRPOTransferQRLabel.total_labels l
                    /\ exists item,
                        In item (session_items w sid)
                        /\ GRPOTransferItem.qc_status item = PStr "approved"
                        /\ (0 < GRPOTransferItem.approved_quantity item)%Q
                        /\ GRPOTransferQRLabel.item_id l = GRPOTransferItem.id item
                        /\ GRPOTransferQRLabel.total_labels l
                           = Qfloor (GRPOTransferItem.approved_quantity item)
                        /\ GRPOTransferQRLabel.from_warehouse l
                           = GRPOTransferItem.from_warehouse item
                        /\ GRPOTransferQRLabel.to_warehouse l
                           = GRPOTransferItem.to_warehouse item) new).
    { intros new Hnew. eapply Forall_impl; [|exact Hnew].
      intros l [item [k [count [Hin [Hk ->]]]]].
      apply filter_In in Hin. destruct Hin as [Hin Hel].
      apply eligible_iff in Hel. destruct Hel as [Hst Hq].
      apply range1_bounds in Hk. simpl.
      split; [exact (session_query_get_id _ _ _ Hs)|].
      split; [reflexivity|]. split; [exact Hk|].
      exists item. repeat split; try assumption.
      apply py_int_floor. now apply Qlt_le_weak. }
    destruct (filter eligible (session_items w sid)) as [|it its].
    + exists []. simpl. rewrite app_nil_r. split; [reflexivity|constructor].
    + match goal with |- context [label_count ?s =? 0] => set (st := s) in * end.
      destruct (label_count st =? 0).
      * exists []. simpl. rewrite app_nil_r. split; [reflexivity|constructor].
      * exists (added st). split; [reflexivity|]. apply Hwf. exact Hn.
  - exists []. unfold generate_qr_labels. rewrite Hs. simpl.
    rewrite app_nil_r. split; [reflexivity|constructor].
Qed.

(** Label minting leaves every table but the labels as it was. *)
Lemma generate_qr_labels_frame json_dumps batches_of c sid w :
  let w' := snd (generate_qr_labels json_dumps batches_of c sid w) in
  sessions w' = sessions w /\ items w' = items w /\ batches w' = batches w
  /\ splits w' = splits w /\ logs w' = logs w.
Proof.
  unfold generate_qr_labels.
  destruct (session_query_get w sid) as [session|]; [|simpl; tauto].
  destruct (filter eligible _); [simpl; tauto|].
  match goal with |- context [if ?b then _ else _] => destruct b end;
    simpl; tauto.
Qed.

Lemma generate_qr_labels_grows json_dumps batches_of c sid w :
  exists new,
    labels (snd (generate_qr_labels json_dumps batches_of c sid w)) = (labels w
        ++ new)%list.
Proof.
  destruct (session_query_get w sid) as [session|] eqn:Hs.
  - destruct (generate_qr_labels_stamps json_dumps batches_of c sid w
      session Hs)
      as [new [Hnew _]].
    now exists new.
  - exists []. unfold generate_qr_labels. rewrite Hs. simpl.
    now rewrite app_nil_r.
Qed.

(** X3. Label minting has no memory: run again on the store it left, it adds
    the rows of the first run once more -- same items, numbers, totals and
    quantities, in the same order -- whoever asks and whatever the clock
    says. *)
Theorem minting_twice_duplicates_labels :
  forall json_dumps batches_of c1 c2 sid w,
    let w1 := snd (generate_qr_labels json_dumps batches_of c1 sid w) in
    let w2 := snd (generate_qr_labels json_dumps batches_of c2 sid w1) in
    exists first second,
      labels w1 = (labels w ++ first)%list
      /\ labels w2 = (labels w ++ first ++ second)%list
      /\ map stamp second = map stamp first.
Proof.
  intros json_dumps batches_of c1 c2 sid w. cbv zeta.
  destruct (generate_qr_labels_frame json_dumps batches_of c1 sid w)
    as [Hsess [Hitems _]].
  destruct (session_query_get w sid) as [session|] eqn:Hs.
  - destruct (generate_qr_labels_stamps json_dumps batches_of c1 sid w
      session Hs)
      as [first [H1 [Hst1 _]]].
    set (w1 := snd (generate_qr_labels json_dumps batches_of c1 sid w)) in *.
    assert (Hs1 : session_query_get w1 sid = Some session).
    { unfold session_query_get. rewrite Hsess. exact Hs. }
    destruct (generate_qr_labels_stamps json_dumps batches_of c2 sid w1
        session Hs1)
      as [second [H2 [Hst2 _]]].
    exists first, second. split; [exact H1|]. split.
    + rewrite H2, H1. now rewrite app_assoc.
    + rewrite Hst2, Hst1. unfold session_items. now rewrite Hitems.
  - exists [], []. unfold generate_qr_labels. rewrite Hs. simpl.
    rewrite Hs. simpl. now rewrite app_nil_r.
Qed.

(** X4. Label minting writes labels only: the sessions (status included),
    the items, the batch rows, the splits and the activity log are left as
    they were, whatever it answers. *)
Theorem minting_touches_labels_only :
  forall json_dumps batches_of c sid w,
    let w' := snd (generate_qr_labels json_dumps batches_of c sid w) in
    sessions w' = sessions w
    /\ items w' = items w
    /\ batches w' = batches w
    /\ splits w' = splits w
    /\ logs w' = logs w
    /\ exists new, labels w' = (labels w ++ new)%list.
Proof.
  intros json_dumps batches_of c sid w. cbv zeta.
  destruct (generate_qr_labels_frame json_dumps batches_of c sid w)
    as [H1 [H2 [H3 [H4 H5]]]].
  repeat (split; [assumption|]).
  apply generate_qr_labels_grows.
Qed.

(** ** Further facts on transfer posting *)

Lemma save_session_ids s w :
  map GRPOTransferSession.id (sessions (save_session s w))
  = map GRPOTransferSession.id (sessions w).
Proof.
  simpl. rewrite map_map. apply map_ext. intro s0.
  destruct (GRPOTransferSession.id s0 =? GRPOTransferSession.id s) eqn:E;
    [|reflexivity].
  apply Z.eqb_eq in E. now rewrite E.
Qed.

Lemma save_session_keeps_others s w other :
  In other (sessions w) ->
  GRPOTransferSession.id other <> GRPOTransferSession.id s ->
  In other (sessions (save_session s w)).
Proof.
  intros Hin Hne. simpl. apply in_map_iff. exists other. split; [|exact Hin].
  apply Z.eqb_neq in Hne. now rewrite Hne.
Qed.

(** What [record_transfer] returns when it returns. *)
Lemma record_transfer_returns json_dumps py_str stores_number c session sid r
      w resp w' :
  record_transfer json_dumps py_str stores_number c session sid r w = Return
      (resp, w') ->
  exists data doc_entry doc_num,
    json r = Return data
    /\ get data "DocEntry" PNone = Return doc_entry
    /\ get data "DocNum" PNone = Return doc_num
    /\ resp = (TransferPosted doc_entry doc_num
                 "Stock transfer posted to SAP B1 successfully", 200)
    /\ w' = add_log
              (GRPOTransferLog.mk sid (user_id (current_user c)) "transferred"
                 ("Posted to SAP B1 - DocEntry: " ++ py_str doc_entry)
                 (Some (json_dumps data)))
              (save_session
                 (GRPOTransferSession.mk
                    (GRPOTransferSession.id session)
                    (GRPOTransferSession.session_code session)
                    (GRPOTransferSession.doc_date session)
                    "transferred"
                    (GRPOTransferSession.qc_approved_by session)
                    doc_entry doc_num) w).
Proof.
  unfold record_transfer. intro H.
  apply bind_Return in H. destruct H as [data [Hd H]].
  apply bind_Return in H. destruct H as [doc_entry [He H]].
  apply bind_Return in H. destruct H as [doc_num [Hn H]].
  apply bind_Return in H. destruct H as [committed [_ H]].
  injection H as <- <-. do 3 eexists. repeat split; eassumption.
Qed.

(** The two ways [post_transfer_to_sap] ends on an existing session: the
    transfer is recorded, or the store is returned as it was with a 500. *)
Lemma post_transfer_outcomes json_dumps py_str stores_number batches_of c sap
    sid w session :
  session_query_get w sid = Some session ->
  let r := fst (post_transfer_to_sap json_dumps py_str stores_number batches_of
      c sap sid w) in
  (exists rep resp,
      post sap (base_url sap ++ "/b1s/v1/StockTransfers")%string
           (stock_transfer batches_of c session w) = Return rep
      /\ record_transfer json_dumps py_str stores_number c session sid rep w
         = Return (resp, snd r)
      /\ fst r = resp)
  \/ (snd r = w /\ exists e, fst r = (Failure e, 500)).
Proof.
  intro Hs. unfold post_transfer_to_sap. rewrite Hs.
  destruct (post sap _ _) as [rep|e] eqn:Hpost.
  - destruct ((status_code rep =? 200) || (status_code rep =? 201)).
    + destruct (record_transfer _ _ _ _ _ _ _) as [[resp w']|e] eqn:Hrec.
      * left. exists rep, resp. simpl. repeat split. exact Hrec.
      * right. simpl. split; [reflexivity|]. eexists. reflexivity.
    + right. simpl. split; [reflexivity|]. eexists. reflexivity.
  - right. simpl. split; [reflexivity|]. eexists. reflexivity.
Qed.

(** X5. Transfer posting writes to the session it was asked for and to the
    activity log, and to nothing else: items, batch rows, splits and labels
    stay as they were, no session is added or removed and the other sessions
    are untouched.  When it answers 200 the log has grown by exactly one
    'transferred' entry for this session and user; otherwise the whole store
    is as it was. *)
Theorem posting_touches_session_and_log_only :
  forall json_dumps py_str stores_number batches_of c sap sid w,
    let r := fst (post_transfer_to_sap json_dumps py_str stores_number
        batches_of c sap sid w) in
    let w' := snd r in
    items w' = items w
    /\ batches w' = batches w
    /\ splits w' = splits w
    /\ labels w' = labels w
    /\ map GRPOTransferSession.id (sessions w')
       = map GRPOTransferSession.id (sessions w)
    /\ (forall other, In other (sessions w) ->
                      GRPOTransferSession.id other <> sid ->
                      In other (sessions w'))
    /\ ((snd (fst r) = 200
         /\ exists entry,
             logs w' = (logs w ++ [entry])%list
             /\ GRPOTransferLog.session_id entry = sid
             /\ GRPOTransferLog.user_id entry = user_id (current_user c)
             /\ GRPOTransferLog.action entry = "transferred")
        \/ (snd (fst r) <> 200 /\ w' = w)).
Proof.
  intros json_dumps py_str stores_number batches_of c sap sid w. cbv zeta.
  destruct (session_query_get w sid) as [session|] eqn:Hs.
  - destruct (post_transfer_outcomes json_dumps py_str stores_number batches_of
      c sap sid w session Hs)
      as [[rep [resp [_ [Hrec Hresp]]]]|[Hw [e He]]].
    + apply record_transfer_returns in Hrec.
      destruct Hrec as [data [doc_entry [doc_num [_ [_ [_ [Hr Hw]]]]]]].
      rewrite Hw, Hresp, Hr. simpl fst. simpl snd.
      repeat (split; [reflexivity|]).
      split; [apply save_session_ids|]. split.
      * intros other Hin Hne. apply save_session_keeps_others; [exact Hin|].
        simpl. now rewrite (session_query_get_id _ _ _ Hs).
      * left. split; [reflexivity|]. eexists. repeat split.
    + rewrite Hw, He. simpl. repeat (split; [reflexivity|]).
      split; [tauto|]. right. split; [discriminate|reflexivity].
  - unfold post_transfer_to_sap. rewrite Hs. simpl.
    repeat (split; [reflexivity|]). split; [tauto|].
    right. split; [discriminate|reflexivity].
Qed.

(** X6. Transfer posting has no guard against posting again: whatever the
    first call ended with -- also when it recorded the transfer and set the
    status to 'transferred' -- a second call for the same session by the same
    user sends the ERP the very same document. *)
Theorem reposting_sends_same_document :
  forall json_dumps py_str stores_number batches_of c sap1 sap2 sid w session,
    session_query_get w sid = Some session ->
    let r1 := post_transfer_to_sap json_dumps py_str stores_number batches_of c
        sap1 sid w in
    let r2 := post_transfer_to_sap json_dumps py_str stores_number batches_of c
        sap2 sid (snd (fst r1)) in
    map snd (snd r1) = [stock_transfer batches_of c session w]
    /\ map snd (snd r2) = [stock_transfer batches_of c session w].
Proof.
  intros json_dumps py_str stores_number batches_of c sap1 sap2 sid w session
      Hs. cbv zeta.
  split; [now rewrite (post_transfer_calls _ _ _ _ _ _ _ _ _ Hs)|].
  destruct (post_transfer_outcomes json_dumps py_str stores_number batches_of c
      sap1 sid w session Hs)
    as [[rep [resp [_ [Hrec _]]]]|[Hw _]].
  - apply record_transfer_returns in Hrec.
    destruct Hrec as [data [doc_entry [doc_num [_ [_ [_ [_ Hw]]]]]]].
    rewrite Hw.
    match goal with
    | |- context [save_session ?s' w] =>
        assert (Hs' : session_query_get
                        (add_log
                           (GRPOTransferLog.mk sid (user_id (current_user c))
                              "transferred"
                              ("Posted to SAP B1 - DocEntry: "
                               ++ py_str doc_entry)
                              (Some (json_dumps data)))
                           (save_session s' w)) sid = Some s')
    end.
    { rewrite session_query_get_add_log.
      apply session_query_get_save with (s := session); [exact Hs|].
      exact (session_query_get_id _ _ _ Hs). }
    rewrite (post_transfer_calls _ _ _ _ _ _ _ _ _ Hs'). reflexivity.
  - rewrite Hw. now rewrite (post_transfer_calls _ _ _ _ _ _ _ _ _ Hs).
Qed.

(** X7. Every line of the posted document is the line of one approved item
    of the session: it carries that item's own warehouses and base
    references and the GRPO base type; its batch numbers are either none or
    one per batch row of a batch-managed item, in order; and it has at most
    two bin allocations, each with the placeholder bin entry 1 and the
    line's whole quantity. *)
Theorem posted_lines_content :
  forall json_dumps py_str stores_number batches_of c sap sid w session,
    session_query_get w sid = Some session ->
    exists url document,
      snd (post_transfer_to_sap json_dumps py_str stores_number batches_of c
          sap sid w)
      = [(url, document)]
      /\ Forall
           (fun line =>
              StockTransferLine.BaseType line = "1250000001"
              /\ (exists item,
                     nth_error (session_items w sid)
                               (StockTransferLine.LineNum line) = Some item
                     /\ GRPOTransferItem.qc_status item = PStr "approved"
                     /\ StockTransferLine.WarehouseCode line
                        = GRPOTransferItem.to_warehouse item
                     /\ StockTransferLine.FromWarehouseCode line
                        = GRPOTransferItem.from_warehouse item
                     /\ StockTransferLine.BaseEntry line
                        = GRPOTransferItem.sap_base_entry item
                     /\ StockTransferLine.BaseLine line
                        = GRPOTransferItem.sap_base_line item
                     /\ (StockTransferLine.BatchNumbers line = []
                         \/ (truthy (GRPOTransferItem.is_batch_item item) = true
                             /\ StockTransferLine.BatchNumbers line
                                = map (fun b =>
                                         BatchNumbers.mk
                                           (GRPOTransferBatch.batch_number b)
                                           (GRPOTransferBatch.approved_quantity b))
                                      (item_batches batches_of w item))))
              /\ (List.length
                    (StockTransferLine.StockTransferLinesBinAllocations line)
                  <= 2)%nat
              /\ Forall
                   (fun a =>
                      BinAllocation.BinAbsEntry a = 1
                      /\ BinAllocation.Quantity a
                         = StockTransferLine.Quantity line
                      /\ BinAllocation.SerialAndBatchNumbersBaseLine a = 0)
                   (StockTransferLine.StockTransferLinesBinAllocations line))
           (StockTransfer.StockTransferLines document).
Proof.
  intros json_dumps py_str stores_number batches_of c sap sid w session Hs.
  do 2 eexists. split; [apply post_transfer_calls; exact Hs|].
  unfold stock_transfer. simpl. rewrite (session_query_get_id _ _ _ Hs).
  rewrite add_line_fold. simpl. apply Forall_forall.
  intros line Hline. apply in_map_iff in Hline.
  destruct Hline as [[idx item] [<- Hin]]. apply filter_In in Hin.
  destruct Hin as [Hin Happ]. unfold approved_entry in Happ. simpl in Happ.
  apply eq_str_true in Happ. apply enumerate_nth in Hin. simpl.
  split; [reflexivity|]. split.
  - exists item. repeat (split; [first [assumption|reflexivity]|]).
    unfold batch_numbers.
    destruct (truthy (GRPOTransferItem.is_batch_item item)); simpl;
      [|now left].
    destruct (item_batches batches_of w item); [now left|right; split;
        reflexivity].
  - unfold bin_allocations.
    destruct (truthy (GRPOTransferItem.from_bin_code item));
      destruct (truthy (GRPOTransferItem.to_bin_code item)); simpl;
      (split; [lia|repeat constructor]).
Qed.

(** ** Further facts on QC approval *)

Lemma origin_id (a b : GRPOTransferItem.t) :
  origin a = origin b -> GRPOTransferItem.id a = GRPOTransferItem.id b.
Proof. unfold origin. intro H. now injection H. Qed.

Lemma origins_ids (l1 l2 : list GRPOTransferItem.t) :
  map origin l1 = map origin l2 ->
  map GRPOTransferItem.id l1 = map GRPOTransferItem.id l2.
Proof.
  revert l2. induction l1 as [|a l1 IH]; intros [|b l2] H; simpl in *;
    try discriminate; [reflexivity|].
  assert (Hab : origin a = origin b) by congruence.
  assert (Hrest : map origin l1 = map origin l2) by congruence.
  f_equal; [now apply origin_id|now apply IH].
Qed.

(** With distinct ids, a row is identified by its id. *)
Lemma same_id_same_row (its : list GRPOTransferItem.t)
      (a b : GRPOTransferItem.t) :
  NoDup (map GRPOTransferItem.id its) ->
  In a its -> In b its ->
  GRPOTransferItem.id a = GRPOTransferItem.id b -> a = b.
Proof.
  induction its as [|x its IH]; simpl; intros Hnd Ha Hb Hid; [contradiction|].
  apply NoDup_cons_iff in Hnd. destruct Hnd as [Hfresh Hnd].
  destruct Ha as [->|Ha]; destruct Hb as [->|Hb].
  - reflexivity.
  - exfalso. apply Hfresh. rewrite Hid. now apply in_map.
  - exfalso. apply Hfresh. rewrite <- Hid. now apply in_map.
  - now apply IH.
Qed.

(** Saving a row with the origin of the row it replaces keeps all origins. *)
Lemma save_item_origins w item item' :
  NoDup (map GRPOTransferItem.id (items w)) ->
  In item (items w) ->
  origin item' = origin item ->
  map origin (items (save_item item' w)) = map origin (items w).
Proof.
  intros Hnd Hin Ho. simpl. rewrite map_map. apply map_ext_in.
  intros i Hi.
  destruct (GRPOTransferItem.id i =? GRPOTransferItem.id item') eqn:E;
    [|reflexivity].
  apply Z.eqb_eq in E. rewrite (origin_id _ _ Ho) in E.
  rewrite (same_id_same_row _ _ _ Hnd Hi Hin E). exact Ho.
Qed.

Lemma approval_frame_refl w : approval_frame w w.
Proof.
  repeat (split; [reflexivity|]). exists []. now rewrite app_nil_r.
Qed.

Lemma approval_frame_trans w1 w2 w3 :
  approval_frame w1 w2 -> approval_frame w2 w3 -> approval_frame w1 w3.
Proof.
  intros [A1 [A2 [A3 [A4 [A5 [n1 A6]]]]]] [B1 [B2 [B3 [B4 [B5 [n2 B6]]]]]].
  repeat (split; [congruence|]).
  exists (n1 ++ n2)%list. rewrite B6, A6. now rewrite app_assoc.
Qed.

Lemma add_split_data_aframe float_of_str stores_number item u split_data u' :
  add_split_data float_of_str stores_number item u split_data = Return u' ->
  items (store u') = items (store u) /\ approval_frame (store u) (store u').
Proof.
  unfold add_split_data. intro H. split_binds H. injection H as <-.
  split; [reflexivity|]. repeat (split; [reflexivity|]).
  eexists. reflexivity.
Qed.

Lemma add_splits_aframe float_of_str stores_number item split_list u u' :
  for_each (add_split_data float_of_str stores_number item) split_list u
  = Return u' ->
  items (store u') = items (store u) /\ approval_frame (store u) (store u').
Proof.
  apply (for_each_invariant _
           (fun a b => items (store b) = items (store a)
                       /\ approval_frame (store a) (store b))).
  - intro s. split; [reflexivity|apply approval_frame_refl].
  - intros s1 s2 s3 [A1 A2] [B1 B2]. split; [congruence|].
    eapply approval_frame_trans; eassumption.
  - intros s x s'. apply add_split_data_aframe.
Qed.

(** With distinct ids, one turn of the batch loop keeps the frame. *)
Lemma approve_item_aframe float_of_str read_key stores_number u
    item_approval u' :
  NoDup (map GRPOTransferItem.id (items (store u))) ->
  approve_item float_of_str read_key stores_number u item_approval
  = Return u' ->
  approval_frame (store u) (store u').
Proof.
  intros Hnd H. unfold approve_item in H.
  apply bind_Return in H. destruct H as [key [_ H]].
  apply bind_Return in H. destruct H as [found [Hq H]].
  apply item_query_get_Return in Hq. destruct Hq as [Hst [_ Hin]].
  destruct (fst found) as [item|].
  - specialize (Hin item eq_refl).
    split_binds H. apply add_splits_aframe in H. destruct H as [Hitems Hfr].
    eapply approval_frame_trans; [|exact Hfr]. simpl store. rewrite Hst.
    repeat (split; [reflexivity|]). split.
    + apply (save_item_origins (store u) item);
        [exact Hnd|exact Hin|reflexivity].
    + exists []. simpl. now rewrite app_nil_r.
  - injection H as <-. rewrite Hst. apply approval_frame_refl.
Qed.

Lemma approve_loop_aframe float_of_str read_key stores_number batch u u' :
  NoDup (map GRPOTransferItem.id (items (store u))) ->
  for_each (approve_item float_of_str read_key stores_number) batch u
  = Return u' ->
  approval_frame (store u) (store u').
Proof.
  intros Hnd H. revert Hnd.
  apply (for_each_invariant
           (approve_item float_of_str read_key stores_number)
           (fun a b => NoDup (map GRPOTransferItem.id (items (store a))) ->
                       approval_frame (store a) (store b)))
    with (xs := batch); try exact H.
  - intros s _. apply approval_frame_refl.
  - intros s1 s2 s3 H12 H23 Hnd. pose proof (H12 Hnd) as F12.
    eapply approval_frame_trans; [exact F12|]. apply H23.
    destruct F12 as [_ [_ [_ [_ [Ho _]]]]].
    rewrite (origins_ids _ _ Ho). exact Hnd.
  - intros s x s' Hx Hnd. now apply approve_item_aframe in Hx.
Qed.

Lemma approve_batch_aframe float_of_str read_key stores_number data w u :
  NoDup (map GRPOTransferItem.id (items w)) ->
  approve_batch float_of_str read_key stores_number data w = Return u ->
  approval_frame w (store u).
Proof.
  unfold approve_batch. intros Hnd H. split_binds H.
  exact (approve_loop_aframe _ _ _ _ (mkwork w true []) _ Hnd H).
Qed.

(** X8. QC approval never creates, deletes, renames or re-homes an item, and
    never touches batch rows or labels: with item ids distinct, after any
    request every item keeps its id, session, code, name, batch flag, source
    warehouse and bin and base references; the splits already recorded are
    still there, new ones only follow them; no session is added or removed
    and the other sessions are untouched.  On success the log has grown by
    exactly the 'qc_approved' entry of this session and user; otherwise the
    whole store is as it was. *)
Theorem approval_keeps_item_origins :
  forall float_of_str read_key stores_number c data sid w,
    NoDup (map GRPOTransferItem.id (items w)) ->
    let r := qc_approve_items float_of_str read_key stores_number c
        data sid w in
    let w' := snd r in
    map origin (items w') = map origin (items w)
    /\ batches w' = batches w
    /\ labels w' = labels w
    /\ (exists new, splits w' = (splits w ++ new)%list)
    /\ map GRPOTransferSession.id (sessions w')
       = map GRPOTransferSession.id (sessions w)
    /\ (forall other, In other (sessions w) ->
                      GRPOTransferSession.id other <> sid ->
                      In other (sessions w'))
    /\ ((fst r = (Succeeded "Items approved successfully", 200)
         /\ logs w'
            = (logs w
               ++ [GRPOTransferLog.mk sid (user_id (current_user c))
                     "qc_approved" "QC team approved items" None])%list)
        \/ (snd (fst r) <> 200 /\ w' = w)).
Proof.
  intros float_of_str read_key stores_number c data sid w Hnd. cbv zeta.
  assert (Hsame : forall resp,
             snd resp <> 200 ->
             map origin (items w) = map origin (items w)
             /\ batches w = batches w
             /\ labels w = labels w
             /\ (exists new, splits w = (splits w ++ new)%list)
             /\ map GRPOTransferSession.id (sessions w)
                = map GRPOTransferSession.id (sessions w)
             /\ (forall other, In other (sessions w) ->
                               GRPOTransferSession.id other <> sid ->
                               In other (sessions w))
             /\ ((resp = (Succeeded "Items approved successfully", 200)
                  /\ logs w
                     = (logs w
                        ++ [GRPOTransferLog.mk sid (user_id (current_user c))
                              "qc_approved" "QC team approved items"
                              None])%list)
                 \/ (snd resp <> 200 /\ w = w))).
  { intros resp Hresp. repeat (split; [reflexivity|]).
    split; [exists []; now rewrite app_nil_r|].
    split; [reflexivity|]. split; [tauto|].
    right. split; [exact Hresp|reflexivity]. }
  unfold qc_approve_items.
  destruct (session_query_get w sid) as [session|] eqn:Hs;
    [|apply Hsame; discriminate].
  destruct (approve_batch float_of_str read_key stores_number data w)
    as [u|e] eqn:Hb; cbn [bind]; [|apply Hsame; discriminate].
  unfold flush. destruct (pending_bindable u); [|apply Hsame; discriminate].
  destruct (approve_batch_aframe _ _ _ _ _ _ Hnd Hb)
    as [F1 [F2 [F3 [F4 [F5 F6]]]]].
  simpl. repeat (split; [assumption|]).
  split; [rewrite map_map, <- F1; apply map_ext; intro s0;
          destruct (GRPOTransferSession.id s0
                    =? GRPOTransferSession.id session) eqn:E;
          [apply Z.eqb_eq in E; now rewrite E|reflexivity]|].
  split.
  - intros other Hin Hne. apply in_map_iff. exists other.
    rewrite F1. split; [|exact Hin].
    rewrite (session_query_get_id _ _ _ Hs).
    apply Z.eqb_neq in Hne. now rewrite Hne.
  - left. split; [reflexivity|]. now rewrite F4.
Qed.

(** X9. A QC entry that carries nothing but an item id is not a no-op: the
    item it names -- in whichever session it lives -- is reset to approved
    quantity 0, rejected quantity 0, status 'pending', and loses its notes,
    destination warehouse and destination bin; its other columns stay. *)
Theorem bare_entry_resets_item :
  forall float_of_str read_key stores_number c sid w session other kv k item,
    session_query_get w sid = Some session ->
    item_by_id w k = Some item ->
    names_only kv k ->
    let r := qc_approve_items float_of_str read_key stores_number c
               (PDict (("items", PList [PDict kv]) :: other)) sid w in
    fst r = (Succeeded "Items approved successfully", 200)
    /\ item_by_id (snd r) k
       = Some (GRPOTransferItem.mk
                 (GRPOTransferItem.id item) (GRPOTransferItem.session_id item)
                 (GRPOTransferItem.item_code item)
                 (GRPOTransferItem.item_name item)
                 (GRPOTransferItem.is_batch_item item)
                 0 0 (PStr "pending") PNone
                 (GRPOTransferItem.from_warehouse item)
                 (GRPOTransferItem.from_bin_code item)
                 PNone PNone
                 (GRPOTransferItem.sap_base_entry item)
                 (GRPOTransferItem.sap_base_line item)).
Proof.
  intros float_of_str read_key stores_number c sid w session other kv k item
         Hs Hq [Hk Hnone].
  cbv zeta.
  repeat match goal with
         | H : Forall _ (_ :: _) |- _ =>
             let Hh := fresh "Hn" in
             apply Forall_cons_iff in H; destruct H as [Hh H]
         end.
  assert (Hreads : review_reads float_of_str stores_number kv 0 0).
  { unfold review_reads, field.
    rewrite Hn, Hn0, Hn1, Hn2, Hn3, Hn4. repeat split. exact Hn5. }
  pose proof (qc_approve_after_strays float_of_str read_key stores_number c
                sid w session other [] kv k item 0 0 Hs (Forall_nil _) Hk Hq
                Hreads) as Hrun.
  change (([] ++ [PDict kv])%list) with [PDict kv] in Hrun.
  rewrite Hrun. split; [reflexivity|]. simpl snd.
  change (item_by_id (save_item (reviewed item kv 0 0) w) k
          = Some (GRPOTransferItem.mk
                    (GRPOTransferItem.id item)
                    (GRPOTransferItem.session_id item)
                    (GRPOTransferItem.item_code item)
                    (GRPOTransferItem.item_name item)
                    (GRPOTransferItem.is_batch_item item)
                    0 0 (PStr "pending") PNone
                    (GRPOTransferItem.from_warehouse item)
                    (GRPOTransferItem.from_bin_code item)
                    PNone PNone
                    (GRPOTransferItem.sap_base_entry item)
                    (GRPOTransferItem.sap_base_line item))).
  rewrite (item_by_id_save w k item _ Hq).
  - unfold reviewed, field. now rewrite Hn1, Hn2, Hn3, Hn4.
  - exact (proj2 (item_by_id_found _ _ _ Hq)).
Qed.


(** ** From approval to labels and to the posted document *)

Lemma save_item_ids item item' w :
  GRPOTransferItem.id item' = GRPOTransferItem.id item ->
  map GRPOTransferItem.id (items (save_item item' w))
  = map GRPOTransferItem.id (items w).
Proof. intros _. exact (proj2 (save_item_frame item' w)). Qed.

(** The items of a session after one of its rows was saved. *)
Lemma session_items_save item' w sid :
  (forall i, In i (items w) ->
             GRPOTransferItem.id i = GRPOTransferItem.id item' ->
             GRPOTransferItem.session_id i = GRPOTransferItem.session_id item') ->
  session_items (save_item item' w) sid
  = map (fun i => if GRPOTransferItem.id i =? GRPOTransferItem.id item'
                  then item' else i) (session_items w sid).
Proof.
  unfold session_items. simpl. intro Hsame.
  induction (items w) as [|x l IH]; simpl in *; [reflexivity|].
  rewrite IH by (intros i Hi; apply Hsame; now right).
  destruct (GRPOTransferItem.id x =? GRPOTransferItem.id item') eqn:E.
  - apply Z.eqb_eq in E. rewrite <- (Hsame x (or_introl eq_refl) E).
    destruct (GRPOTransferItem.session_id x =? sid); simpl;
      [apply Z.eqb_eq in E; now rewrite E|reflexivity].
  - destruct (GRPOTransferItem.session_id x =? sid); simpl;
      [now rewrite E|reflexivity].
Qed.

(** One turn of the batch loop, at the start of a request, on an entry that
    names an item by its integer id: when it returns, [float] has read the
    two quantities and the item row holds them and the entry's other review
    fields; sessions, batch rows and labels are as they were. *)
Lemma approve_item_resolved float_of_str read_key stores_number w kv k item u :
  lookup "item_id" kv = Some (PInt k) ->
  item_by_id w k = Some item ->
  approve_item float_of_str read_key stores_number (mkwork w true []) (PDict kv)
  = Return u ->
  exists a r,
    py_float float_of_str (field kv "approved_quantity" (PInt 0)) = Return a
    /\ py_float float_of_str (field kv "rejected_quantity" (PInt 0)) = Return r
    /\ items (store u) = items (save_item (reviewed item kv a r) w)
    /\ sessions (store u) = sessions w
    /\ batches (store u) = batches w
    /\ labels (store u) = labels w.
Proof.
  intros Hk Hq H. unfold approve_item, subscript in H. rewrite Hk in H.
  cbn [bind] in H.
  unfold item_query_get, reading, binds_key, select_item in H.
  cbn [existsb identity_map flush pending_bindable bind store] in H.
  rewrite Hq in H.
  cbn [bind fst snd store pending_bindable identity_map] in H.
  rewrite !get_field in H. cbn [bind] in H.
  destruct (py_float float_of_str (field kv "approved_quantity" (PInt 0)))
    as [a|] eqn:Ha; cbn [bind] in H; [|discriminate H].
  destruct (py_float float_of_str (field kv "rejected_quantity" (PInt 0)))
    as [r|] eqn:Hr; cbn [bind] in H; [|discriminate H].
  apply bind_Return in H. destruct H as [split_list [_ H]].
  apply add_splits_aframe in H. destruct H as [Hitems [F1 [F2 [F3 _]]]].
  exists a, r. repeat (split; [reflexivity|]).
  split; [exact Hitems|]. split; [exact F1|]. split; [exact F2|exact F3].
Qed.

(** What a one-entry request that names an item by its integer id and is
    answered with success has done. *)
Lemma qc_approve_entry_applied float_of_str read_key stores_number c sid w
      session other kv k item :
  session_query_get w sid = Some session ->
  lookup "item_id" kv = Some (PInt k) ->
  item_by_id w k = Some item ->
  let r := qc_approve_items float_of_str read_key stores_number c
             (PDict (("items", PList [PDict kv]) :: other)) sid w in
  fst r = (Succeeded "Items approved successfully", 200) ->
  exists a q w1,
    py_float float_of_str (field kv "approved_quantity" (PInt 0)) = Return a
    /\ py_float float_of_str (field kv "rejected_quantity" (PInt 0)) = Return q
    /\ items w1 = items (save_item (reviewed item kv a q) w)
    /\ sessions w1 = sessions w
    /\ batches w1 = batches w
    /\ labels w1 = labels w
    /\ snd r = add_log (approval_log c sid)
                 (save_session (marked_session c session) w1).
Proof.
  intros Hs Hk Hq. cbv zeta. intro Hok.
  destruct (qc_approve_items_outcomes float_of_str read_key stores_number c
              (PDict (("items", PList [PDict kv]) :: other)) sid w session Hs)
    as [[u [Hb [_ Hr]]]|[e [Hr _]]];
    [|rewrite Hr in Hok; discriminate Hok].
  unfold approve_batch in Hb. simpl get in Hb. cbn [bind iter for_each] in Hb.
  apply bind_Return in Hb. destruct Hb as [u1 [Hb Hu]]. injection Hu as ->.
  destruct (approve_item_resolved _ _ _ _ _ _ _ _ Hk Hq Hb)
    as [a [q [Ha [Hq' [Hitems [Hsess [Hbat Hlab]]]]]]].
  exists a, q, (store u). rewrite Hr. repeat (split; [assumption|]).
  reflexivity.
Qed.

(** X11. What QC approves is what gets labelled: with item ids distinct,
    after a one-entry approval that is answered with success, names an item
    of the session by its integer id, gives it the status 'approved' and an
    approved quantity that [float] reads as q > 0, label minting on the
    resulting store adds for that item exactly floor(q) rows, numbered
    1..floor(q) with total floor(q) and quantity 1.  The entry may carry a
    rejected quantity, notes, destinations and splits. *)
Theorem approval_then_minting :
  forall float_of_str json_dumps read_key stores_number batches_of c1 c2 sid w
         session other kv k q item,
    session_query_get w sid = Some session ->
    NoDup (map GRPOTransferItem.id (items w)) ->
    item_by_id w k = Some item ->
    GRPOTransferItem.session_id item = sid ->
    lookup "item_id" kv = Some (PInt k) ->
    lookup "qc_status" kv = Some (PStr "approved") ->
    py_float float_of_str (field kv "approved_quantity" (PInt 0)) = Return q ->
    (0 < q)%Q ->
    let r1 := qc_approve_items float_of_str read_key stores_number c1
                (PDict (("items", PList [PDict kv]) :: other)) sid w in
    fst r1 = (Succeeded "Items approved successfully", 200) ->
    let w2 := snd (generate_qr_labels json_dumps batches_of c2 sid (snd r1)) in
    exists new,
      labels w2 = (labels w ++ new)%list
      /\ let mine := filter (fun l => GRPOTransferQRLabel.item_id l =? k) new in
         map GRPOTransferQRLabel.label_number mine = range1 (Qfloor q)
         /\ Forall (fun l => GRPOTransferQRLabel.quantity l = 1
                             /\ GRPOTransferQRLabel.total_labels l = Qfloor q)
                   mine.
Proof.
  intros float_of_str json_dumps read_key stores_number batches_of c1 c2 sid w
         session other kv k q item Hs Hnd Hq Hsid Hk Hst Ha Hpos. cbv zeta.
  intro Hok.
  destruct (item_by_id_found _ _ _ Hq) as [Hin Hid].
  destruct (qc_approve_entry_applied float_of_str read_key stores_number c1 sid
              w session other kv k item Hs Hk Hq Hok)
    as [a [q' [w0 [Ha' [_ [Hitems [Hsess [_ [Hlab ->]]]]]]]]].
  rewrite Ha in Ha'. injection Ha' as <-.
  set (item' := reviewed item kv q q') in *.
  set (w1 := add_log (approval_log c1 sid)
               (save_session (marked_session c1 session) w0)).
  assert (Hs1 : session_query_get w1 sid = Some (marked_session c1 session)).
  { unfold w1. rewrite session_query_get_add_log.
    apply session_query_get_save with (s := session).
    - unfold session_query_get. rewrite Hsess. exact Hs.
    - exact (session_query_get_id _ _ _ Hs). }
  assert (Hsi : session_items w1 sid = session_items (save_item item' w) sid).
  { unfold session_items, w1. simpl items. now rewrite Hitems. }
  assert (Hitems1 : session_items w1 sid
                    = map (fun i => if GRPOTransferItem.id i
                                       =? GRPOTransferItem.id item'
                                    then item' else i) (session_items w sid)).
  { rewrite Hsi. apply session_items_save. intros i Hi Hii.
    now rewrite (same_id_same_row _ _ _ Hnd Hi Hin Hii). }
  assert (Hin1 : In item' (session_items w1 sid)).
  { rewrite Hitems1. apply in_map_iff. exists item. split.
    - change (GRPOTransferItem.id item') with (GRPOTransferItem.id item).
      now rewrite Z.eqb_refl.
    - apply filter_In. split; [exact Hin|]. apply Z.eqb_eq. exact Hsid. }
  assert (Hel : eligible item' = true).
  { apply eligible_iff. unfold item', reviewed, field. simpl.
    rewrite Hst. split; [reflexivity|exact Hpos]. }
  assert (Hnd1 : NoDup (map GRPOTransferItem.id
                          (filter eligible (session_items w1 sid)))).
  { apply filter_keeps_ids_distinct. rewrite Hsi. unfold session_items.
    apply filter_keeps_ids_distinct.
    rewrite (save_item_ids item item' w eq_refl). exact Hnd. }
  destruct (generate_qr_labels_stamps json_dumps batches_of c2 sid w1
              (marked_session c1 session) Hs1)
    as [new [Hnew [Hstamps _]]].
  exists new. split.
  { rewrite Hnew. unfold w1. simpl labels. now rewrite Hlab. }
  cbv zeta.
  assert (Hel1 : In item' (filter eligible (session_items w1 sid))).
  { apply filter_In. split; assumption. }
  pose proof (stamps_of_item _ _ Hnd1 Hel1) as Hmine.
  rewrite <- Hstamps in Hmine. rewrite filter_map_swap in Hmine.
  unfold stamp at 1 in Hmine. simpl in Hmine.
  unfold item_stamps in Hmine.
  change (GRPOTransferItem.approved_quantity item') with q in Hmine.
  rewrite (py_int_floor _ (Qlt_le_weak _ _ Hpos)) in Hmine.
  change (GRPOTransferItem.id item') with (GRPOTransferItem.id item) in Hmine.
  rewrite Hid in Hmine.
  destruct (stamps_read _ _ _ _ Hmine) as [_ [Hnum Hall]].
  split; assumption.
Qed.


(** ** Facts on the lookup handlers *)

(** X13. No ERP lookup goes past a failed login: when [ensure_logged_in]
    answers false, each of the seven lookups answers 500 'SAP B1
    authentication failed', whatever the ERP would have said; when it raises,
    each answers 500 with that exception. *)
Theorem lookups_stop_at_login :
  forall sap series_id doc_entry item_code warehouse_code,
    (ensure_logged_in sap = Return false ->
     Forall (eq not_logged_in)
            (erp_lookups sap series_id doc_entry item_code warehouse_code))
    /\ (forall e,
           ensure_logged_in sap = Raise e ->
           Forall (eq (Refused (StrOf e), 500))
                  (erp_lookups sap series_id doc_entry item_code
                               warehouse_code)).
Proof.
  intros sap series_id doc_entry item_code warehouse_code. split.
  - intro H. unfold erp_lookups, get_series_list, get_doc_numbers,
      get_grpo_details, validate_item, get_batch_numbers, get_warehouses,
      get_bin_codes.
    rewrite H. repeat constructor.
  - intros e H. unfold erp_lookups, get_series_list, get_doc_numbers,
      get_grpo_details, validate_item, get_batch_numbers, get_warehouses,
      get_bin_codes.
    rewrite H. repeat constructor.
Qed.

(** X14. Whenever [validate_item] answers success, its three management
    flags are consistent with the ERP's columns: is_batch_item holds exactly
    when batch_num is 'Y', is_serial_item exactly when serial_num is 'Y', and
    is_non_managed exactly when neither holds -- so at least one flag is
    always set, while batch and serial are not kept apart.  The item code is
    the one asked for and the status is 200. *)
Theorem validate_item_flags :
  forall sap item_code fields status,
    validate_item sap item_code = (Granted fields, status) ->
    exists batch_num serial_num,
      status = 200
      /\ lookup "item_code" fields = Some (PStr item_code)
      /\ lookup "batch_num" fields = Some batch_num
      /\ lookup "serial_num" fields = Some serial_num
      /\ lookup "is_batch_item" fields = Some (PBool (eq_str batch_num "Y"))
      /\ lookup "is_serial_item" fields = Some (PBool (eq_str serial_num "Y"))
      /\ lookup "is_non_managed" fields
         = Some (PBool (negb (eq_str batch_num "Y")
                        && negb (eq_str serial_num "Y"))).
Proof.
  intros sap item_code fields status H.
  unfold validate_item, guarded, not_logged_in, api_error in H.
  split_result H; try discriminate H.
  injection H as <- <-. do 2 eexists. repeat split.
Qed.

(** X15. An ERP status other than 200 is an error for the warehouse list and
    a success for the bin list: [get_warehouses] answers 500 with the status
    in the message, [get_bin_codes] answers 200 with no bins and 'No bin
    codes found for warehouse'. *)
Theorem bins_hide_erp_errors :
  forall sap warehouse_code r,
    ensure_logged_in sap = Return true ->
    status_code r <> 200 ->
    (session_get sap
       (service_url sap
        ++ "/b1s/v1/Warehouses?$select=WarehouseName,WarehouseCode")%string
     = Return r ->
     get_warehouses sap
     = (Refused (Text ("SAP B1 API error: " ++ fmt_int (status_code r))), 500))
    /\ (session_get sap
          (service_url sap
           ++ "/b1s/v1/BinLocations?$select=AbsEntry,BinCode,Warehouse&$filter=Warehouse eq '"
           ++ warehouse_code ++ "'")%string
        = Return r ->
        get_bin_codes sap warehouse_code
        = (Granted [("bins", PList []);
                    ("message", PStr "No bin codes found for warehouse")],
           200)).
Proof.
  intros sap warehouse_code r Hlog Hst. apply Z.eqb_neq in Hst.
  split; intro Hget.
  - unfold get_warehouses. rewrite Hlog. cbn [bind negb].
    rewrite Hget. cbn [bind]. now rewrite Hst.
  - unfold get_bin_codes. rewrite Hlog. cbn [bind negb].
    rewrite Hget. cbn [bind]. now rewrite Hst.
Qed.

Lemma value_of_rows r kv rows :
  json r = Return (PDict kv) ->
  lookup "value" kv = Some (PList rows) ->
  value_of r = Return (PList rows).
Proof.
  intros Hj Hv. unfold value_of. rewrite Hj. simpl. now rewrite Hv.
Qed.

(** A projecting loop over rows that are all dicts. *)
Lemma projection_loop (keys : list string)
      (body : list pyval -> pyval -> result (list pyval)) :
  (forall acc kv,
      body acc (PDict kv)
      = Return (acc ++ [PDict (map (fun k => (k, field kv k PNone)) keys)])%list) ->
  forall rows acc,
    Forall is_dict rows ->
    exists out,
      for_each body rows acc = Return (acc ++ out)%list
      /\ Forall2 (projected keys) rows out.
Proof.
  intros Hbody. induction rows as [|row rows IH]; intros acc Hall.
  - exists []. simpl. rewrite app_nil_r. split; [reflexivity|constructor].
  - apply Forall_cons_iff in Hall. destruct Hall as [[kv ->] Hall].
    destruct (IH (acc ++ [PDict (map (fun k => (k, field kv k PNone)) keys)])%list
                 Hall) as [out [Hout Hproj]].
    eexists (_ :: out). simpl. rewrite Hbody. simpl. rewrite Hout.
    split; [now rewrite <- app_assoc|].
    constructor; [|exact Hproj]. exists kv. split; reflexivity.
Qed.

(** A loop of [get]s over rows one of which is not a dict. *)
Lemma projection_loop_refuses
      (body : list pyval -> pyval -> result (list pyval)) :
  (forall acc kv, exists acc', body acc (PDict kv) = Return acc') ->
  (forall acc row, ~ is_dict row -> body acc row = Raise AttributeError) ->
  forall rows acc,
    ~ Forall is_dict rows ->
    for_each body rows acc = Raise AttributeError.
Proof.
  intros Hok Hbad. induction rows as [|row rows IH]; intros acc Hnot.
  - exfalso. apply Hnot. constructor.
  - simpl. destruct row as [| | | | |l|kv];
      try (rewrite Hbad; [reflexivity|intros [kv Hkv]; discriminate Hkv]).
    destruct (Hok acc kv) as [acc' Hacc]. rewrite Hacc. simpl.
    apply IH. intro Hall. apply Hnot. constructor; [now exists kv|exact Hall].
Qed.

(** X16. The document list is the ERP's row list, cut down: when the ERP
    answers 200 with rows that are all objects, [get_doc_numbers] returns one
    entry per row, in order, holding exactly DocEntry, DocNum, CardName and
    DocStatus (None for a column the row lacks) -- and [get_series_list], on
    a non-empty such list, one entry per row holding exactly SeriesID,
    SeriesName and NextNumber.  One row that is not an object refuses the
    whole list with a 500. *)
Theorem lookup_rows_projected :
  forall sap series_id r kv rows,
    ensure_logged_in sap = Return true ->
    status_code r = 200 ->
    json r = Return (PDict kv) ->
    lookup "value" kv = Some (PList rows) ->
    (session_post sap
       (service_url sap
        ++ "/b1s/v1/SQLQueries('GET_GRPO_DocEntry_By_Series')/List")%string
       (PDict [("ParamList", PStr ("seriesID='" ++ fmt_int series_id ++ "'"))])
     = Return r ->
     (Forall is_dict rows ->
      exists out,
        get_doc_numbers sap series_id = (Granted [("documents", PList out)], 200)
        /\ Forall2 (projected ["DocEntry"; "DocNum"; "CardName"; "DocStatus"])
                   rows out)
     /\ (~ Forall is_dict rows ->
         get_doc_numbers sap series_id = (Refused (StrOf AttributeError), 500)))
    /\ (session_get sap
          (service_url sap
           ++ "/b1s/v1/SQLQueries('GET_GRPO_Series')/List")%string
        = Return r ->
        rows <> [] ->
        (Forall is_dict rows ->
         exists out,
           get_series_list sap = (Granted [("series", PList out)], 200)
           /\ Forall2 (projected ["SeriesID"; "SeriesName"; "NextNumber"])
                      rows out)
        /\ (~ Forall is_dict rows ->
            get_series_list sap = (Refused (StrOf AttributeError), 500))).
Proof.
  intros sap series_id r kv rows Hlog Hst Hj Hv.
  apply Z.eqb_eq in Hst.
  pose proof (value_of_rows r kv rows Hj Hv) as Hval.
  assert (Hbad : forall (v : pyval) k d,
             ~ is_dict v -> get v k d = Raise AttributeError).
  { intros v k d Hv'. destruct v; try reflexivity.
    exfalso. apply Hv'. now eexists. }
  split.
  - intro Hpost. unfold get_doc_numbers. rewrite Hlog. cbn [bind negb].
    rewrite Hpost. cbn [bind]. rewrite Hst, Hval. cbn [bind iter].
    split; intro Hrows.
    + destruct (projection_loop ["DocEntry"; "DocNum"; "CardName"; "DocStatus"]
                  document_entry) with (rows := rows) (acc := @nil pyval)
        as [out [Hout Hproj]]; [|exact Hrows|].
      * intros acc kv0. unfold document_entry. now rewrite !get_field.
      * rewrite Hout. simpl. now exists out.
    + rewrite (projection_loop_refuses document_entry); [reflexivity| | |exact Hrows].
      * intros acc kv0. unfold document_entry. rewrite !get_field.
        simpl. now eexists.
      * intros acc row Hrow. unfold document_entry.
        now rewrite (Hbad row _ _ Hrow).
  - intros Hget Hne. unfold get_series_list. rewrite Hlog. cbn [bind negb].
    rewrite Hget. cbn [bind]. rewrite Hst, Hval. cbn [bind].
    assert (Ht : truthy (PList rows) = true)
      by (destruct rows; [contradiction|reflexivity]).
    rewrite Ht. cbn [bind iter].
    split; intro Hrows.
    + destruct (projection_loop ["SeriesID"; "SeriesName"; "NextNumber"]
                  series_entry) with (rows := rows) (acc := @nil pyval)
        as [out [Hout Hproj]]; [|exact Hrows|].
      * intros acc kv0. unfold series_entry. now rewrite !get_field.
      * rewrite Hout. simpl. now exists out.
    + rewrite (projection_loop_refuses series_entry); [reflexivity| | |exact Hrows].
      * intros acc kv0. unfold series_entry. rewrite !get_field.
        simpl. now eexists.
      * intros acc row Hrow. unfold series_entry.
        now rewrite (Hbad row _ _ Hrow).
Qed.

(** One turn of the loop of [get_grpo_details] on a row that is a dict. *)
Lemma read_row_dict st kv :
  read_row st (PDict kv)
  = Return {| doc_details :=
                match lookup "PurchaseDeliveryNotes" kv with
                | Some h => if truthy (doc_details st) then doc_details st else h
                | None => doc_details st
                end;
              line_items := (line_items st ++ lines_of (PDict kv))%list |}.
Proof.
  unfold read_row, contains, subscript, lines_of.
  destruct (lookup "PurchaseDeliveryNotes" kv) as [h|];
    destruct (lookup "PurchaseDeliveryNotes/DocumentLines" kv) as [v|];
    cbn [bind andb negb]; try destruct (truthy (doc_details st));
    cbn [bind negb]; try rewrite app_nil_r; reflexivity.
Qed.

Lemma read_rows st rows :
  Forall is_dict rows ->
  exists st',
    for_each read_row rows st = Return st'
    /\ line_items st' = (line_items st ++ flat_map lines_of rows)%list
    /\ (truthy (doc_details st) = true -> doc_details st' = doc_details st)
    /\ (truthy (doc_details st) = false -> Forall no_header_yet rows ->
        truthy (doc_details st') = false)
    /\ (Forall (fun row => header_of row = None) rows ->
        doc_details st' = doc_details st).
Proof.
  revert st. induction rows as [|row rows IH]; intros st Hall.
  - exists st. simpl. rewrite app_nil_r. repeat split; auto.
  - apply Forall_cons_iff in Hall. destruct Hall as [[kv ->] Hall].
    simpl for_each. rewrite read_row_dict. cbn [bind].
    match goal with |- context [for_each read_row rows ?s] =>
      destruct (IH s Hall) as [st' [Hrun [Hlines [Hkeep [Hfalse Hnone]]]]]
    end.
    exists st'. split; [exact Hrun|]. simpl in *.
    split; [rewrite Hlines; now rewrite <- app_assoc|].
    split; [|split].
    + intro Ht. rewrite Hkeep.
      * destruct (lookup "PurchaseDeliveryNotes" kv); [now rewrite Ht|reflexivity].
      * destruct (lookup "PurchaseDeliveryNotes" kv); now rewrite ?Ht.
    + intros Hf Hno. apply Forall_cons_iff in Hno. destruct Hno as [Hrow Hno].
      apply Hfalse; [|exact Hno]. unfold no_header_yet in Hrow. simpl in Hrow.
      destruct (lookup "PurchaseDeliveryNotes" kv); [now rewrite Hf|exact Hf].
    + intro Hno. apply Forall_cons_iff in Hno. destruct Hno as [Hrow Hno].
      simpl in Hrow. rewrite (Hnone Hno). now rewrite Hrow.
Qed.

(** X17. On a 200 answer with at least one row, all rows objects,
    [get_grpo_details] returns as line items the DocumentLines of every row
    that has one, in row order, and as document the header of the first row
    whose header is neither missing, null nor empty, whatever later rows
    say; when no row has a header the document is None. *)
Theorem grpo_details_extraction :
  forall sap doc_entry r kv rows,
    ensure_logged_in sap = Return true ->
    session_get sap (grpo_details_url sap doc_entry) = Return r ->
    status_code r = 200 ->
    json r = Return (PDict kv) ->
    lookup "value" kv = Some (PList rows) ->
    rows <> [] ->
    Forall is_dict rows ->
    exists document,
      get_grpo_details sap doc_entry
      = (Granted [("document", document);
                  ("line_items", PList (flat_map lines_of rows))], 200)
      /\ (forall pre row post h,
             rows = (pre ++ row :: post)%list ->
             Forall no_header_yet pre ->
             header_of row = Some h ->
             truthy h = true ->
             document = h)
      /\ (Forall (fun row => header_of row = None) rows -> document = PNone).
Proof.
  intros sap doc_entry r kv rows Hlog Hget Hst Hj Hv Hne Hrows.
  apply Z.eqb_eq in Hst.
  unfold get_grpo_details. rewrite Hlog. cbn [bind negb].
  rewrite Hget. cbn [bind]. rewrite Hst, (value_of_rows r kv rows Hj Hv).
  cbn [bind].
  assert (Ht : truthy (PList rows) = true)
    by (destruct rows; [contradiction|reflexivity]).
  rewrite Ht. cbn [negb bind iter].
  destruct (read_rows {| doc_details := PNone; line_items := [] |} rows Hrows)
    as [st [Hrun [Hlines [_ [_ Hnone]]]]].
  rewrite Hrun. cbn [bind guarded]. simpl in Hlines. rewrite Hlines.
  exists (doc_details st). split; [reflexivity|]. split; [|exact Hnone].
  intros pre row post h -> Hpre Hrow Hh.
  rewrite for_each_app in Hrun.
  apply Forall_app in Hrows. destruct Hrows as [Hpre_d Hrest_d].
  destruct (read_rows {| doc_details := PNone; line_items := [] |} pre Hpre_d)
    as [st1 [Hrun1 [_ [_ [Hfalse1 _]]]]].
  rewrite Hrun1 in Hrun. cbn [bind] in Hrun.
  specialize (Hfalse1 eq_refl Hpre).
  apply Forall_cons_iff in Hrest_d. destruct Hrest_d as [[rk ->] Hpost_d].
  simpl for_each in Hrun. rewrite read_row_dict in Hrun. cbn [bind] in Hrun.
  simpl in Hrow. rewrite Hrow, Hfalse1 in Hrun.
  match type of Hrun with for_each read_row post ?s = _ =>
    destruct (read_rows s post Hpost_d) as [st2 [Hrun2 [_ [Hkeep2 _]]]]
  end.
  rewrite Hrun2 in Hrun. injection Hrun as <-.
  apply Hkeep2. exact Hh.
Qed.

(** ** Facts on session creation *)

Lemma all_in_dict kv fields :
  all_in (PDict kv) fields
  = Return (forallb (fun f => match lookup f kv with
                              | Some _ => true
                              | None => false
                              end) fields).
Proof.
  induction fields as [|f fields IH]; simpl; [reflexivity|].
  destruct (lookup f kv); simpl; [exact IH|reflexivity].
Qed.

(** X18. A creation request that lacks one of grpo_doc_entry, grpo_doc_num,
    series_id, vendor_code and vendor_name is answered 400 'Missing required
    fields' and nothing is written, whatever else it carries. *)
Theorem creation_needs_required_fields :
  forall float_of_str py_str stores_number strptime_ymd next_session_id
      initial_status
         c stamp now kv w missing,
    In missing required_fields ->
    lookup missing kv = None ->
    create_session float_of_str py_str stores_number strptime_ymd
        next_session_id
      initial_status c stamp now (PDict kv) w
    = ((Refused (Text "Missing required fields"), 400), w).
Proof.
  intros float_of_str py_str stores_number strptime_ymd next_session_id
      initial_status
         c stamp now kv w missing Hin Hnone.
  unfold create_session, create_session_body. rewrite all_in_dict.
  replace (forallb _ required_fields) with false; [reflexivity|].
  symmetry. apply not_true_is_false. intro Hall.
  rewrite forallb_forall in Hall. specialize (Hall missing Hin).
  rewrite Hnone in Hall. discriminate Hall.
Qed.

(** X19. The default of doc_date never works: its fallback is the current
    time in ISO format, which the date format '%Y-%m-%d' rejects.  So a
    creation request with all required fields and no doc_date is answered
    500 and nothing is written. *)
Theorem creation_needs_doc_date :
  forall float_of_str py_str stores_number strptime_ymd next_session_id
      initial_status
         c stamp now kv w,
    Forall (fun f => lookup f kv <> None) required_fields ->
    lookup "doc_date" kv = None ->
    strptime_ymd now = None ->
    create_session float_of_str py_str stores_number strptime_ymd
        next_session_id
      initial_status c stamp now (PDict kv) w
    = ((Refused (StrOf ValueError), 500), w).
Proof.
  intros float_of_str py_str stores_number strptime_ymd next_session_id
      initial_status
         c stamp now kv w Hall Hdate Hnow.
  unfold create_session, create_session_body. rewrite all_in_dict.
  replace (forallb _ required_fields) with true.
  - cbn [bind negb]. unfold required_fields in Hall.
    repeat match goal with
           | H : Forall _ (_ :: _) |- _ =>
               let Hh := fresh "Hf" in
               apply Forall_cons_iff in H; destruct H as [Hh H]
           end.
    unfold subscript.
    destruct (lookup "grpo_doc_entry" kv); [|contradiction].
    destruct (lookup "grpo_doc_num" kv); [|contradiction].
    destruct (lookup "series_id" kv); [|contradiction].
    destruct (lookup "vendor_code" kv); [|contradiction].
    destruct (lookup "vendor_name" kv); [|contradiction].
    cbn [bind]. rewrite get_field. unfold field. rewrite Hdate.
    cbn [bind]. unfold strptime. rewrite Hnow. reflexivity.
  - symmetry. apply forallb_forall. intros f Hf.
    rewrite Forall_forall in Hall. specialize (Hall f Hf).
    destruct (lookup f kv); [reflexivity|contradiction].
Qed.

(** What a successful creation leaves. *)
Lemma create_session_success float_of_str py_str stores_number strptime_ymd
      next_session_id initial_status c stamp now data w fields w' :
  create_session float_of_str py_str stores_number strptime_ymd
    next_session_id initial_status c stamp now data w
  = ((Granted fields, 200), w') ->
  exists session log,
    w' = add_log log (add_session session w)
    /\ GRPOTransferSession.id session = next_session_id w
    /\ GRPOTransferSession.status session = initial_status
    /\ fields = [("session_id", PInt (next_session_id w));
                 ("session_code",
                  PStr (GRPOTransferSession.session_code session))].
Proof.
  unfold create_session, create_session_body. intro H.
  split_result H; try discriminate H.
  injection H as <- <-. do 2 eexists. repeat split.
Qed.

Lemma session_query_get_added w s :
  ~ In (GRPOTransferSession.id s) (map GRPOTransferSession.id (sessions w)) ->
  session_query_get (add_session s w) (GRPOTransferSession.id s) = Some s.
Proof.
  unfold session_query_get. simpl. intro Hfresh.
  induction (sessions w) as [|x l IH]; simpl in *.
  - now rewrite Z.eqb_refl.
  - destruct (GRPOTransferSession.id x =? GRPOTransferSession.id s) eqn:E.
    + apply Z.eqb_eq in E. exfalso. apply Hfresh. now left.
    + apply IH. intro Hin. apply Hfresh. now right.
Qed.

(** X20. A session can be posted the moment it is created: when the key the
    database hands out is new and no item refers to it, a successful
    [create_session] followed by [post_transfer_to_sap] on the returned
    session_id sends the ERP a document with no lines and empty-string
    warehouses. *)
Theorem fresh_session_posts_empty_document :
  forall float_of_str json_dumps py_str stores_number batches_of strptime_ymd
         next_session_id initial_status c stamp now data w fields w' sap,
    create_session float_of_str py_str stores_number strptime_ymd
      next_session_id initial_status c stamp now data w
    = ((Granted fields, 200), w') ->
    ~ In (next_session_id w) (map GRPOTransferSession.id (sessions w)) ->
    (forall item, In item (items w) ->
                  GRPOTransferItem.session_id item <> next_session_id w) ->
    lookup "session_id" fields = Some (PInt (next_session_id w))
    /\ exists document,
        snd (post_transfer_to_sap json_dumps py_str stores_number batches_of
               c sap (next_session_id w) w')
        = [((base_url sap ++ "/b1s/v1/StockTransfers")%string, document)]
        /\ StockTransfer.StockTransferLines document = []
        /\ StockTransfer.FromWarehouse document = PStr EmptyString
        /\ StockTransfer.ToWarehouse document = PStr EmptyString.
Proof.
  intros float_of_str json_dumps py_str stores_number batches_of strptime_ymd
         next_session_id initial_status c stamp now data w fields w' sap
         Hc Hfresh Hitems.
  apply create_session_success in Hc.
  destruct Hc as [session [log [-> [Hid [_ ->]]]]].
  split; [reflexivity|].
  assert (Hs : session_query_get (add_log log (add_session session w))
                 (next_session_id w) = Some session).
  { rewrite session_query_get_add_log, <- Hid.
    apply session_query_get_added. now rewrite Hid. }
  eexists. split; [apply post_transfer_calls; exact Hs|].
  assert (Hnone : session_items (add_log log (add_session session w))
                    (GRPOTransferSession.id session) = []).
  { unfold session_items. simpl. apply filter_none.
    intros item Hin. apply Z.eqb_neq. rewrite Hid. now apply Hitems. }
  unfold stock_transfer. rewrite Hnone. repeat split.
Qed.

(** ** Facts on the label listing *)

Lemma enumerate_from_app {A : Type} (l1 l2 : list A) (start : nat) :
  combine (seq start (List.length (l1 ++ l2))) (l1 ++ l2)
  = (combine (seq start (List.length l1)) l1
     ++ combine (seq (start + List.length l1) (List.length l2)) l2)%list.
Proof.
  revert start. induction l1 as [|x l1 IH]; intro start; simpl.
  - now rewrite Nat.add_0_r.
  - rewrite IH. now rewrite Nat.add_succ_r.
Qed.

Lemma label_entries_payloads label_pk (new : list GRPOTransferQRLabel.t)
      (start : nat) :
  map (fun e => get e "qr_data" PNone)
      (map (label_entry label_pk) (combine (seq start (List.length new)) new))
  = map (fun l => Return (PStr (GRPOTransferQRLabel.qr_data l))) new.
Proof.
  revert start. induction new as [|l new IH]; intro start; simpl;
    [reflexivity|].
  now rewrite IH.
Qed.

(** X21. What is minted is what is listed: after a successful minting, the
    labels listed for the session are those listed before followed by one
    entry per minted row, in minting order -- as many as [labels_generated]
    says -- and the payloads they carry are the dumps of the payloads the
    minting response returned. *)
Theorem minted_labels_are_listed :
  forall label_pk json_dumps batches_of c sid w n ls w',
    generate_qr_labels json_dumps batches_of c sid w =
        ((LabelsGenerated n ls, 200), w') ->
    exists before after,
      get_session_labels label_pk sid w
      = (Granted [("labels", PList before)], 200)
      /\ get_session_labels label_pk sid w'
         = (Granted [("labels", PList (before ++ after))], 200)
      /\ Z.of_nat (List.length after) = n
      /\ map (fun e => get e "qr_data" PNone) after
         = map (fun p => Return (PStr (json_dumps p))) ls.
Proof.
  intros label_pk json_dumps batches_of c sid w n ls w' H.
  destruct (generate_qr_labels_success _ _ _ _ _ _ _ _ H)
    as [session [new [Hs [-> [Hn [_ [Hp Hnum]]]]]]].
  assert (Hmine : forall l, In l new ->
                            (GRPOTransferQRLabel.session_id l =? sid) = true).
  { intros l Hl. rewrite Forall_forall in Hnum.
    destruct (Hnum l Hl) as [item [k [count [_ [_ ->]]]]]. simpl.
    apply Z.eqb_eq. exact (session_query_get_id _ _ _ Hs). }
  exists (map (label_entry label_pk) (session_labels w sid)),
         (map (label_entry label_pk)
              (combine (seq (List.length (labels w)) (List.length new)) new)).
  unfold get_session_labels.
  change (session_query_get (add_labels new w) sid)
    with (session_query_get w sid).
  rewrite Hs. split; [reflexivity|]. split; [|split].
  - unfold session_labels, enumerate. simpl labels.
    rewrite enumerate_from_app, filter_app, map_app. simpl.
    rewrite (forallb_filter_id
               (fun entry : nat * GRPOTransferQRLabel.t =>
                  GRPOTransferQRLabel.session_id (snd entry) =? sid)
               (combine (seq (List.length (labels w)) (List.length new)) new));
      [reflexivity|].
    apply forallb_forall. intros [pos l] Hin. simpl. apply Hmine.
    apply in_combine_r in Hin. exact Hin.
  - rewrite length_map, length_combine, length_seq, Nat.min_id. lia.
  - rewrite label_entries_payloads. rewrite <- (map_map json_dumps (fun s => Return (PStr s))).
    rewrite Hp. now rewrite map_map.
Qed.

(** ** The further statements on concrete requests *)

Lemma labels_generated_counts_rows_witness :
  let r := generate_qr_labels sample_dumps batch_rows alice 1 sample_db in
  let ls := match fst (fst r) with
            | LabelsGenerated _ ls => ls
            | _ => []
            end in
  r = ((LabelsGenerated 5 ls, 200), snd r)
  /\ exists new,
      labels (snd r) = (labels sample_db ++ new)%list
      /\ 5 = Z.of_nat (List.length new)
      /\ List.length ls = List.length new
      /\ 0 < 5
      /\ map sample_dumps ls = map GRPOTransferQRLabel.qr_data new.
Proof.
  intros r ls.
  assert (H : r = ((LabelsGenerated 5 ls, 200), snd r)) by reflexivity.
  split; [exact H|].
  exact (labels_generated_counts_rows sample_dumps batch_rows alice 1 sample_db
      5 ls
           (snd r) H).
Defined.

Lemma posting_touches_session_and_log_only_witness :
  let r := fst (post_transfer_to_sap sample_dumps sample_str
      sample_stores_number batch_rows alice
                  (erp_answering 201 (Return created_body)) 2
                  two_session_db) in
  In sample_session (sessions two_session_db)
  /\ GRPOTransferSession.id sample_session <> 2
  /\ In sample_session (sessions (snd r))
  /\ items (snd r) = items two_session_db
  /\ labels (snd r) = labels two_session_db.
Proof.
  intro r.
  assert (H1 : In sample_session (sessions two_session_db))
    by (left; reflexivity).
  assert (H2 : GRPOTransferSession.id sample_session <> 2)
    by discriminate.
  repeat (split; [assumption|]).
  destruct (posting_touches_session_and_log_only sample_dumps sample_str
      sample_stores_number batch_rows alice
              (erp_answering 201 (Return created_body)) 2 two_session_db)
    as [Hitems [_ [_ [Hlabels [_ [Hothers _]]]]]].
  split; [exact (Hothers sample_session H1 H2)|].
  split; [exact Hitems|exact Hlabels].
Defined.

Lemma reposting_sends_same_document_witness :
  let first := post_transfer_to_sap sample_dumps sample_str
      sample_stores_number batch_rows alice
                 (erp_answering 201 (Return created_body)) 1 sample_db in
  let second := post_transfer_to_sap sample_dumps sample_str
      sample_stores_number batch_rows alice
                  (erp_answering 201 (Return created_body)) 1
                  (snd (fst first)) in
  session_query_get sample_db 1 = Some sample_session
  /\ map snd (snd first) = [stock_transfer batch_rows alice
      sample_session sample_db]
  /\ map snd (snd second) = [stock_transfer batch_rows alice
      sample_session sample_db].
Proof.
  intros first second.
  assert (H : session_query_get sample_db 1 = Some sample_session)
    by reflexivity.
  split; [exact H|].
  exact (reposting_sends_same_document sample_dumps sample_str
      sample_stores_number batch_rows alice
           (erp_answering 201 (Return created_body))
           (erp_answering 201 (Return created_body)) 1 sample_db
           sample_session H).
Defined.

Lemma posted_lines_content_witness :
  session_query_get two_session_db 2
  = Some (GRPOTransferSession.mk 2 "GRPO-34-20260113110000"
            {| year := 2026; month := 1; day := 13 |} "draft" None PNone PNone)
  /\ exists url document,
      snd (post_transfer_to_sap sample_dumps sample_str sample_stores_number
          batch_rows alice erp_down 2
             two_session_db) = [(url, document)]
      /\ Forall
           (fun line =>
              StockTransferLine.BaseType line = "1250000001"
              /\ (exists item,
                     nth_error (session_items two_session_db 2)
                               (StockTransferLine.LineNum line) = Some item
                     /\ StockTransferLine.WarehouseCode line
                        = GRPOTransferItem.to_warehouse item)
              /\ (List.length
                    (StockTransferLine.StockTransferLinesBinAllocations line)
                  <= 2)%nat)
           (StockTransfer.StockTransferLines document).
Proof.
  assert (H : session_query_get two_session_db 2
              = Some (GRPOTransferSession.mk 2 "GRPO-34-20260113110000"
                        {| year := 2026; month := 1; day := 13 |} "draft"
                        None PNone PNone)) by reflexivity.
  split; [exact H|].
  destruct (posted_lines_content sample_dumps sample_str sample_stores_number
      batch_rows alice erp_down 2
              two_session_db _ H) as [url [document [Hcall Hlines]]].
  exists url, document. split; [exact Hcall|].
  eapply Forall_impl; [|exact Hlines].
  intros line [Hbase [[item [Hnth [_ [Hwh _]]]] [Hlen _]]].
  split; [exact Hbase|]. split; [|exact Hlen].
  exists item. split; [exact Hnth|exact Hwh].
Defined.

Lemma approval_keeps_item_origins_witness :
  let r := qc_approve_items sample_float_of_str sample_read_key
             sample_stores_number alice approve_with_split 1
             two_session_db in
  NoDup (map GRPOTransferItem.id (items two_session_db))
  /\ In sample_session (sessions two_session_db)
  /\ map origin (items (snd r)) = map origin (items two_session_db)
  /\ batches (snd r) = batches two_session_db
  /\ (exists new, splits (snd r) = (splits two_session_db ++ new)%list).
Proof.
  intro r.
  assert (H : NoDup (map GRPOTransferItem.id (items two_session_db)))
    by distinct_ids.
  assert (H1 : In sample_session (sessions two_session_db))
    by (left; reflexivity).
  repeat (split; [assumption|]).
  destruct (approval_keeps_item_origins sample_float_of_str sample_read_key
              sample_stores_number alice approve_with_split 1 two_session_db H)
    as [Ho [Hb [_ [Hsp _]]]].
  split; [exact Ho|]. split; [exact Hb|exact Hsp].
Defined.

Lemma bare_entry_resets_item_witness :
  let kv := [("item_id", PInt 20)] in
  let r := qc_approve_items sample_float_of_str sample_read_key
             sample_stores_number alice
             (PDict [("items", PList [PDict kv])]) 1 two_session_db in
  session_query_get two_session_db 1 = Some sample_session
  /\ (exists item,
         item_by_id two_session_db 20 = Some item
         /\ GRPOTransferItem.session_id item = 2
         /\ GRPOTransferItem.qc_status item = PStr "approved")
  /\ names_only kv 20
  /\ fst r = (Succeeded "Items approved successfully", 200)
  /\ option_map (fun i => (GRPOTransferItem.approved_quantity i,
                           GRPOTransferItem.qc_status i,
                           GRPOTransferItem.to_warehouse i))
                (item_by_id (snd r) 20)
     = Some (0%Q, PStr "pending", PNone).
Proof.
  intros kv r.
  assert (H0 : session_query_get two_session_db 1 = Some sample_session)
    by reflexivity.
  assert (H1 : exists item,
             item_by_id two_session_db 20 = Some item
             /\ GRPOTransferItem.session_id item = 2
             /\ GRPOTransferItem.qc_status item = PStr "approved")
    by (eexists; repeat split; reflexivity).
  assert (H2 : names_only kv 20)
    by (split; [reflexivity|repeat constructor]).
  repeat (split; [assumption|]).
  destruct H1 as [item [Hq _]].
  destruct (bare_entry_resets_item sample_float_of_str sample_read_key
              sample_stores_number alice 1 two_session_db
              sample_session [] kv 20 item H0 Hq H2) as [Hr Hitem].
  split; [exact Hr|]. unfold r. rewrite Hitem. reflexivity.
Defined.


Lemma approval_then_minting_witness :
  let kv := [("item_id", PInt 10); ("approved_quantity", PFloat (5 # 2));
             ("rejected_quantity", PInt 1);
             ("qc_status", PStr "approved"); ("to_warehouse", PStr "WH-01");
             ("splits",
              PList [PDict [("split_number", PInt 1);
                            ("quantity", PInt 2);
                            ("status", PStr "OK");
                            ("batch_number", PStr "S1")]])] in
  let r1 := qc_approve_items sample_float_of_str sample_read_key
              sample_stores_number alice
              (PDict [("items", PList [PDict kv])]) 1 two_session_db in
  let w2 := snd (generate_qr_labels sample_dumps batch_rows alice 1 (snd r1)) in
  session_query_get two_session_db 1 = Some sample_session
  /\ NoDup (map GRPOTransferItem.id (items two_session_db))
  /\ item_by_id two_session_db 10
     = Some (sample_item 10 "A" "pending" 0 "WH-IN" "WH-QC")
  /\ lookup "item_id" kv = Some (PInt 10)
  /\ lookup "qc_status" kv = Some (PStr "approved")
  /\ py_float sample_float_of_str (field kv "approved_quantity" (PInt 0))
     = Return (5 # 2)%Q
  /\ (0 < 5 # 2)%Q
  /\ fst r1 = (Succeeded "Items approved successfully", 200)
  /\ exists new,
      labels w2 = (labels two_session_db ++ new)%list
      /\ map GRPOTransferQRLabel.label_number
             (filter (fun l => GRPOTransferQRLabel.item_id l =? 10) new)
         = [1; 2].
Proof.
  intros kv r1 w2.
  assert (H0 : session_query_get two_session_db 1 = Some sample_session)
    by reflexivity.
  assert (H1 : NoDup (map GRPOTransferItem.id (items two_session_db)))
    by distinct_ids.
  assert (H2 : item_by_id two_session_db 10
               = Some (sample_item 10 "A" "pending" 0 "WH-IN" "WH-QC"))
    by reflexivity.
  assert (H3 : lookup "item_id" kv = Some (PInt 10)) by reflexivity.
  assert (H4 : lookup "qc_status" kv = Some (PStr "approved")) by reflexivity.
  assert (H5 : py_float sample_float_of_str
                 (field kv "approved_quantity" (PInt 0)) = Return (5 # 2)%Q)
    by reflexivity.
  assert (H6 : (0 < 5 # 2)%Q) by reflexivity.
  assert (H7 : fst r1 = (Succeeded "Items approved successfully", 200))
    by reflexivity.
  repeat (split; [assumption|]).
  destruct (approval_then_minting sample_float_of_str sample_dumps
              sample_read_key sample_stores_number batch_rows alice alice
              1 two_session_db sample_session [] kv 10 (5 # 2)%Q _
              H0 H1 H2 eq_refl H3 H4 H5 H6 H7) as [new [Hnew [Hnum _]]].
  exists new. split; [exact Hnew|exact Hnum].
Defined.


Lemma lookups_stop_at_login_witness :
  let sap := lookup_answering false 200 (Return rows_body) in
  ensure_logged_in sap = Return false
  /\ Forall (eq not_logged_in) (erp_lookups sap 4 33 "BOLT" "WH-01").
Proof.
  intro sap.
  assert (H : ensure_logged_in sap = Return false) by reflexivity.
  split; [exact H|].
  exact (proj1 (lookups_stop_at_login sap 4 33 "BOLT" "WH-01") H).
Defined.

Lemma validate_item_flags_witness :
  let sap := lookup_answering true 200 (Return both_flags_body) in
  let fields := match fst (validate_item sap "BOLT") with
                | Granted fields => fields
                | Refused _ => []
                end in
  validate_item sap "BOLT" = (Granted fields, 200)
  /\ exists batch_num serial_num,
      200 = 200
      /\ lookup "item_code" fields = Some (PStr "BOLT")
      /\ lookup "batch_num" fields = Some batch_num
      /\ lookup "serial_num" fields = Some serial_num
      /\ lookup "is_batch_item" fields = Some (PBool (eq_str batch_num "Y"))
      /\ lookup "is_serial_item" fields = Some (PBool (eq_str serial_num "Y"))
      /\ lookup "is_non_managed" fields
         = Some (PBool (negb (eq_str batch_num "Y")
                        && negb (eq_str serial_num "Y"))).
Proof.
  intros sap fields.
  assert (H : validate_item sap "BOLT" = (Granted fields, 200))
    by reflexivity.
  split; [exact H|].
  exact (validate_item_flags sap "BOLT" fields 200 H).
Defined.

Lemma bins_hide_erp_errors_witness :
  let sap := lookup_answering true 503 (Raise JSONDecodeError) in
  let r := {| status_code := 503; text := "upstream said no";
              json := Raise JSONDecodeError |} in
  ensure_logged_in sap = Return true
  /\ status_code r <> 200
  /\ get_warehouses sap
     = (Refused (Text ("SAP B1 API error: " ++ fmt_int 503)), 500)
  /\ get_bin_codes sap "WH-01"
     = (Granted [("bins", PList []);
                 ("message", PStr "No bin codes found for warehouse")], 200).
Proof.
  intros sap r.
  assert (H1 : ensure_logged_in sap = Return true) by reflexivity.
  assert (H2 : status_code r <> 200) by discriminate.
  repeat (split; [assumption|]).
  destruct (bins_hide_erp_errors sap "WH-01" r H1 H2) as [Hw Hb].
  split; [exact (Hw eq_refl)|exact (Hb eq_refl)].
Defined.

Lemma lookup_rows_projected_witness :
  let sap := lookup_answering true 200 (Return rows_body) in
  let r := {| status_code := 200; text := "upstream said no";
              json := Return rows_body |} in
  let rows := [PDict [("DocEntry", PInt 33); ("DocNum", PInt 1033);
                      ("SeriesID", PInt 4); ("Comments", PStr "urgent")];
               PDict [("DocEntry", PInt 34); ("CardName", PStr "ACME");
                      ("SeriesName", PStr "GR-2026")]] in
  ensure_logged_in sap = Return true
  /\ status_code r = 200
  /\ json r = Return (PDict [("value", PList rows)])
  /\ lookup "value" [("value", PList rows)] = Some (PList rows)
  /\ rows <> []
  /\ Forall is_dict rows
  /\ (exists out,
         get_doc_numbers sap 4 = (Granted [("documents", PList out)], 200)
         /\ Forall2 (projected ["DocEntry"; "DocNum"; "CardName"; "DocStatus"])
                    rows out)
  /\ (exists out,
         get_series_list sap = (Granted [("series", PList out)], 200)
         /\ Forall2 (projected ["SeriesID"; "SeriesName"; "NextNumber"])
                    rows out).
Proof.
  intros sap r rows.
  assert (H1 : ensure_logged_in sap = Return true) by reflexivity.
  assert (H2 : status_code r = 200) by reflexivity.
  assert (H3 : json r = Return (PDict [("value", PList rows)]))
    by reflexivity.
  assert (H4 : lookup "value" [("value", PList rows)] = Some (PList rows))
    by reflexivity.
  assert (H5 : rows <> []) by discriminate.
  assert (H6 : Forall is_dict rows)
    by (repeat constructor; eexists; reflexivity).
  repeat (split; [assumption|]).
  destruct (lookup_rows_projected sap 4 r _ rows H1 H2 H3 H4) as [Hd Hs].
  split.
  - exact (proj1 (Hd eq_refl) H6).
  - exact (proj1 (Hs eq_refl H5) H6).
Defined.

Lemma grpo_details_extraction_witness :
  let sap := lookup_answering true 200 (Return crossjoin_body) in
  let r := {| status_code := 200; text := "upstream said no";
              json := Return crossjoin_body |} in
  let null_row := PDict [("PurchaseDeliveryNotes", PNone)] in
  let first_row :=
    PDict [("PurchaseDeliveryNotes", PDict [("DocNum", PInt 1033)]);
           ("PurchaseDeliveryNotes/DocumentLines",
            PDict [("LineNum", PInt 0)])] in
  let second_row :=
    PDict [("PurchaseDeliveryNotes", PDict [("DocNum", PInt 9999)]);
           ("PurchaseDeliveryNotes/DocumentLines",
            PDict [("LineNum", PInt 1)])] in
  let rows := [null_row; first_row; second_row] in
  ensure_logged_in sap = Return true
  /\ session_get sap (grpo_details_url sap 33) = Return r
  /\ status_code r = 200
  /\ json r = Return (PDict [("value", PList rows)])
  /\ lookup "value" [("value", PList rows)] = Some (PList rows)
  /\ rows <> []
  /\ Forall is_dict rows
  /\ rows = ([null_row] ++ first_row :: [second_row])%list
  /\ Forall no_header_yet [null_row]
  /\ header_of first_row = Some (PDict [("DocNum", PInt 1033)])
  /\ truthy (PDict [("DocNum", PInt 1033)]) = true
  /\ get_grpo_details sap 33
     = (Granted [("document", PDict [("DocNum", PInt 1033)]);
                 ("line_items", PList (flat_map lines_of rows))], 200).
Proof.
  intros sap r null_row first_row second_row rows.
  assert (H1 : ensure_logged_in sap = Return true) by reflexivity.
  assert (H2 : session_get sap (grpo_details_url sap 33) = Return r)
    by reflexivity.
  assert (H3 : status_code r = 200) by reflexivity.
  assert (H4 : json r = Return (PDict [("value", PList rows)]))
    by reflexivity.
  assert (H5 : lookup "value" [("value", PList rows)] = Some (PList rows))
    by reflexivity.
  assert (H6 : rows <> []) by discriminate.
  assert (H7 : Forall is_dict rows)
    by (repeat constructor; eexists; reflexivity).
  assert (H8 : rows = ([null_row] ++ first_row :: [second_row])%list)
    by reflexivity.
  assert (H9 : Forall no_header_yet [null_row])
    by (repeat constructor).
  assert (H10 : header_of first_row = Some (PDict [("DocNum", PInt 1033)]))
    by reflexivity.
  assert (H11 : truthy (PDict [("DocNum", PInt 1033)]) = true)
    by reflexivity.
  repeat (split; [assumption|]).
  destruct (grpo_details_extraction sap 33 r _ rows H1 H2 H3 H4 H5 H6 H7)
    as [document [Hanswer [Hfirst _]]].
  rewrite Hanswer.
  now rewrite (Hfirst _ _ _ _ H8 H9 H10 H11).
Defined.

Lemma creation_needs_required_fields_witness :
  let kv := [("grpo_doc_entry", PInt 33); ("grpo_doc_num", PInt 1033);
             ("series_id", PInt 4); ("vendor_code", PStr "V001");
             ("doc_date", PStr "2026-01-13")] in
  In "vendor_name" required_fields
  /\ lookup "vendor_name" kv = None
  /\ create_session sample_float_of_str sample_str sample_stores_number
      sample_strptime
       sample_next_id "draft" alice "20260113100000"
       "2026-01-13T10:00:00.123456" (PDict kv) empty_db
     = ((Refused (Text "Missing required fields"), 400), empty_db).
Proof.
  intro kv.
  assert (H1 : In "vendor_name" required_fields)
    by (simpl; tauto).
  assert (H2 : lookup "vendor_name" kv = None) by reflexivity.
  repeat (split; [assumption|]).
  exact (creation_needs_required_fields sample_float_of_str sample_str
           sample_stores_number sample_strptime sample_next_id "draft" alice
               "20260113100000"
           "2026-01-13T10:00:00.123456" kv empty_db "vendor_name" H1 H2).
Defined.

Lemma creation_needs_doc_date_witness :
  Forall (fun f => lookup f creation_fields <> None) required_fields
  /\ lookup "doc_date" creation_fields = None
  /\ sample_strptime "2026-01-13T10:00:00.123456" = None
  /\ create_session sample_float_of_str sample_str sample_stores_number
      sample_strptime
       sample_next_id "draft" alice "20260113100000"
       "2026-01-13T10:00:00.123456" (PDict creation_fields) empty_db
     = ((Refused (StrOf ValueError), 500), empty_db).
Proof.
  assert (H1 : Forall (fun f => lookup f creation_fields <> None)
                 required_fields)
    by (repeat constructor; discriminate).
  assert (H2 : lookup "doc_date" creation_fields = None) by reflexivity.
  assert (H3 : sample_strptime "2026-01-13T10:00:00.123456" = None)
    by reflexivity.
  repeat (split; [assumption|]).
  exact (creation_needs_doc_date sample_float_of_str sample_str
           sample_stores_number sample_strptime sample_next_id "draft" alice
               "20260113100000"
           "2026-01-13T10:00:00.123456" creation_fields empty_db H1 H2 H3).
Defined.

Lemma fresh_session_posts_empty_document_witness :
  let data := PDict (("doc_date", PStr "2026-01-13") :: creation_fields) in
  let r := create_session sample_float_of_str sample_str sample_stores_number
      sample_strptime
             sample_next_id "draft" alice "20260113100000"
             "2026-01-13T10:00:00.123456" data empty_db in
  let fields := [("session_id", PInt 2);
                 ("session_code", PStr "GRPO-33-20260113100000")] in
  r = ((Granted fields, 200), snd r)
  /\ ~ In (sample_next_id empty_db)
          (map GRPOTransferSession.id (sessions empty_db))
  /\ (forall item, In item (items empty_db) ->
                   GRPOTransferItem.session_id item <> sample_next_id empty_db)
  /\ lookup "session_id" fields = Some (PInt (sample_next_id empty_db))
  /\ exists document,
      snd (post_transfer_to_sap sample_dumps sample_str sample_stores_number
          batch_rows alice erp_down
             (sample_next_id empty_db) (snd r))
      = [((base_url erp_down ++ "/b1s/v1/StockTransfers")%string, document)]
      /\ StockTransfer.StockTransferLines document = []
      /\ StockTransfer.FromWarehouse document = PStr EmptyString
      /\ StockTransfer.ToWarehouse document = PStr EmptyString.
Proof.
  intros data r fields.
  assert (H1 : r = ((Granted fields, 200), snd r)) by reflexivity.
  assert (H2 : ~ In (sample_next_id empty_db)
                    (map GRPOTransferSession.id (sessions empty_db)))
    by (simpl; intros [H|[]]; discriminate H).
  assert (H3 : forall item, In item (items empty_db) ->
                 GRPOTransferItem.session_id item <> sample_next_id empty_db)
    by (simpl; contradiction).
  repeat (split; [assumption|]).
  exact (fresh_session_posts_empty_document sample_float_of_str sample_dumps
           sample_str sample_stores_number batch_rows sample_strptime
           sample_next_id "draft" alice
           "20260113100000" "2026-01-13T10:00:00.123456" data empty_db
           fields (snd r) erp_down H1 H2 H3).
Defined.

Lemma minted_labels_are_listed_witness :
  let r := generate_qr_labels sample_dumps batch_rows alice 1 sample_db in
  let ls := match fst (fst r) with
            | LabelsGenerated _ ls => ls
            | _ => []
            end in
  let pk := fun n => Z.of_nat n + 1 in
  r = ((LabelsGenerated 5 ls, 200), snd r)
  /\ exists before after,
      get_session_labels pk 1 sample_db
      = (Granted [("labels", PList before)], 200)
      /\ get_session_labels pk 1 (snd r)
         = (Granted [("labels", PList (before ++ after))], 200)
      /\ Z.of_nat (List.length after) = 5
      /\ map (fun e => get e "qr_data" PNone) after
         = map (fun p => Return (PStr (sample_dumps p))) ls.
Proof.
  intros r ls pk.
  assert (H : r = ((LabelsGenerated 5 ls, 200), snd r)) by reflexivity.
  split; [exact H|].
  exact (minted_labels_are_listed pk sample_dumps batch_rows alice 1 sample_db
      5 ls
           (snd r) H).
Defined.
